(** * The SageMaker lab notebooks: a model of their code and its properties

    Two notebooks are covered:
    - the deployment notebook (register a model, deploy an endpoint, invoke
      it, clean up), whose cells call the SageMaker SDK and boto3;
    - the data processing notebook (lab3), whose [preprocessing_script.py]
      cleans a table with pandas and scikit-learn.

    Part I holds the definitions, translated cell by cell from the notebooks;
    Part II holds the lemmas and theorems about them. *)

From Stdlib Require Import String Ascii.
From Stdlib Require Import List Bool Arith ZArith QArith Qreduction Lia.
From Stdlib Require Import Floats.PrimFloat Floats.SpecFloat Floats.FloatOps.
From Stdlib Require Import Numbers.Cyclic.Int63.Uint63.
From Stdlib Require Sorting.Sorted Structures.OrderedTypeEx.
Import ListNotations.

Close Scope Q_scope.

(* ===================================================================== *)
(** * Part I: definitions *)
(* ===================================================================== *)

(** ** Python: exceptions and results *)

Module Py.

(** The exceptions the notebooks can meet.  botocore derives the class of a
    service error from its error code, so [client.exceptions.ResourceInUse]
    is the [ClientError] whose code is ["ResourceInUse"]. *)
Inductive exn : Type :=
| ClientError (code : string)
| KeyError (key : string)
| IndexError
| ValueError (msg : string)
| TypeError (msg : string)
| OtherError (name : string).

(** What a call gives back: a value, or a raised exception. *)
Inductive result (A : Type) : Type :=
| Returns (a : A)
| Raises (e : exn).
Arguments Returns {A} a.
Arguments Raises {A} e.

Definition bind {A B : Type} (r : result A) (k : A -> result B) : result B :=
  match r with
  | Returns a => k a
  | Raises e => Raises e
  end.

Definition is_ClientError (e : exn) : bool :=
  match e with ClientError _ => true | _ => false end.

End Py.

Declare Scope py_scope.
Delimit Scope py_scope with py.
Notation "x <- c ;; k" := (Py.bind c (fun x => k))
  (at level 61, c at next level, right associativity) : py_scope.

(** ** float64: the numbers of a numeric column

    The entries of a float64 column are IEEE binary64 values.  NaN is the
    missing entry of such a column and is not among the numbers below. *)

Module Float64.

(** A finite binary64: a signed zero, or [(-1)^s * m * 2^e].  Every
    finite binary64 is of this form; the type does not bound [m] and [e],
    so what holds of every [finite] holds of every finite binary64. *)
Inductive finite : Type :=
| Zero (negative : bool)
| Normal (negative : bool) (mantissa : positive) (exponent : Z).

Inductive float64 : Type :=
| Real (x : finite)
| Infinity (negative : bool).

Definition finite_of_spec (f : spec_float) : finite :=
  match f with
  | S754_finite s m e => Normal s m e
  | S754_zero s => Zero s
  | _ => Zero false
  end.

Definition spec_of_finite (x : finite) : spec_float :=
  match x with
  | Zero s => S754_zero s
  | Normal s m e => S754_finite s m e
  end.

(** An int64 as a float64 ([astype('float64')]): the nearest binary64,
    ties to even.  No int64 is out of range. *)
Definition of_int64 (z : Z) : finite :=
  finite_of_spec (binary_normalize prec emax z 0 false).

Definition signed (negative : bool) (m : positive) : Z :=
  if negative then Zneg m else Zpos m.

(** The number a finite binary64 stands for. *)
Definition value (x : finite) : Q :=
  match x with
  | Zero _ => 0%Q
  | Normal s m (Zneg p) => Qmake (signed s m) (Pos.pow 2 p)
  | Normal s m e => inject_Z (signed s m * 2 ^ e)
  end.

(** [==] on numbers: by value, so that [0.0 == -0.0]. *)
Definition float_eqb (x y : float64) : bool :=
  match x, y with
  | Real a, Real b => Qeq_bool (value a) (value b)
  | Infinity s, Infinity t => Bool.eqb s t
  | _, _ => false
  end.

(** The finite numbers of a list, if all of them are. *)
Fixpoint all_finite (xs : list float64) : option (list finite) :=
  match xs with
  | [] => Some []
  | Real q :: xs' => option_map (cons q) (all_finite xs')
  | Infinity _ :: _ => None
  end.

End Float64.

(** ** pandas: frames, columns and the operations the script calls

    pandas is a library the script imports, not code of the repository: each
    operation below follows the documented behaviour of the call the script
    makes, with the arguments the script passes. *)

Module Pandas.
Import Py.
Export Float64.
Local Open Scope py_scope.

(** What the model leaves to the libraries: how pandas turns one entry
    into a timestamp, and the value of a mean, which depends on the order
    and the rounding of NumPy's and pandas' sums.  A conversion gives
    [None] when it raises and [Some None] for [NaT].  The mean of finite
    numbers is taken to be finite: an overflow of the sum (magnitudes near
    1e308) is not modelled.  [np_mean] is given the column with its gaps
    and is used when at least one entry is there; [group_mean] is given the
    values of a group in row order; [group_mean_inf] is the same for a
    group that holds an infinite value, where the result may be NaN
    ([None]). *)
Record library : Type := {
  parse_datetime : string -> option (option Z);
  float_to_datetime : float64 -> option (option Z);
  int_to_datetime : Z -> option (option Z);
  np_mean : list (option finite) -> finite;
  group_mean : list finite -> finite;
  group_mean_inf : list float64 -> option float64
}.

(** A value seen in a row.  [NA] stands for NaN, None and NaT alike. *)
Inductive cell : Type :=
| Num (x : float64)
| Int (z : Z)
| Str (s : string)
| Date (t : Z)
| Flag (b : bool)
| NA.

(** A column is a typed array: float64 numbers with NaN ([None]) for a
    missing entry, integers (int64, and the uint8 of [get_dummies]), which
    have no missing entry, objects (the strings [read_csv] leaves),
    datetimes, booleans. *)
Inductive series : Type :=
| Number (v : list (option float64))
| Integer (v : list Z)
| Object (v : list (option string))
| Datetime (v : list (option Z))
| Boolean (v : list bool).

Record column : Type := { name : string; data : series }.

(** [index] holds the row labels, [columns] the named columns in order. *)
Record frame : Type := { index : list nat; columns : list column }.

Definition opt_cell {A : Type} (f : A -> cell) (x : option A) : cell :=
  match x with Some a => f a | None => NA end.

Definition cells_of (s : series) : list cell :=
  match s with
  | Number v => map (opt_cell Num) v
  | Integer v => map Int v
  | Object v => map (opt_cell Str) v
  | Datetime v => map (opt_cell Date) v
  | Boolean v => map Flag v
  end.

Definition series_length (s : series) : nat := length (cells_of s).

Definition nrows (df : frame) : nat := length (index df).

(** [df.shape[1]] *)
Definition ncols (df : frame) : nat := length (columns df).

(** Every column has one entry per row label. *)
Definition wf_frame (df : frame) : bool :=
  forallb (fun c => series_length (data c) =? nrows df) (columns df).

(** [include=['number']]: the float and the integer columns. *)
Definition is_number (s : series) : bool :=
  match s with Number _ | Integer _ => true | _ => false end.

Definition is_object (s : series) : bool :=
  match s with Object _ => true | _ => false end.

Definition notna (x : cell) : bool :=
  match x with NA => false | _ => true end.

(** *** Rows *)

Fixpoint zip_cons (c : list cell) (rs : list (list cell)) : list (list cell) :=
  match c, rs with
  | x :: c', r :: rs' => (x :: r) :: zip_cons c' rs'
  | _, _ => []
  end.

(** The rows of [n]-entry columns, first row first. *)
Fixpoint rows_of (n : nat) (cols : list (list cell)) : list (list cell) :=
  match cols with
  | [] => repeat [] n
  | c :: cs => zip_cons c (rows_of n cs)
  end.

Definition rows (df : frame) : list (list cell) :=
  rows_of (nrows df) (map (fun c => cells_of (data c)) (columns df)).

(** Each row paired with its label. *)
Definition labelled_rows (df : frame) : list (nat * list cell) :=
  combine (index df) (rows df).

(** The non-null entries of a row. *)
Definition count_notna (r : list cell) : nat := length (filter notna r).

(** *** Boolean indexing: [df.loc[mask]] *)

Fixpoint select {A : Type} (mask : list bool) (l : list A) : list A :=
  match mask, l with
  | b :: mask', x :: l' =>
      if b then x :: select mask' l' else select mask' l'
  | _, _ => []
  end.

Definition series_select (mask : list bool) (s : series) : series :=
  match s with
  | Number v => Number (select mask v)
  | Integer v => Integer (select mask v)
  | Object v => Object (select mask v)
  | Datetime v => Datetime (select mask v)
  | Boolean v => Boolean (select mask v)
  end.

Definition series_head (n : nat) (s : series) : series :=
  match s with
  | Number v => Number (firstn n v)
  | Integer v => Integer (firstn n v)
  | Object v => Object (firstn n v)
  | Datetime v => Datetime (firstn n v)
  | Boolean v => Boolean (firstn n v)
  end.

(** [df.head()]: the first five rows. *)
Definition head (df : frame) : frame :=
  {| index := firstn 5 (index df);
     columns := map (fun c => {| name := name c; data := series_head 5 (data c) |})
                    (columns df) |}.

(** *** [df[key]], [df[key] = value], [df.drop(columns=...)] *)

Fixpoint getitem_cols (cols : list column) (key : string) : result series :=
  match cols with
  | [] => Raises (KeyError key)
  | c :: cs => if String.eqb (name c) key then Returns (data c)
               else getitem_cols cs key
  end.

Definition getitem (df : frame) (key : string) : result series :=
  getitem_cols (columns df) key.

Definition has_column (df : frame) (key : string) : bool :=
  existsb (fun c => String.eqb (name c) key) (columns df).

(** An existing column is replaced where it stands; a new one goes last.
    A value of the wrong length is refused. *)
Definition setitem (df : frame) (key : string) (s : series) : result frame :=
  if negb (series_length s =? nrows df) then
    Raises (ValueError "Length of values does not match length of index")
  else if has_column df key then
    Returns {| index := index df;
               columns := map (fun c => if String.eqb (name c) key
                                        then {| name := key; data := s |}
                                        else c) (columns df) |}
  else
    Returns {| index := index df;
               columns := columns df ++ [{| name := key; data := s |}] |}.

Definition mem_string (k : string) (ks : list string) : bool :=
  existsb (String.eqb k) ks.

(** [errors='raise'] is the default: a label that is not a column is a
    [KeyError]. *)
Definition drop_columns (labels : list string) (df : frame) : result frame :=
  match filter (fun k => negb (has_column df k)) labels with
  | k :: _ => Raises (KeyError k)
  | [] => Returns {| index := index df;
                     columns := filter (fun c => negb (mem_string (name c) labels))
                                       (columns df) |}
  end.

(** *** [pd.to_datetime] *)

Section ToDatetime.
Variable lib : library.

(** Each entry that is there is converted; a missing entry is [NaT]. *)
Fixpoint convert_all {A : Type} (convert : A -> option (option Z))
         (v : list (option A)) : option (list (option Z)) :=
  match v with
  | [] => Some []
  | None :: v' => option_map (cons None) (convert_all convert v')
  | Some a :: v' =>
      match convert a, convert_all convert v' with
      | Some t, Some ts => Some (t :: ts)
      | _, _ => None
      end
  end.

Definition to_datetime (s : series) : result series :=
  match s with
  | Datetime v => Returns (Datetime v)
  | Object v =>
      match convert_all (parse_datetime lib) v with
      | Some ts => Returns (Datetime ts)
      | None => Raises (ValueError "Unknown string format")
      end
  | Number v =>
      match convert_all (float_to_datetime lib) v with
      | Some ts => Returns (Datetime ts)
      | None => Raises (ValueError "Out of bounds nanosecond timestamp")
      end
  | Integer v =>
      match convert_all (int_to_datetime lib) (map Some v) with
      | Some ts => Returns (Datetime ts)
      | None => Raises (ValueError "Out of bounds nanosecond timestamp")
      end
  | Boolean _ => Raises (TypeError "bool is not convertible to datetime")
  end.

(** [df[key] = pd.to_datetime(df[key])] *)
Definition convert_date_column (key : string) (df : frame) : result frame :=
  s <- getitem df key ;;
  t <- to_datetime s ;;
  setitem df key t.
End ToDatetime.

(** What a conversion to dates leaves of a column, by the type of the
    column: an entry that was missing is missing, a column of dates is as it
    was, a column of integers keeps its length, and a column of booleans is
    never converted. *)
Definition dates_of (s : series) (ts : list (option Z)) : Prop :=
  match s with
  | Object v => Forall2 (fun x d => x = None -> d = None) v ts
  | Number v => Forall2 (fun x d => x = None -> d = None) v ts
  | Integer v => length ts = length v
  | Datetime v => ts = v
  | Boolean _ => False
  end.

(** *** [df.dropna(thresh=int(df.shape[1] * 0.7))] *)

Definition float_of_nat (n : nat) : float :=
  PrimFloat.of_uint63 (Uint63.of_Z (Z.of_nat n)).

(** Python's [int] on a float: the integer part, towards zero. *)
Definition int_of_float (f : float) : Z :=
  match Prim2SF f with
  | S754_finite s m e =>
      let a := if (0 <=? e)%Z then Z.shiftl (Zpos m) e
               else Z.shiftr (Zpos m) (- e) in
      if s then (- a)%Z else a
  | _ => 0%Z
  end.

(** The double nearest to 0.7, which is what the literal [0.7] denotes. *)
Definition zero_point_seven : float := 0x1.6666666666666p-1%float.

(** [int(n * 0.7)]: a binary64 product, then truncated. *)
Definition seven_tenths (n : nat) : Z :=
  int_of_float (PrimFloat.mul (float_of_nat n) zero_point_seven).

(** [int(df.shape[1] * 0.7)] *)
Definition row_threshold (df : frame) : Z := seven_tenths (ncols df).

Definition bump (x : cell) (k : nat) : nat := if notna x then S k else k.

Fixpoint add_notna (c : list cell) (acc : list nat) : list nat :=
  match c, acc with
  | x :: c', k :: acc' => bump x k :: add_notna c' acc'
  | _, _ => []
  end.

(** [df.count(axis=1)]: the non-null entries of each row, summed column
    by column. *)
Definition notna_counts (df : frame) : list nat :=
  fold_right (fun c acc => add_notna (cells_of (data c)) acc)
             (repeat 0 (nrows df)) (columns df).

(** Rows with at least [thresh] non-null entries are kept. *)
Definition keep_mask (thresh : Z) (df : frame) : list bool :=
  map (fun k => (thresh <=? Z.of_nat k)%Z) (notna_counts df).

Definition dropna (thresh : Z) (df : frame) : frame :=
  let mask := keep_mask thresh df in
  {| index := select mask (index df);
     columns := map (fun c => {| name := name c;
                                 data := series_select mask (data c) |})
                    (columns df) |}.

Definition dropna_rows (df : frame) : frame := dropna (row_threshold df) df.

(** *** [df.groupby(key)[value].mean()] and [Series.map] *)

(** Keys are compared as values; a null key equals nothing. *)
Definition cell_eqb (x y : cell) : bool :=
  match x, y with
  | Num x, Num y => float_eqb x y
  | Int a, Int b => Z.eqb a b
  | Str s, Str t => String.eqb s t
  | Date a, Date b => Z.eqb a b
  | Flag a, Flag b => Bool.eqb a b
  | _, _ => false
  end.

(** The group keys: the distinct non-null keys.  pandas sorts them; the
    script only looks keys up, so the order of first appearance is kept. *)
Fixpoint distinct_keys (ks : list cell) : list cell :=
  match ks with
  | [] => []
  | k :: ks' =>
      let rest := filter (fun k' => negb (cell_eqb k' k)) (distinct_keys ks') in
      if notna k then k :: rest else rest
  end.

(** The non-null values of the rows whose key is [k]. *)
Fixpoint group_of (k : cell) (ks : list cell) (vs : list (option float64))
  : list float64 :=
  match ks, vs with
  | k' :: ks', v :: vs' =>
      if cell_eqb k' k then
        match v with
        | Some q => q :: group_of k ks' vs'
        | None => group_of k ks' vs'
        end
      else group_of k ks' vs'
  | _, _ => []
  end.

(** The values of all rows sharing the key [k], the missing ones left out. *)
Definition values_sharing (k : cell) (keys : list cell)
           (values : list (option float64)) : list float64 :=
  flat_map (fun kv : cell * option float64 => match snd kv with
                                        | Some q => [q]
                                        | None => []
                                        end)
           (filter (fun kv => cell_eqb (fst kv) k) (combine keys values)).

(** The mean of the values of a group; NaN ([None]) when there are none. *)
Definition mean (lib : library) (xs : list float64) : option float64 :=
  match xs with
  | [] => None
  | _ => match all_finite xs with
         | Some qs => Some (Real (group_mean lib qs))
         | None => group_mean_inf lib xs
         end
  end.

Definition one : float64 := Real (of_int64 1).
Definition zero : float64 := Real (of_int64 0).

(** What can be averaged, as float64: numbers, integers, and booleans as
    1 and 0. *)
Definition numeric_values (key : string) (s : series)
  : result (list (option float64)) :=
  match s with
  | Number v => Returns v
  | Integer v => Returns (map (fun z => Some (Real (of_int64 z))) v)
  | Boolean v => Returns (map (fun b : bool => Some (if b then one else zero)) v)
  | _ => Raises (TypeError "No numeric types to aggregate")
  end.

Definition groupby_mean (lib : library) (df : frame) (key value : string)
  : result (list (cell * option float64)) :=
  k <- getitem df key ;;
  s <- getitem df value ;;
  vs <- numeric_values value s ;;
  Returns (map (fun g => (g, mean lib (group_of g (cells_of k) vs)))
               (distinct_keys (cells_of k))).

Fixpoint lookup (k : cell) (table : list (cell * option float64))
  : option float64 :=
  match table with
  | [] => None
  | (g, m) :: table' => if cell_eqb g k then m else lookup k table'
  end.

(** [s.map(table)]: each entry is looked up; a miss gives NaN. *)
Definition series_map (s : series) (table : list (cell * option float64))
  : series :=
  Number (map (fun k => lookup k table) (cells_of s)).

(** *** [df.select_dtypes(include=[...]).columns] *)

Definition select_dtypes (keep : series -> bool) (df : frame) : list string :=
  map name (filter (fun c => keep (data c)) (columns df)).

(** *** [pd.get_dummies(df, columns=...)] *)

Fixpoint insert_category (s : string) (l : list string) : list string :=
  match l with
  | [] => [s]
  | t :: l' =>
      match String.compare s t with
      | Lt => s :: l
      | Eq => l
      | Gt => t :: insert_category s l'
      end
  end.

(** The levels of a column: its distinct non-null values, sorted. *)
Definition categories (v : list (option string)) : list string :=
  fold_right (fun x acc => match x with
                           | Some s => insert_category s acc
                           | None => acc
                           end) [] v.

Definition indicator (level : string) (x : option string) : Z :=
  match x with
  | Some s => if String.eqb s level then 1%Z else 0%Z
  | None => 0%Z
  end.

(** One 0/1 column per level, named [<column>_<level>]: of integers
    ([uint8]), as pandas writes them before its release 2.0; later releases
    write the same pattern as booleans. *)
Definition dummies (c : column) : list column :=
  match data c with
  | Object v =>
      map (fun level => {| name := String.append (name c) (String.append "_" level);
                           data := Integer (map (indicator level) v) |})
          (categories v)
  | _ => [c]
  end.

(** The columns left alone come first, then the dummies of each encoded
    column in turn. *)
Definition get_dummies (df : frame) (keys : list string) : frame :=
  {| index := index df;
     columns := filter (fun c => negb (mem_string (name c) keys)) (columns df)
                ++ flat_map dummies
                     (filter (fun c => mem_string (name c) keys) (columns df)) |}.

(** *** [df[keys] = X] for an array [X], given column by column *)

(** The keys are resolved to positions, here those of the numeric columns,
    and the array's columns are stored there in order. *)
Fixpoint assign_numeric (cols : list column) (X : list (list float64))
  : list column :=
  match cols with
  | [] => []
  | c :: cs =>
      if is_number (data c) then
        match X with
        | x :: X' => {| name := name c; data := Number (map Some x) |}
                     :: assign_numeric cs X'
        | [] => c :: cs
        end
      else c :: assign_numeric cs X
  end.

Definition setitem_numeric (df : frame) (keys : list string)
           (X : list (list float64)) : result frame :=
  if length X =? length keys then
    Returns {| index := index df; columns := assign_numeric (columns df) X |}
  else Raises (ValueError "Columns must be same length as key").

(** A numeric column as float64, which is what it is in the array. *)
Definition as_float64 (s : series) : list (list (option float64)) :=
  match s with
  | Number v => [v]
  | Integer v => [map (fun z => Some (Real (of_int64 z))) v]
  | _ => []
  end.

(** [df[keys]] as an array, column by column, for numeric keys.  The
    imputer works on float64: integer columns are converted. *)
Definition numeric_block (df : frame) : list (list (option float64)) :=
  flat_map (fun c => as_float64 (data c)) (columns df).

End Pandas.

(** ** scikit-learn: [SimpleImputer(strategy='mean')]

    As the job runs the script in the scikit-learn 1.2 image, the imputer
    has its defaults of that version: a feature without any observed value
    is dropped from the output. *)

Module Sklearn.
Import Py Pandas.

Definition observed (v : list (option float64)) : list float64 :=
  flat_map (fun x : option float64 => match x with Some q => [q] | None => [] end) v.

Definition has_infinity (v : list (option float64)) : bool :=
  existsb (fun x => match x with Some (Infinity _) => true | _ => false end) v.

(** The column as the mean sees it, once infinities are ruled out. *)
Definition masked (v : list (option float64)) : list (option finite) :=
  map (fun x => match x with Some (Real q) => Some q | _ => None end) v.

Section Imputer.
Variable lib : library.

(** [statistics_]: the mean of the entries of a feature that are there;
    none for a feature without any. *)
Definition statistic (v : list (option float64)) : option finite :=
  match observed v with
  | [] => None
  | _ => Some (np_mean lib (masked v))
  end.

Definition fill (m : finite) (x : option float64) : float64 :=
  match x with Some q => q | None => Real m end.

(** [transform] on one feature: it is filled with its statistic, or left
    out of the output when it has no observed entry. *)
Definition transform_one (v : list (option float64)) : list (list float64) :=
  match statistic v with
  | Some m => [map (fill m) v]
  | None => []
  end.

(** [fit_transform(X)] for [n_samples] rows.  The input is validated
    first: an empty array is refused, and so is one that holds an
    infinity (NaN is let through). *)
Definition fit_transform (n_samples : nat) (X : list (list (option float64)))
  : result (list (list float64)) :=
  if n_samples =? 0 then Raises (ValueError "Found array with 0 sample(s)")
  else match X with
       | [] => Raises (ValueError "Found array with 0 feature(s)")
       | _ =>
           if existsb has_infinity X then
             Raises (ValueError "Input X contains infinity or a value too large for dtype('float64').")
           else Returns (flat_map transform_one X)
       end.
End Imputer.

(** [v'] is [v] with [m] in the place of each missing entry. *)
Definition filled_with (m : float64) (v v' : list (option float64)) : Prop :=
  Forall2 (fun x x' => match x with
                       | Some q => x' = Some q
                       | None => x' = Some m
                       end) v v'.

(** [c'] is [c] after imputation: a float64 column keeps its entries and
    has the mean the library computes for it in place of the missing ones;
    an integer column is the same column as float64; any other column is as
    it was. *)
Definition imputed (lib : library) (c c' : column) : Prop :=
  name c' = name c
  /\ match data c with
     | Number v =>
         observed v <> []
         /\ exists v', data c' = Number v'
                       /\ filled_with (Real (np_mean lib (masked v))) v v'
     | Integer v => data c' = Number (map (fun z => Some (Real (of_int64 z))) v)
     | _ => data c' = data c
     end.

End Sklearn.

(** ** [preprocessing_script.py] *)

Module Preprocessing.
Import Py Pandas Sklearn.
Local Open Scope py_scope.
Local Open Scope string_scope.

Section Script.
(** The surroundings of the script: the libraries, the input file and the
    output file. *)
Variable lib : library.
Variable read_csv : result frame.
Variable to_csv : frame -> result unit.

(** [# Remove unnecessary data] *)
Definition unnecessary : list string :=
  ["fullAddress"; "rentEstimate_lowerPrice";
   "rentEstimate_currentPrice"; "rentEstimate_upperPrice";
   "saleEstimate_lowerPrice"; "saleEstimate_upperPrice";
   "outcode"; "saleEstimate_ingestedAt"].

Definition remove_unnecessary : frame -> result frame :=
  drop_columns unnecessary.

(** [# Correct date fields and drop originals] (the drop is commented
    out in the script) *)
Definition correct_sale_date : frame -> result frame :=
  convert_date_column lib "saleEstimate_valueChange.saleDate".

Definition correct_history_date : frame -> result frame :=
  convert_date_column lib "history_date".

(** [# Remove rows with excessive missing data] *)
Definition remove_sparse_rows (df : frame) : result frame :=
  Returns (dropna_rows df).

(** [# Find numeric columns] and [# Impute missing values for numeric
    columns] *)
Definition impute_numeric (df : frame) : result frame :=
  let numeric_cols := select_dtypes is_number df in
  X <- fit_transform lib (nrows df) (numeric_block df) ;;
  setitem_numeric df numeric_cols X.

(** [# Target Encoding postcode and current price ...] *)
Definition target_encode (df : frame) : result frame :=
  target_mean <- groupby_mean lib df "postcode" "saleEstimate_currentPrice" ;;
  postcode <- getitem df "postcode" ;;
  setitem df "Postcode_Encoded" (series_map postcode target_mean).

(** [# Drop original Postcode column as no longer needed] *)
Definition drop_postcode : frame -> result frame :=
  drop_columns ["postcode"].

(** [# Encode categorical columns] *)
Definition encode_categorical (df : frame) : result frame :=
  let categorical_cols := select_dtypes is_object df in
  Returns (get_dummies df categorical_cols).

(** The kinds of statement the script is made of, with the columns they
    name. *)
Inductive kind : Type :=
| DropColumns (labels : list string)
| ConvertDates (key : string)
| DropRows | ImputeMeans | TargetEncode | OneHotEncode.


Record step : Type := { what : kind; run : frame -> result frame }.

(** The statements between [read_csv] and [to_csv], in order. *)
Definition steps : list step :=
  [ {| what := DropColumns unnecessary; run := remove_unnecessary |};
    {| what := ConvertDates "saleEstimate_valueChange.saleDate";
       run := correct_sale_date |};
    {| what := ConvertDates "history_date"; run := correct_history_date |};
    {| what := DropRows; run := remove_sparse_rows |};
    {| what := ImputeMeans; run := impute_numeric |};
    {| what := TargetEncode; run := target_encode |};
    {| what := DropColumns ["postcode"]; run := drop_postcode |};
    {| what := OneHotEncode; run := encode_categorical |} ].

Fixpoint run_steps (ss : list step) (df : frame) : result frame :=
  match ss with
  | [] => Returns df
  | s :: ss' => df' <- run s df ;; run_steps ss' df'
  end.

(** The whole script; its value is the frame it writes. *)
Definition preprocessing_script : result frame :=
  df <- read_csv ;;
  df <- run_steps steps df ;;
  _ <- to_csv df ;;
  Returns df.
End Script.


End Preprocessing.

(** ** Frames to run the script on *)

Module Samples.
Import Py Pandas.
Local Open Scope string_scope.

Definition col (n : string) (s : series) : column := {| name := n; data := s |}.

(** The float64 entry that an integer literal denotes. *)
Definition num (z : Z) : option float64 := Some (Real (of_int64 z)).

Definition text (n : string) : column :=
  col n (Object [Some "a"; Some "b"; None; Some "c"]).

(** Four rows of a house price table; the third row is empty. *)
Definition houses : frame :=
  {| index := [0; 1; 2; 3];
     columns :=
       [ text "fullAddress"; text "rentEstimate_lowerPrice";
         text "rentEstimate_currentPrice"; text "rentEstimate_upperPrice";
         text "saleEstimate_lowerPrice"; text "saleEstimate_upperPrice";
         text "outcode"; text "saleEstimate_ingestedAt";
         col "saleEstimate_valueChange.saleDate"
             (Object [Some "2020-01-01"; None; None; Some "2021-05-05"]);
         col "history_date"
             (Object [Some "2019-01-01"; Some "2018-02-02"; None; None]);
         col "postcode" (Object [Some "E1"; Some "E2"; None; Some "E1"]);
         col "saleEstimate_currentPrice"
             (Number [num 100; num 300; None; None]);
         col "bedrooms" (Number [num 2; None; None; num 4]);
         col "tenure"
             (Object [Some "Leasehold"; Some "Freehold"; None; Some "Freehold"]) ] |}.

(** A stand-in for the date parser: the day count is the text's length. *)
Definition parse_length (s : string) : option (option Z) :=
  Some (Some (Z.of_nat (String.length s))).

(** A stand-in for the means: the sum from left to right and its division
    by the count, each rounded as IEEE 754 has it. *)
Definition float_sum (xs : list finite) : spec_float :=
  fold_left (fun acc x => SFadd prec emax acc (spec_of_finite x)) xs
            (S754_zero false).

Definition float_mean (xs : list finite) : finite :=
  finite_of_spec
    (SFdiv prec emax (float_sum xs)
           (binary_normalize prec emax (Z.of_nat (length xs)) 0 false)).

Definition present (v : list (option finite)) : list finite :=
  flat_map (fun x : option finite => match x with Some q => [q] | None => [] end) v.

(** A stand-in for the conversion of a number: its integer part is the
    timestamp, and an infinity is refused. *)
Definition whole_part (x : float64) : option (option Z) :=
  match x with
  | Real q => Some (Some (Z.quot (Qnum (value q)) (Zpos (Qden (value q)))))
  | Infinity _ => None
  end.

Definition sample_lib : library :=
  {| parse_datetime := parse_length;
     float_to_datetime := whole_part;
     int_to_datetime := fun z => Some (Some z);
     np_mean := fun v => float_mean (present v);
     group_mean := float_mean;
     group_mean_inf := fun _ => None |}.

(** The same table after imputation, with a postcode missing. *)
Definition houses_imputed : frame :=
  {| index := [0; 1; 3; 4];
     columns :=
       [ col "postcode" (Object [Some "E1"; Some "E2"; Some "E1"; None]);
         col "saleEstimate_currentPrice"
             (Number [num 100; num 300; num 200;
                      num 500]);
         col "tenure"
             (Object [Some "Leasehold"; Some "Freehold"; Some "Freehold"; None]) ] |}.


(** One row over ninety columns, of which the first sixty-two are filled. *)
Definition wide : frame :=
  {| index := [0];
     columns := map (fun i => col (String (ascii_of_nat (33 + i)) EmptyString)
                                  (Number [if Nat.ltb i 62 then num 1 else None]))
                    (seq 0 90) |}.







End Samples.

(** ** Notebook cells: calls, prints and sleeps threaded through a trace

    The services behind the SDK are not modelled: a world gives the answer
    to each call, and a run records what it calls, prints and sleeps. *)

Module Notebook.
Import Py.

(** The SDK entry points the two notebooks call. *)
Inductive op : Type :=
| Session | GetExecutionRole | DefaultBucket | UploadData
| ImageUrisRetrieve | ModelInit | ModelCreate
| Boto3Client (service : string)
| CreateModelPackageGroup | ModelRegister | ListModelPackages
| CreateEndpointConfig | CreateEndpoint | InvokeEndpoint | BodyRead
| DeleteEndpoint | DescribeEndpoint | DeleteEndpointConfig
| Boto3Session | ReadCsv (path : string) | Boto3Resource (service : string)
| UploadFile | ScriptProcessorInit | ProcessingInputInit
| ProcessingOutputInit | ProcessorRun.

Inductive event : Type :=
| Call (o : op)
| Print (msg : string)
| Sleep (seconds : nat).

(** What has happened so far, and how many times [describe_endpoint] has
    been asked. *)
Record state : Type := { trace : list event; polls : nat }.

Definition start : state := {| trace := []; polls := 0 |}.

(** How a run stands: finished, stopped by an exception nobody caught, or
    still inside its loop when the observation ends. *)
Inductive outcome (A : Type) : Type :=
| Done (a : A)
| Uncaught (e : exn)
| Running.
Arguments Done {A} a.
Arguments Uncaught {A} e.
Arguments Running {A}.

Definition M (A : Type) : Type := state -> outcome A * state.

Definition ret {A : Type} (a : A) : M A := fun s => (Done a, s).

Definition bind {A B : Type} (m : M A) (k : A -> M B) : M B :=
  fun s => match m s with
           | (Done a, s') => k a s'
           | (Uncaught e, s') => (Uncaught e, s')
           | (Running, s') => (Running, s')
           end.

Definition emit (ev : event) : M unit :=
  fun s => (Done tt, {| trace := trace s ++ [ev]; polls := polls s |}).

Definition print (msg : string) : M unit := emit (Print msg).

(** [time.sleep(seconds)] *)
Definition sleep (seconds : nat) : M unit := emit (Sleep seconds).

Definition raise {A : Type} (e : exn) : M A := fun s => (Uncaught e, s).

(** A call is recorded, then answers as the service does. *)
Definition call {A : Type} (o : op) (answer : result A) : M A :=
  bind (emit (Call o))
       (fun _ => match answer with
                 | Returns a => ret a
                 | Raises e => raise e
                 end).

(** [try: body / except <handled>: handler]: [handler e] is [None] for an
    exception the clause does not match. *)
Definition try_except {A : Type} (body : M A) (handler : exn -> option (M A)) : M A :=
  fun s => match body s with
           | (Uncaught e, s') =>
               match handler e with
               | Some h => h s'
               | None => (Uncaught e, s')
               end
           | r => r
           end.

Inductive ctl : Type := Continue | Break.

(** [while True: body], observed for at most [fuel] iterations. *)
Fixpoint while_true (fuel : nat) (body : M ctl) : M unit :=
  match fuel with
  | 0 => fun s => (Running, s)
  | S fuel' =>
      bind body (fun c => match c with
                          | Break => ret tt
                          | Continue => while_true fuel' body
                          end)
  end.

(** [xs[0]] *)
Definition first_item {A : Type} (xs : list A) : M A :=
  match xs with
  | [] => raise IndexError
  | x :: _ => ret x
  end.

(** The exception with which a call made once is answered, if any. *)
Definition raised {A : Type} (r : result A) : option exn :=
  match r with Returns _ => None | Raises e => Some e end.

Definition calls (tr : list event) : list op :=
  flat_map (fun ev => match ev with Call o => [o] | _ => [] end) tr.

End Notebook.

Declare Scope nb_scope.
Delimit Scope nb_scope with nb.
Notation "x <- c ;; k" := (Notebook.bind c (fun x => k))
  (at level 61, c at next level, right associativity) : nb_scope.
Notation "c ;;; k" := (Notebook.bind c (fun _ => k))
  (at level 61, right associativity) : nb_scope.

(** ** The deployment notebook *)

Module Deploy.
Import Py Notebook.
Local Open Scope nb_scope.
Local Open Scope string_scope.

(** The answers of the services to the notebook's calls.  A call made once
    has one answer; [describe_endpoint k] answers the [k]-th poll. *)
Record world : Type := {
  session : result unit;
  get_execution_role : result string;
  default_bucket : result string;
  upload_data : result string;
  image_uris_retrieve : result string;
  model_init : result unit;
  model_create : result unit;
  boto3_client : string -> result unit;
  create_model_package_group : result unit;
  model_register : result string;
  list_model_packages : result (list string);
  create_endpoint_config : result string;
  create_endpoint : result unit;
  invoke_endpoint : result unit;
  body_read : result string;
  delete_endpoint : result unit;
  describe_endpoint : nat -> result unit;
  delete_endpoint_config : result unit
}.

Definition model_name := "house-prices".
Definition model_package_group_name := "house-price-prediction-group".
Definition endpoint_config_name := "house-price-endpoint-config".
Definition endpoint_name := "house-price-prediction-endpoint".

Section Cells.
Variable w : world.

(** [# Step 1: Import necessary libraries] *)
Definition cell_imports : M unit :=
  _ <- call Session (session w) ;;
  role <- call GetExecutionRole (get_execution_role w) ;;
  _ <- call DefaultBucket (default_bucket w) ;;
  print role.

(** [# Upload the model artifact to S3] ... [model.create()] *)
Definition cell_create_model : M unit :=
  s3_uri <- call UploadData (upload_data w) ;;
  print ("File uploaded to: " ++ s3_uri) ;;;
  container_image_uri <- call ImageUrisRetrieve (image_uris_retrieve w) ;;
  print ("SageMaker Linear Learner Image URI: " ++ container_image_uri) ;;;
  _ <- call GetExecutionRole (get_execution_role w) ;;
  call ModelInit (model_init w) ;;;
  call ModelCreate (model_create w).

(** [# Create a model package group] *)
Definition cell_create_group : M unit :=
  call (Boto3Client "sagemaker") (boto3_client w "sagemaker") ;;;
  try_except
    (call CreateModelPackageGroup (create_model_package_group w) ;;;
     print ("Created Model Package Group: " ++ model_package_group_name))
    (fun e =>
       match e with
       | ClientError code =>
           if String.eqb code "ResourceInUse" then
             Some (print ("Model Package Group " ++ model_package_group_name
                          ++ " already exists."))
           else None
       | _ => None
       end).

(** [# Register the model] *)
Definition cell_register : M unit :=
  model_package_arn <- call ModelRegister (model_register w) ;;
  print ("Model package version ARN: " ++ model_package_arn).

(** [# Fetch the latest approved model package from the model registry] *)
Definition cell_fetch_approved : M string :=
  summaries <- call ListModelPackages (list_model_packages w) ;;
  latest_model_package_arn <- first_item summaries ;;
  print ("Latest Approved Model Package ARN: " ++ latest_model_package_arn) ;;;
  ret latest_model_package_arn.

(** [# Create Endpoint Config] *)
Definition cell_endpoint_config : M unit :=
  arn <- call CreateEndpointConfig (create_endpoint_config w) ;;
  print ("Endpoint configuration created: " ++ arn).

(** [# Create the endpoint] *)
Definition cell_create_endpoint : M unit :=
  call CreateEndpoint (create_endpoint w) ;;;
  print ("Creating endpoint: " ++ endpoint_name).

(** [# Make the prediction] *)
Definition cell_invoke : M unit :=
  call (Boto3Client "sagemaker-runtime") (boto3_client w "sagemaker-runtime") ;;;
  call InvokeEndpoint (invoke_endpoint w) ;;;
  prediction <- call BodyRead (body_read w) ;;
  print ("Predicted house price: " ++ prediction).

(** [sagemaker_client.describe_endpoint(EndpointName=endpoint_name)] in
    the loop: the next poll's answer. *)
Definition poll_endpoint : M unit :=
  fun s => call DescribeEndpoint (describe_endpoint w (polls s))
                {| trace := trace s; polls := S (polls s) |}.

(** The body of [while True:] under [# Wait for the endpoint to be
    deleted]. *)
Definition wait_body : M ctl :=
  try_except
    (poll_endpoint ;;;
     print "Endpoint is still being deleted. Waiting..." ;;;
     sleep 30 ;;;
     ret Continue)
    (fun e =>
       match e with
       | ClientError code =>
           Some (if String.eqb code "ValidationException" then
                   print "Endpoint deleted successfully." ;;; ret Break
                 else ret Continue)
       | _ => None
       end).

Definition wait_for_deletion (fuel : nat) : M unit :=
  while_true fuel wait_body.

(** [# Step 2: Delete the endpoint configuration] *)
Definition delete_config : M unit :=
  try_except
    (print ("Deleting endpoint configuration: " ++ endpoint_config_name) ;;;
     call DeleteEndpointConfig (delete_endpoint_config w) ;;;
     print "Endpoint configuration deleted successfully.")
    (fun e =>
       match e with
       | ClientError code =>
           Some (if String.eqb code "ValidationException" then
                   print "Endpoint configuration not found or already deleted."
                 else ret tt)
       | _ => None
       end).

(** The clean-up cell. *)
Definition cell_cleanup (fuel : nat) : M unit :=
  print ("Deleting endpoint: " ++ endpoint_name) ;;;
  call DeleteEndpoint (delete_endpoint w) ;;;
  wait_for_deletion fuel ;;;
  delete_config ;;;
  print "Cleanup complete.".

(** The notebook run top to bottom. *)
Definition notebook (fuel : nat) : M unit :=
  cell_imports ;;;
  cell_create_model ;;;
  cell_create_group ;;;
  cell_register ;;;
  _ <- cell_fetch_approved ;;
  cell_endpoint_config ;;;
  cell_create_endpoint ;;;
  cell_invoke ;;;
  cell_cleanup fuel.
End Cells.

Definition failure (w : world) (o : op) : option exn :=
  match o with
  | Session => raised (session w)
  | GetExecutionRole => raised (get_execution_role w)
  | DefaultBucket => raised (default_bucket w)
  | UploadData => raised (upload_data w)
  | ImageUrisRetrieve => raised (image_uris_retrieve w)
  | ModelInit => raised (model_init w)
  | ModelCreate => raised (model_create w)
  | Boto3Client service => raised (boto3_client w service)
  | CreateModelPackageGroup => raised (create_model_package_group w)
  | ModelRegister => raised (model_register w)
  | ListModelPackages => raised (list_model_packages w)
  | CreateEndpointConfig => raised (create_endpoint_config w)
  | CreateEndpoint => raised (create_endpoint w)
  | InvokeEndpoint => raised (invoke_endpoint w)
  | BodyRead => raised (body_read w)
  | DeleteEndpoint => raised (delete_endpoint w)
  | DeleteEndpointConfig => raised (delete_endpoint_config w)
  | _ => None
  end.

End Deploy.

(** ** Reading the trace of the wait loop *)

Module Polling.
Import Py Notebook Deploy.
Local Open Scope string_scope.

(** The answers to [n] polls from the [p]-th on. *)
Fixpoint answers (w : world) (p n : nat) : list (result unit) :=
  match n with
  | 0 => []
  | S n' => describe_endpoint w p :: answers w (S p) n'
  end.

Definition not_found : result unit := Raises (ClientError "ValidationException").

Definition is_poll (ev : event) : bool :=
  match ev with Call DescribeEndpoint => true | _ => false end.

(** The events up to the next poll. *)
Fixpoint until_poll (tr : list event) : list event :=
  match tr with
  | [] => []
  | ev :: tr' => if is_poll ev then [] else ev :: until_poll tr'
  end.

(** One entry per poll in the trace: what happened after it and before
    the next poll. *)
Fixpoint segments (tr : list event) : list (list event) :=
  match tr with
  | [] => []
  | ev :: tr' => if is_poll ev then until_poll tr' :: segments tr'
                 else segments tr'
  end.

(** What a run added to the trace, and how many polls it made. *)
Definition events_since (s s' : state) : list event :=
  skipn (length (trace s)) (trace s').

Definition polls_since (s s' : state) : nat := polls s' - polls s.

Definition waiting : list event :=
  [Print "Endpoint is still being deleted. Waiting..."; Sleep 30].

(** What one answer makes the loop do. *)
Inductive verdict : Type :=
| Slept | Retried | Exited | Propagated (e : exn).

Definition classify (r : result unit) : verdict :=
  match r with
  | Returns _ => Slept
  | Raises (ClientError code) =>
      if String.eqb code "ValidationException" then Exited else Retried
  | Raises e => Propagated e
  end.

Definition goes_on (r : result unit) : Prop :=
  classify r = Slept \/ classify r = Retried.

(** The events that follow a poll with answer [r], within its iteration. *)
Definition rest (r : result unit) : list event :=
  match classify r with
  | Slept => waiting
  | Exited => [Print "Endpoint deleted successfully."]
  | _ => []
  end.

Definition chunk (r : result unit) : list event :=
  Call DescribeEndpoint :: rest r.

Definition after (s : state) (r : result unit) : state :=
  {| trace := trace s ++ chunk r; polls := S (polls s) |}.

(** How a run ended, in terms of the [n] polls it made. *)
Definition ended (w : world) (p : nat) (fuel n : nat) (o : outcome unit) : Prop :=
  match o with
  | Running => n = fuel /\ Forall goes_on (answers w p n)
  | Done _ => exists m, n = S m /\ Forall goes_on (answers w p m)
                        /\ classify (describe_endpoint w (p + m)) = Exited
  | Uncaught e => exists m, n = S m /\ Forall goes_on (answers w p m)
                            /\ classify (describe_endpoint w (p + m)) = Propagated e
  end.

End Polling.

(** ** The data processing notebook (lab3) *)

Module Lab3.
Import Py Notebook.
Local Open Scope nb_scope.
Local Open Scope string_scope.

Record world : Type := {
  session : result unit;
  get_execution_role : result string;
  default_bucket : result string;
  boto3_session : result unit;
  read_csv : string -> result Pandas.frame;
  boto3_resource : string -> result unit;
  upload_file : result unit;
  image_uris_retrieve : result string;
  script_processor_init : result unit;
  processing_input_init : result unit;
  processing_output_init : result unit;
  processor_run : result unit
}.

Definition sample_csv := "kaggle_london_house_price_data_sampled_data.csv".

Section Cells.
Variable w : world.
(** How pandas prints a frame. *)
Variable render : Pandas.frame -> string.

(** [# Step 1: Setup Environment] *)
Definition cell_setup : M string :=
  _ <- call Session (session w) ;;
  role <- call GetExecutionRole (get_execution_role w) ;;
  bucket <- call DefaultBucket (default_bucket w) ;;
  call Boto3Session (boto3_session w) ;;;
  print ("SageMaker Role: " ++ role) ;;;
  print ("Default Bucket: " ++ bucket) ;;;
  ret bucket.

(** [# Example: Load a sample dataset] *)
Definition cell_explore : M unit :=
  df <- call (ReadCsv sample_csv) (read_csv w sample_csv) ;;
  print (render (Pandas.head df)).

(** [# Step 4: Upload Source Data to S3] *)
Definition cell_upload : M unit :=
  call (Boto3Resource "s3") (boto3_resource w "s3") ;;;
  call UploadFile (upload_file w).

(** [# Step 5: Run SageMaker Processing Job].  The arguments of a call
    are evaluated before it: the image lookup before [ScriptProcessor(...)],
    and [ProcessingInput(...)], then [ProcessingOutput(...)], before
    [processor.run(...)]. *)
Definition cell_run_job : M unit :=
  _ <- call ImageUrisRetrieve (image_uris_retrieve w) ;;
  call ScriptProcessorInit (script_processor_init w) ;;;
  call ProcessingInputInit (processing_input_init w) ;;;
  call ProcessingOutputInit (processing_output_init w) ;;;
  call ProcessorRun (processor_run w).

(** [# Step 6: Validate Cleaned Data] *)
Definition cell_validate (bucket : string) : M unit :=
  let path := "s3://" ++ bucket ++ "/output/data-processed/processed.csv" in
  df_cleaned <- call (ReadCsv path) (read_csv w path) ;;
  print (render (Pandas.head df_cleaned)).

(** The notebook run top to bottom.  The [%%writefile] cell only stores
    the script and calls nothing. *)
Definition notebook : M unit :=
  bucket <- cell_setup ;;
  cell_explore ;;;
  cell_upload ;;;
  cell_run_job ;;;
  cell_validate bucket.
End Cells.

Definition failure (w : world) (o : op) : option exn :=
  match o with
  | Session => raised (session w)
  | GetExecutionRole => raised (get_execution_role w)
  | DefaultBucket => raised (default_bucket w)
  | Boto3Session => raised (boto3_session w)
  | ReadCsv path => raised (read_csv w path)
  | Boto3Resource service => raised (boto3_resource w service)
  | UploadFile => raised (upload_file w)
  | ImageUrisRetrieve => raised (image_uris_retrieve w)
  | ScriptProcessorInit => raised (script_processor_init w)
  | ProcessingInputInit => raised (processing_input_init w)
  | ProcessingOutputInit => raised (processing_output_init w)
  | ProcessorRun => raised (processor_run w)
  | _ => None
  end.

End Lab3.

(** ** Worlds to run the notebooks in *)

Module Scenarios.
Import Py Notebook Deploy Polling.
Local Open Scope string_scope.

(** The endpoint is still there for [k] polls, then it is gone. *)
Definition gone_after (k : nat) : nat -> result unit :=
  fun n => if Nat.ltb n k then Returns tt else not_found.

(** The first poll is throttled, the next ones find nothing. *)
Definition throttled_once : nat -> result unit :=
  fun n => if Nat.eqb n 0 then Raises (ClientError "ThrottlingException")
           else not_found.


(** Every call made once succeeds; the group call, the approved packages,
    the polls and the last call are as given. *)
Definition world_with (group : result unit) (packages : list string)
           (answer : nat -> result unit) (config : result unit) : world :=
  {| session := Returns tt;
     get_execution_role := Returns "arn:aws:iam::role/lab";
     default_bucket := Returns "sagemaker-lab";
     upload_data := Returns "s3://sagemaker-lab/model/model.tar.gz";
     image_uris_retrieve := Returns "linear-learner:1";
     model_init := Returns tt;
     model_create := Returns tt;
     boto3_client := fun _ => Returns tt;
     create_model_package_group := group;
     model_register := Returns "arn:model-package/1";
     list_model_packages := Returns packages;
     create_endpoint_config := Returns "arn:endpoint-config";
     create_endpoint := Returns tt;
     invoke_endpoint := Returns tt;
     body_read := Returns "1354000.0";
     delete_endpoint := Returns tt;
     describe_endpoint := answer;
     delete_endpoint_config := config |}.

Definition happy : world :=
  world_with (Returns tt) ["arn:model-package/1"] (gone_after 2) (Returns tt).

(** Every call made once succeeds. *)
Definition all_succeed (w : world) : Prop :=
  forall o, o <> DescribeEndpoint -> failure w o = None.

(** As [happy], but [model.create()] is refused. *)
Definition create_refused : world :=
  {| session := Returns tt;
     get_execution_role := Returns "arn:aws:iam::role/lab";
     default_bucket := Returns "sagemaker-lab";
     upload_data := Returns "s3://sagemaker-lab/model/model.tar.gz";
     image_uris_retrieve := Returns "linear-learner:1";
     model_init := Returns tt;
     model_create := Raises (ClientError "AccessDeniedException");
     boto3_client := fun _ => Returns tt;
     create_model_package_group := Returns tt;
     model_register := Returns "arn:model-package/1";
     list_model_packages := Returns ["arn:model-package/1"];
     create_endpoint_config := Returns "arn:endpoint-config";
     create_endpoint := Returns tt;
     invoke_endpoint := Returns tt;
     body_read := Returns "1354000.0";
     delete_endpoint := Returns tt;
     describe_endpoint := gone_after 2;
     delete_endpoint_config := Returns tt |}.

(** A lab3 world in which the processing job fails. *)
Definition job_fails : Lab3.world :=
  {| Lab3.session := Returns tt;
     Lab3.get_execution_role := Returns "arn:aws:iam::role/lab";
     Lab3.default_bucket := Returns "sagemaker-lab";
     Lab3.boto3_session := Returns tt;
     Lab3.read_csv := fun _ => Returns {| Pandas.index := []; Pandas.columns := [] |};
     Lab3.boto3_resource := fun _ => Returns tt;
     Lab3.upload_file := Returns tt;
     Lab3.image_uris_retrieve := Returns "sklearn:1.2-1";
     Lab3.script_processor_init := Returns tt;
     Lab3.processing_input_init := Returns tt;
     Lab3.processing_output_init := Returns tt;
     Lab3.processor_run := Raises (OtherError "UnexpectedStatusException") |}.

End Scenarios.

(** ** What a run calls, and how it can end *)

Module Runs.
Import Py Notebook.

Definition called (o : op) (s : state) : Prop := In (Call o) (trace s).

(** [m] never calls [o]. *)
Definition avoids {A : Type} (o : op) (m : M A) : Prop :=
  forall s, ~ called o s -> ~ called o (snd (m s)).

(** If [m] calls [o], it ends with [e] uncaught. *)
Definition fails_with {A : Type} (o : op) (e : exn) (m : M A) : Prop :=
  forall s, ~ called o s ->
            ~ called o (snd (m s)) \/ fst (m s) = Uncaught e.

(** [m] never calls [o] and never runs to completion. *)
Definition stops_before {A : Type} (o : op) (m : M A) : Prop :=
  forall s, ~ called o s ->
            ~ called o (snd (m s)) /\ forall a, fst (m s) <> Done a.

(** When [m] runs to completion, the calls it made satisfy [P]. *)
Definition makes {A : Type} (m : M A) (P : list op -> Prop) : Prop :=
  forall s a s', m s = (Done a, s') ->
                 exists L, P L /\ calls (trace s') = calls (trace s) ++ L.

(** The calls made up to [delete_endpoint], the polls apart. *)
Definition calls_before_polling : list op :=
  [Session; GetExecutionRole; DefaultBucket; UploadData; ImageUrisRetrieve;
   GetExecutionRole; ModelInit; ModelCreate; Boto3Client "sagemaker";
CreateModelPackageGroup; ModelRegister; ListModelPackages;
CreateEndpointConfig; CreateEndpoint; Boto3Client "sagemaker-runtime";
InvokeEndpoint; BodyRead; DeleteEndpoint].

(** The sequence of calls as the specification lists it, with [n] polls. *)
Definition claimed_calls (n : nat) : list op :=
  [ModelCreate; CreateModelPackageGroup; ModelRegister; ListModelPackages;
CreateEndpointConfig; CreateEndpoint; InvokeEndpoint; DeleteEndpoint]
++ repeat DescribeEndpoint n ++ [DeleteEndpointConfig].

(** The operations that list names. *)
Definition named_in_claim (o : op) : bool :=
  match o with
  | ModelCreate | CreateModelPackageGroup | ModelRegister | ListModelPackages
  | CreateEndpointConfig | CreateEndpoint | InvokeEndpoint | DeleteEndpoint
  | DescribeEndpoint | DeleteEndpointConfig => true
  | _ => false
  end.

End Runs.

(** ** Measures of a run, and the order of the calls *)

Module Measures.
Import Py Notebook.
Local Open Scope string_scope.

(** The seconds a trace spends in [time.sleep]. *)
Definition slept (tr : list event) : nat :=
  fold_right (fun ev acc => match ev with Sleep n => n + acc | _ => acc end) 0 tr.

(** A poll that came back without an exception. *)
Definition returned (r : result unit) : bool :=
  match r with Returns _ => true | Raises _ => false end.


(** The calls the lab3 notebook makes before [processor.run]. *)
Definition before_processor_run : list op :=
  [Session; GetExecutionRole; DefaultBucket; Boto3Session;
   ReadCsv Lab3.sample_csv; Boto3Resource "s3"; UploadFile;
   ImageUrisRetrieve; ScriptProcessorInit; ProcessingInputInit;
   ProcessingOutputInit].

End Measures.

(** ** The paths of the lab3 notebook and of its script *)

Module Lab3Paths.
Local Open Scope string_scope.

Definition startswith_sep (s : string) : bool :=
  match s with
  | String c _ => Ascii.eqb c "/"
  | EmptyString => false
  end.

Fixpoint endswith_sep (s : string) : bool :=
  match s with
  | EmptyString => false
  | String c EmptyString => Ascii.eqb c "/"
  | String _ s' => endswith_sep s'
  end.

(** One round of [os.path.join] (posixpath): an absolute component starts
    the path afresh, otherwise it is appended, after a separator unless the
    path is empty or already ends with one. *)
Definition join_one (path b : string) : string :=
  if startswith_sep b then b
  else if (String.eqb path "" || endswith_sep path)%bool then path ++ b
  else path ++ "/" ++ b.

(** [os.path.join(a, *p)] *)
Definition os_path_join (a : string) (p : list string) : string :=
  fold_left join_one p a.

Definition input_raw_data_prefix := "input/".
Definition output_preprocessed_data_prefix := "output".

(** The key of [upload_file(..., bucket, 'input/data.csv')]. *)
Definition upload_key := "input/data.csv".

(** [ProcessingInput(source=..., destination=...)] *)
Definition input_source (bucket : string) : string :=
  "s3://" ++ os_path_join bucket [input_raw_data_prefix; "data.csv"].

Definition input_destination := "/opt/ml/processing/input".

(** [ProcessingOutput(source=..., destination=...)] *)
Definition output_source := "/opt/ml/processing/output".

Definition output_destination (bucket : string) : string :=
  "s3://" ++ os_path_join bucket [output_preprocessed_data_prefix; "data-processed"].

(** The path the last cell reads: [f's3://{bucket}/output/data-processed/processed.csv']. *)
Definition validated_path (bucket : string) : string :=
  "s3://" ++ bucket ++ "/output/data-processed/processed.csv".

(** The paths the script reads and writes. *)
Definition script_input := "/opt/ml/processing/input/data.csv".
Definition script_output := "/opt/ml/processing/output/processed.csv".

(** The URI of the object [key] of [bucket]. *)
Definition s3_uri (bucket key : string) : string := "s3://" ++ bucket ++ "/" ++ key.

End Lab3Paths.

(** ** More worlds to run the notebooks in *)

Module Outages.
Import Py Notebook Deploy Polling Scenarios.
Local Open Scope string_scope.


(** The endpoint never goes away: every poll finds it. *)
Definition never_gone : world :=
  world_with (Returns tt) ["arn:model-package/1"] (fun _ => Returns tt)
             (Returns tt).

(** The endpoint is found three times before it is gone. *)
Definition gone_after_three : world :=
  world_with (Returns tt) ["arn:model-package/1"] (gone_after 3) (Returns tt).

(** A lab3 world where every call succeeds and both reads give [df]. *)
Definition job_runs (df : Pandas.frame) : Lab3.world :=
  {| Lab3.session := Returns tt;
     Lab3.get_execution_role := Returns "arn:aws:iam::role/lab";
     Lab3.default_bucket := Returns "sagemaker-lab";
     Lab3.boto3_session := Returns tt;
     Lab3.read_csv := fun _ => Returns df;
     Lab3.boto3_resource := fun _ => Returns tt;
     Lab3.upload_file := Returns tt;
     Lab3.image_uris_retrieve := Returns "sklearn:1.2-1";
     Lab3.script_processor_init := Returns tt;
     Lab3.processing_input_init := Returns tt;
     Lab3.processing_output_init := Returns tt;
     Lab3.processor_run := Returns tt |}.

(** A lab3 world where the upload of the input is refused. *)
Definition upload_fails : Lab3.world :=
  {| Lab3.session := Returns tt;
     Lab3.get_execution_role := Returns "arn:aws:iam::role/lab";
     Lab3.default_bucket := Returns "sagemaker-lab";
     Lab3.boto3_session := Returns tt;
     Lab3.read_csv := fun _ => Returns {| Pandas.index := []; Pandas.columns := [] |};
     Lab3.boto3_resource := fun _ => Returns tt;
     Lab3.upload_file := Raises (ClientError "AccessDenied");
     Lab3.image_uris_retrieve := Returns "sklearn:1.2-1";
     Lab3.script_processor_init := Returns tt;
     Lab3.processing_input_init := Returns tt;
     Lab3.processing_output_init := Returns tt;
     Lab3.processor_run := Returns tt |}.

End Outages.

(* ===================================================================== *)
(** * Part II: properties *)
(* ===================================================================== *)

(** ** The wait loop of the clean-up cell *)

Module PollingFacts.
Import Py Notebook Deploy Polling.
Local Open Scope string_scope.
Local Open Scope list_scope.

Lemma wait_body_eq (w : world) (s : state) :
  wait_body w s =
  (match classify (describe_endpoint w (polls s)) with
   | Slept | Retried => Done Continue
   | Exited => Done Break
   | Propagated e => Uncaught e
   end, after s (describe_endpoint w (polls s))).
Proof.
  unfold wait_body, try_except, poll_endpoint, after, chunk.
  unfold bind, call, emit, print, sleep, ret, raise, bind. cbn.
  unfold rest.
  destruct (describe_endpoint w (polls s)) as [[]|e]; cbn.
  - rewrite <- !app_assoc. reflexivity.
  - destruct e; cbn; try reflexivity.
    destruct (String.eqb code "ValidationException"); cbn;
      rewrite <- ?app_assoc; reflexivity.
Qed.

(** One more observed iteration. *)
Lemma wait_step (w : world) (fuel : nat) (s : state) :
  wait_for_deletion w (S fuel) s =
  let r := describe_endpoint w (polls s) in
  match classify r with
  | Slept | Retried => wait_for_deletion w fuel (after s r)
  | Exited => (Done tt, after s r)
  | Propagated e => (Uncaught e, after s r)
  end.
Proof.
  unfold wait_for_deletion. cbn [while_true]. unfold bind at 1.
  rewrite wait_body_eq.
  destruct (classify (describe_endpoint w (polls s))); reflexivity.
Qed.

Lemma answers_length (w : world) (n : nat) :
  forall p, length (answers w p n) = n.
Proof. induction n as [|n IH]; intros p; cbn; [reflexivity|now rewrite IH]. Qed.

Lemma answers_nth (w : world) (n : nat) :
  forall p k, k < n ->
    nth_error (answers w p n) k = Some (describe_endpoint w (p + k)).
Proof.
  induction n as [|n IH]; intros p k Hk; [lia|].
  destruct k as [|k]; cbn.
  - now rewrite Nat.add_0_r.
  - rewrite IH by lia. f_equal. f_equal. lia.
Qed.

Lemma answers_In (w : world) (n : nat) :
  forall p r, In r (answers w p n) <->
              exists k, k < n /\ describe_endpoint w (p + k) = r.
Proof.
  intros p r. split.
  - intros H. apply In_nth_error in H. destruct H as [k Hk].
    assert (k < n) as Hlt.
    { rewrite <- (answers_length w n p). apply nth_error_Some. congruence. }
    exists k. split; [exact Hlt|].
    rewrite answers_nth in Hk by exact Hlt. congruence.
  - intros [k [Hlt Hk]]. apply nth_error_In with (n := k).
    rewrite answers_nth by exact Hlt. now rewrite Hk.
Qed.

Lemma ended_next (w : world) (p fuel n : nat) (o : outcome unit) :
  goes_on (describe_endpoint w p) ->
  ended w (S p) fuel n o -> ended w p (S fuel) (S n) o.
Proof.
  intros Hgo. destruct o as [u|e|]; cbn.
  - intros [m [-> [Hall Hlast]]]. exists (S m). repeat split.
    + cbn. constructor; assumption.
    + rewrite Nat.add_succ_r. exact Hlast.
  - intros [m [-> [Hall Hlast]]]. exists (S m). repeat split.
    + cbn. constructor; assumption.
    + rewrite Nat.add_succ_r. exact Hlast.
  - intros [-> Hall]. split; [reflexivity|]. constructor; assumption.
Qed.

(** The shape of every run of the loop: it polls [n] times, adds one chunk
    per answer, and stops at the first answer that does not let it go on. *)
Lemma wait_shape (w : world) (fuel : nat) :
  forall s, exists n,
    n <= fuel
    /\ polls (snd (wait_for_deletion w fuel s)) = polls s + n
    /\ trace (snd (wait_for_deletion w fuel s))
       = trace s ++ flat_map chunk (answers w (polls s) n)
    /\ ended w (polls s) fuel n (fst (wait_for_deletion w fuel s)).
Proof.
  induction fuel as [|fuel IH]; intros s.
  - exists 0. cbn. rewrite app_nil_r, Nat.add_0_r. repeat split; auto.
  - rewrite wait_step. cbv zeta.
    remember (describe_endpoint w (polls s)) as r eqn:Hr.
    assert (Hrun : goes_on r ->
              exists n, n <= S fuel
                /\ polls (snd (wait_for_deletion w fuel (after s r))) = polls s + n
                /\ trace (snd (wait_for_deletion w fuel (after s r)))
                   = trace s ++ flat_map chunk (answers w (polls s) n)
                /\ ended w (polls s) (S fuel) n
                         (fst (wait_for_deletion w fuel (after s r)))).
    { intros Hgo. destruct (IH (after s r)) as [n [Hle [Hp [Ht He]]]].
      exists (S n). cbn [after polls trace] in *. repeat split.
      - lia.
      - rewrite Hp. lia.
      - rewrite Ht. cbn [answers flat_map]. rewrite <- Hr.
        now rewrite <- app_assoc.
      - apply ended_next; [rewrite <- Hr; exact Hgo | exact He]. }
    destruct (classify r) eqn:Hc.
    + apply Hrun. now left.
    + apply Hrun. now right.
    + exists 1. cbn. rewrite <- Hr, app_nil_r. repeat split; try lia.
      exists 0. rewrite Nat.add_0_r, <- Hr. repeat split; auto.
    + exists 1. cbn. rewrite <- Hr, app_nil_r. repeat split; try lia.
      exists 0. rewrite Nat.add_0_r, <- Hr. repeat split; auto.
Qed.

(** *** Reading the trace back *)

Lemma rest_no_poll (r : result unit) : forallb (fun ev => negb (is_poll ev)) (rest r) = true.
Proof. unfold rest. destruct (classify r); reflexivity. Qed.

Lemma until_poll_app (pre tr : list event) :
  forallb (fun ev => negb (is_poll ev)) pre = true ->
  until_poll (pre ++ tr) = pre ++ until_poll tr.
Proof.
  induction pre as [|ev pre IH]; cbn; [reflexivity|].
  intros H. apply andb_prop in H. destruct H as [Hev Hpre].
  destruct (is_poll ev); [discriminate|]. now rewrite IH.
Qed.

Lemma segments_app (pre tr : list event) :
  forallb (fun ev => negb (is_poll ev)) pre = true ->
  segments (pre ++ tr) = segments tr.
Proof.
  induction pre as [|ev pre IH]; cbn; [reflexivity|].
  intros H. apply andb_prop in H. destruct H as [Hev Hpre].
  destruct (is_poll ev); [discriminate|]. now apply IH.
Qed.

Lemma until_poll_chunks (rs : list (result unit)) :
  until_poll (flat_map chunk rs) = [].
Proof. destruct rs; reflexivity. Qed.

(** The segments of a run's events are the [rest]s of its answers. *)
Lemma segments_chunks (rs : list (result unit)) :
  segments (flat_map chunk rs) = map rest rs.
Proof.
  induction rs as [|r rs IH]; [reflexivity|].
  cbn [flat_map map chunk app segments is_poll].
  rewrite until_poll_app, segments_app by apply rest_no_poll.
  now rewrite until_poll_chunks, app_nil_r, IH.
Qed.

Lemma events_since_app (s s' : state) (evs : list event) :
  trace s' = trace s ++ evs -> events_since s s' = evs.
Proof.
  intros H. unfold events_since. rewrite H.
  rewrite skipn_app, skipn_all, Nat.sub_diag. reflexivity.
Qed.

(** Every run, summed up: the polls it made, the segment after each, and
    how it ended. *)
Lemma wait_summary (w : world) (fuel : nat) (s : state) :
  let r := wait_for_deletion w fuel s in
  let n := polls_since s (snd r) in
  n <= fuel
  /\ segments (events_since s (snd r)) = map rest (answers w (polls s) n)
  /\ ended w (polls s) fuel n (fst r).
Proof.
  cbv zeta. destruct (wait_shape w fuel s) as [n [Hle [Hp [Ht He]]]].
  unfold polls_since. rewrite Hp.
  replace (polls s + n - polls s) with n by lia.
  rewrite (events_since_app _ _ _ Ht), segments_chunks. auto.
Qed.

Lemma classify_exited (r : result unit) :
  classify r = Exited <-> r = not_found.
Proof.
  unfold classify, not_found. split.
  - destruct r as [u|e]; [discriminate|]. destruct e; try discriminate.
    destruct (String.eqb code "ValidationException") eqn:E; [|discriminate].
    apply String.eqb_eq in E. now subst.
  - intros ->. reflexivity.
Qed.



Lemma goes_on_all (w : world) (p m k : nat) :
  Forall goes_on (answers w p m) -> k < m -> goes_on (describe_endpoint w (p + k)).
Proof.
  intros Hall Hk. rewrite Forall_forall in Hall. apply Hall.
  apply answers_In. now exists k.
Qed.



Lemma segment_of_poll (w : world) (fuel : nat) (s : state) (k : nat) :
  k < polls_since s (snd (wait_for_deletion w fuel s)) ->
  nth_error (segments (events_since s (snd (wait_for_deletion w fuel s)))) k
  = Some (rest (describe_endpoint w (polls s + k))).
Proof.
  intros Hk. destruct (wait_summary w fuel s) as [_ [Hseg _]].
  rewrite Hseg, nth_error_map, answers_nth by exact Hk. reflexivity.
Qed.

End PollingFacts.

(** ** Claims about the wait loop *)

Module Cleanup.
Import Py Notebook Deploy Polling PollingFacts Scenarios.
Local Open Scope string_scope.
Local Open Scope list_scope.





(** C7, as claimed, fails: when a poll is answered with a [ClientError]
    other than ["ValidationException"], the next poll follows with no
    sleep in between.  Here two polls are made and the run never sleeps. *)
Lemma sleep_between_polls_counterexample :
  let r := wait_for_deletion
             (world_with (Returns tt) [] throttled_once (Returns tt)) 5 start in
  fst r = Done tt
  /\ calls (trace (snd r)) = [DescribeEndpoint; DescribeEndpoint]
  /\ segments (trace (snd r)) = [[]; [Print "Endpoint deleted successfully."]]
  /\ ~ In (Sleep 30) (trace (snd r)).
Proof.
  cbv zeta. repeat split.
  vm_compute. intros [H|[H|[H|[]]]]; discriminate H.
Qed.

(** C7, amended.  Between a poll that returned successfully and the poll
    that follows it, the loop prints its waiting message and sleeps 30
    seconds, and does nothing else. *)
Theorem sleep_after_successful_poll (w : world) (fuel : nat) (s : state) (k : nat) :
  let r := wait_for_deletion w fuel s in
  S k < polls_since s (snd r) ->
  describe_endpoint w (polls s + k) = Returns tt ->
  nth_error (segments (events_since s (snd r))) k
  = Some [Print "Endpoint is still being deleted. Waiting..."; Sleep 30].
Proof.
  cbv zeta. intros Hk Hok.
  rewrite segment_of_poll by lia. now rewrite Hok.
Qed.

Lemma sleep_after_successful_poll_witness :
  nth_error (segments (events_since start
               (snd (wait_for_deletion happy 5 start)))) 0
  = Some [Print "Endpoint is still being deleted. Waiting..."; Sleep 30].
Proof.
  apply (sleep_after_successful_poll happy 5 start 0);
    [vm_compute; lia | reflexivity].
Defined.

End Cleanup.

(** ** Runs of notebook cells, cell by cell *)

Module RunFacts.
Import Py Notebook Runs.
Local Open Scope list_scope.

Lemma op_eq_dec (a b : op) : {a = b} + {a <> b}.
Proof. decide equality; apply string_dec. Qed.

Lemma calls_app (a b : list event) : calls (a ++ b) = calls a ++ calls b.
Proof. apply flat_map_app. Qed.

Section Avoids.
Variable o : op.

Lemma avoids_ret {A : Type} (a : A) : avoids o (ret a).
Proof. intros s H. exact H. Qed.

Lemma avoids_raise {A : Type} (e : exn) : avoids o (@raise A e).
Proof. intros s H. exact H. Qed.

Lemma avoids_emit (ev : event) : ev <> Call o -> avoids o (emit ev).
Proof.
  intros Hev s H Hin. unfold called in *. cbn in Hin.
  apply in_app_or in Hin. destruct Hin as [Hin|[Hin|[]]]; [auto|congruence].
Qed.

Lemma avoids_print (msg : string) : avoids o (print msg).
Proof. apply avoids_emit. discriminate. Qed.

Lemma avoids_sleep (n : nat) : avoids o (sleep n).
Proof. apply avoids_emit. discriminate. Qed.

Lemma avoids_bind {A B : Type} (m : M A) (k : A -> M B) :
  avoids o m -> (forall a, avoids o (k a)) -> avoids o (bind m k).
Proof.
  intros Hm Hk s H. unfold bind. specialize (Hm s H).
  destruct (m s) as [[a|e|] s1]; cbn in *; [now apply Hk|exact Hm|exact Hm].
Qed.

Lemma avoids_call {A : Type} (o' : op) (answer : result A) :
  o' <> o -> avoids o (call o' answer).
Proof.
  intros Hne. unfold call. apply avoids_bind.
  - apply avoids_emit. congruence.
  - intros _. destruct answer; [apply avoids_ret|apply avoids_raise].
Qed.

Lemma avoids_try {A : Type} (body : M A) (handler : exn -> option (M A)) :
  avoids o body -> (forall e h, handler e = Some h -> avoids o h) ->
  avoids o (try_except body handler).
Proof.
  intros Hb Hh s H. unfold try_except. specialize (Hb s H).
  destruct (body s) as [[a|e|] s1]; cbn in *; try exact Hb.
  destruct (handler e) as [h|] eqn:E; [|exact Hb].
  now apply (Hh e h E).
Qed.

Lemma avoids_while (body : M ctl) (fuel : nat) :
  avoids o body -> avoids o (while_true fuel body).
Proof.
  intros Hb. induction fuel as [|fuel IH]; cbn.
  - intros s H. exact H.
  - apply avoids_bind; [exact Hb|]. intros [|]; [exact IH|apply avoids_ret].
Qed.

Lemma avoids_first_item {A : Type} (xs : list A) : avoids o (first_item xs).
Proof. destruct xs; [apply avoids_raise|apply avoids_ret]. Qed.
End Avoids.

Section Fails.
Variables (o : op) (e : exn).

Lemma avoids_fails {A : Type} (m : M A) : avoids o m -> fails_with o e m.
Proof. intros H s Hs. left. now apply H. Qed.

Lemma fails_bind {A B : Type} (m : M A) (k : A -> M B) :
  fails_with o e m -> (forall a, fails_with o e (k a)) ->
  fails_with o e (bind m k).
Proof.
  intros Hm Hk s H. unfold bind. specialize (Hm s H).
  destruct (m s) as [[a|e0|] s1]; cbn in *.
  - destruct Hm as [Hm|Hm]; [now apply Hk|discriminate].
  - destruct Hm as [Hm|Hm]; [now left|right; congruence].
  - destruct Hm as [Hm|Hm]; [now left|discriminate].
Qed.

Lemma fails_call {A : Type} (o' : op) (answer : result A) :
  (o' = o -> answer = Raises e) -> fails_with o e (call o' answer).
Proof.
  intros Hans. destruct (op_eq_dec o' o) as [Heq|Hne].
  - intros s _. right. rewrite (Hans Heq). reflexivity.
  - apply avoids_fails. now apply avoids_call.
Qed.

(** A handler that does not take [e] lets the failure through. *)
Lemma fails_try {A : Type} (body : M A) (handler : exn -> option (M A)) :
  fails_with o e body -> handler e = None ->
  (forall e0 h, handler e0 = Some h -> avoids o h) ->
  fails_with o e (try_except body handler).
Proof.
  intros Hb He Hh s H. unfold try_except. specialize (Hb s H).
  destruct (body s) as [[a|e0|] s1]; cbn in *; try exact Hb.
  destruct (handler e0) as [h|] eqn:E; [|exact Hb].
  destruct Hb as [Hb|Hb].
  - left. now apply (Hh e0 h E).
  - congruence.
Qed.
End Fails.

Section Stops.
Variable o : op.

Lemma stops_here {A B : Type} (m : M A) (k : A -> M B) :
  stops_before o m -> stops_before o (bind m k).
Proof.
  intros Hm s H. unfold bind. destruct (Hm s H) as [Hc Hd].
  destruct (m s) as [[a|e|] s1]; cbn in *.
  - now destruct (Hd a).
  - split; [exact Hc|discriminate].
  - split; [exact Hc|discriminate].
Qed.

Lemma stops_later {A B : Type} (m : M A) (k : A -> M B) :
  avoids o m -> (forall a, stops_before o (k a)) -> stops_before o (bind m k).
Proof.
  intros Hm Hk s H. unfold bind. specialize (Hm s H).
  destruct (m s) as [[a|e|] s1]; cbn in *.
  - now apply Hk.
  - split; [exact Hm|discriminate].
  - split; [exact Hm|discriminate].
Qed.
End Stops.

Section Makes.
Lemma makes_ret {A : Type} (a : A) : makes (ret a) (eq []).
Proof.
  intros s a' s' H. injection H as _ <-. exists []. now rewrite app_nil_r.
Qed.

Lemma makes_emit (ev : event) : makes (emit ev) (eq (calls [ev])).
Proof.
  intros s a s' H. unfold emit in H. injection H as _ <-.
  exists (calls [ev]). split; [reflexivity|]. cbn [trace]. apply calls_app.
Qed.

Lemma makes_print (msg : string) : makes (print msg) (eq []).
Proof. apply (makes_emit (Print msg)). Qed.

Lemma makes_sleep (n : nat) : makes (sleep n) (eq []).
Proof. apply (makes_emit (Sleep n)). Qed.

Lemma makes_bind {A B : Type} (m : M A) (k : A -> M B)
      (P Q : list op -> Prop) :
  makes m P -> (forall a, makes (k a) Q) ->
  makes (bind m k) (fun L => exists L1 L2, P L1 /\ Q L2 /\ L = L1 ++ L2).
Proof.
  intros Hm Hk s b s' H. unfold bind in H.
  destruct (m s) as [[a|e|] s1] eqn:E; try discriminate H.
  destruct (Hm s a s1 E) as [L1 [HP HL]].
  destruct (Hk a s1 b s' H) as [L2 [HQ HL2]].
  exists (L1 ++ L2). split; [now exists L1, L2|].
  now rewrite HL2, HL, app_assoc.
Qed.

Lemma makes_weaken {A : Type} (m : M A) (P Q : list op -> Prop) :
  makes m P -> (forall L, P L -> Q L) -> makes m Q.
Proof.
  intros Hm HPQ s a s' H. destruct (Hm s a s' H) as [L [HP HL]].
  exists L. split; [now apply HPQ|exact HL].
Qed.

Lemma makes_seq {A B : Type} (m : M A) (k : A -> M B) (L1 L2 : list op) :
  makes m (eq L1) -> (forall a, makes (k a) (eq L2)) ->
  makes (bind m k) (eq (L1 ++ L2)).
Proof.
  intros Hm Hk. eapply makes_weaken.
  - apply makes_bind; [exact Hm|exact Hk].
  - intros L [L1' [L2' [<- [<- ->]]]]. reflexivity.
Qed.

Lemma makes_call {A : Type} (o : op) (answer : result A) :
  makes (call o answer) (eq [o]).
Proof.
  unfold call. change [o] with ([o] ++ []). apply makes_seq.
  - apply (makes_emit (Call o)).
  - intros _. destruct answer; [apply makes_ret|].
    intros s a s' H. discriminate H.
Qed.

Lemma makes_first_item {A : Type} (xs : list A) : makes (first_item xs) (eq []).
Proof.
  destruct xs; [|apply makes_ret]. intros s a s' H. discriminate H.
Qed.

Lemma makes_exactly {A : Type} (m : M A) (L L' : list op) :
  makes m (eq L) -> L = L' -> makes m (eq L').
Proof. now intros H <-. Qed.
End Makes.

(** [avoid] settles [avoids o m] for straight-line cells and handlers. *)
Ltac avoid :=
  repeat first
    [ apply avoids_ret | apply avoids_raise | apply avoids_print
    | apply avoids_sleep | apply avoids_first_item
    | apply avoids_call; congruence
    | apply avoids_bind; [|intros ?]
    | apply avoids_while
    | apply avoids_try;
      [|let e0 := fresh "e" in
        let h := fresh "h" in
        let E := fresh "E" in
        intros e0 h E; destruct e0; try discriminate E;
        match type of E with
        | context [if ?b then _ else _] => destruct b
        | _ => idtac
        end;
        try discriminate E; injection E as <-] ].

(** [hit_by Hf] settles [o' = o -> answer = Raises e] from
    [Hf : failure w o = Some e]. *)
Ltac hit_by Hf :=
  let Ho := fresh "Ho" in
  let Hf' := fresh "Hf" in
  intros Ho; pose proof Hf as Hf'; rewrite <- Ho in Hf';
  cbn [Lab3.failure Deploy.failure] in Hf';
  match type of Hf' with raised ?r = _ => destruct r end;
  cbn [raised] in Hf'; congruence.

(** [count_calls] settles [makes m (eq L)] for straight-line cells. *)
Ltac count_calls :=
  eapply makes_exactly;
  [ repeat first
      [ apply makes_call | apply makes_print | apply makes_sleep
      | apply makes_ret | apply makes_first_item
      | eapply makes_seq; [|intros ?] ]
  | reflexivity ].

End RunFacts.

(** ** Claims about the deployment notebook as a whole *)

Module DeployFacts.
Import Py Notebook Deploy Polling PollingFacts Scenarios Runs RunFacts.
Local Open Scope string_scope.
Local Open Scope list_scope.

Lemma not_called_at_start (o : op) : ~ called o start.
Proof. intros []. Qed.

(** *** What the loop calls *)

Lemma avoids_poll (w : world) (o : op) :
  o <> DescribeEndpoint -> avoids o (poll_endpoint w).
Proof.
  intros Hne s H. unfold poll_endpoint.
  apply (avoids_call o DescribeEndpoint (describe_endpoint w (polls s))
           (fun E => Hne (eq_sym E))
           {| trace := trace s; polls := S (polls s) |} H).
Qed.

Lemma avoids_wait (w : world) (fuel : nat) (o : op) :
  o <> DescribeEndpoint -> avoids o (wait_for_deletion w fuel).
Proof.
  intros Hne. unfold wait_for_deletion, wait_body.
  apply avoids_while. apply avoids_try.
  - apply avoids_bind; [now apply avoids_poll|intros ?]. avoid.
  - intros e h E. destruct e; try discriminate E.
    destruct (String.eqb code "ValidationException");
      injection E as <-; avoid.
Qed.

Ltac avoid_calls :=
  repeat first [ apply avoids_wait; congruence | progress avoid ].

Lemma calls_chunks (rs : list (result unit)) :
  calls (flat_map chunk rs) = repeat DescribeEndpoint (length rs).
Proof.
  induction rs as [|r rs IH]; [reflexivity|].
  cbn [flat_map length repeat]. rewrite calls_app, IH.
  unfold chunk, rest. destruct (classify r); reflexivity.
Qed.

Lemma makes_wait (w : world) (fuel : nat) :
  makes (wait_for_deletion w fuel)
        (fun L => exists n, L = repeat DescribeEndpoint (S n)).
Proof.
  intros s a s' H.
  destruct (wait_shape w fuel s) as [n [_ [_ [Ht He]]]].
  rewrite H in Ht, He. cbn [fst snd] in Ht, He.
  destruct He as [m [-> _]].
  exists (repeat DescribeEndpoint (S m)). split; [now exists m|].
  now rewrite Ht, calls_app, calls_chunks, answers_length.
Qed.

(** *** What each cell calls when it completes *)

Lemma makes_imports (w : world) :
  makes (cell_imports w) (eq [Session; GetExecutionRole; DefaultBucket]).
Proof. unfold cell_imports. count_calls. Qed.

Lemma makes_create_model (w : world) :
  makes (cell_create_model w)
        (eq [UploadData; ImageUrisRetrieve; GetExecutionRole; ModelInit; ModelCreate]).
Proof. unfold cell_create_model. count_calls. Qed.

Lemma makes_create_group (w : world) :
  makes (cell_create_group w) (eq [Boto3Client "sagemaker"; CreateModelPackageGroup]).
Proof.
  unfold cell_create_group.
  change [Boto3Client "sagemaker"; CreateModelPackageGroup]
    with ([Boto3Client "sagemaker"] ++ [CreateModelPackageGroup]).
  apply makes_seq; [apply makes_call|]. intros _ s a s' H.
  exists [CreateModelPackageGroup]. split; [reflexivity|].
  unfold try_except, bind, call, emit, print, ret, raise in H. cbn in H.
  destruct (create_model_package_group w) as [u|e]; cbn in H.
  - injection H as _ <-. cbn [trace]. now rewrite !calls_app, <- app_assoc.
  - destruct e; try discriminate H.
    destruct (String.eqb code "ResourceInUse"); [|discriminate H].
    injection H as _ <-. cbn [trace]. now rewrite !calls_app, <- app_assoc.
Qed.

Lemma makes_register (w : world) : makes (cell_register w) (eq [ModelRegister]).
Proof. unfold cell_register. count_calls. Qed.

Lemma makes_fetch_approved (w : world) :
  makes (cell_fetch_approved w) (eq [ListModelPackages]).
Proof. unfold cell_fetch_approved. count_calls. Qed.

Lemma makes_endpoint_config (w : world) :
  makes (cell_endpoint_config w) (eq [CreateEndpointConfig]).
Proof. unfold cell_endpoint_config. count_calls. Qed.

Lemma makes_create_endpoint (w : world) :
  makes (cell_create_endpoint w) (eq [CreateEndpoint]).
Proof. unfold cell_create_endpoint. count_calls. Qed.

Lemma makes_invoke (w : world) :
  makes (cell_invoke w)
        (eq [Boto3Client "sagemaker-runtime"; InvokeEndpoint; BodyRead]).
Proof. unfold cell_invoke. count_calls. Qed.

Lemma makes_delete_config (w : world) :
  makes (delete_config w) (eq [DeleteEndpointConfig]).
Proof.
  intros s a s' H. exists [DeleteEndpointConfig]. split; [reflexivity|].
  unfold delete_config, try_except, bind, call, emit, print, ret, raise in H.
  cbn in H. destruct (delete_endpoint_config w) as [u|e]; cbn in H.
  - injection H as _ <-. cbn [trace]. now rewrite !calls_app, <- !app_assoc.
  - destruct e; try discriminate H.
    destruct (String.eqb code "ValidationException");
      injection H as _ <-; cbn [trace]; now rewrite !calls_app, <- !app_assoc.
Qed.

(** [chain] splits a sequence of cells; [unchain] reads the result back. *)
Ltac chain lem := eapply makes_bind; [apply lem|intros ?].

Ltac unchain :=
  intros ? ?; cbv beta in *;
  repeat match goal with
         | H : exists _, _ |- _ => destruct H
         | H : _ /\ _ |- _ => destruct H
         end;
  subst.

Lemma makes_cleanup (w : world) (fuel : nat) :
  makes (cell_cleanup w fuel)
        (fun L => exists n,
             L = DeleteEndpoint :: repeat DescribeEndpoint (S n)
                 ++ [DeleteEndpointConfig]).
Proof.
  unfold cell_cleanup. eapply makes_weaken.
  - chain makes_print. chain (@makes_call unit). chain makes_wait.
    chain makes_delete_config. apply makes_print.
  - unchain. eexists. reflexivity.
Qed.

Lemma makes_notebook (w : world) (fuel : nat) :
  makes (notebook w fuel)
        (fun L => exists n,
             L = calls_before_polling ++ repeat DescribeEndpoint (S n)
                 ++ [DeleteEndpointConfig]).
Proof.
  unfold notebook. eapply makes_weaken.
  - chain makes_imports. chain makes_create_model. chain makes_create_group.
    chain makes_register. chain makes_fetch_approved.
    chain makes_endpoint_config. chain makes_create_endpoint.
    chain makes_invoke. apply makes_cleanup.
  - unchain. eexists. reflexivity.
Qed.

End DeployFacts.

(** ** The data processing notebook: failures are not handled *)

Module Lab3Facts.
Import Py Notebook Runs RunFacts.
Local Open Scope string_scope.
Local Open Scope list_scope.

Lemma fails_notebook (w : Lab3.world) (render : Pandas.frame -> string)
      (o : op) (e : exn) :
  Lab3.failure w o = Some e -> fails_with o e (Lab3.notebook w render).
Proof.
  intros Hf.
  unfold Lab3.notebook, Lab3.cell_setup, Lab3.cell_explore, Lab3.cell_upload,
    Lab3.cell_run_job, Lab3.cell_validate.
  repeat first
    [ apply fails_call; hit_by Hf
    | apply avoids_fails; solve [avoid]
    | apply fails_bind; [|intros ?] ].
Qed.

End Lab3Facts.

Module NotebookClaims.
Import Py Notebook Deploy Polling PollingFacts Scenarios Runs RunFacts DeployFacts.
Local Open Scope string_scope.
Local Open Scope list_scope.

Ltac find_event := repeat (try (left; reflexivity); right).

(** *** Failure handling (C2) *)

Lemma fails_unguarded (w : world) (fuel : nat) (o : op) (e : exn) :
  o <> CreateModelPackageGroup -> o <> DeleteEndpointConfig ->
  failure w o = Some e -> fails_with o e (notebook w fuel).
Proof.
  intros H1 H2 Hf.
  assert (o <> DescribeEndpoint) as H3 by (intros ->; discriminate Hf).
  unfold notebook, cell_imports, cell_create_model, cell_create_group,
    cell_register, cell_fetch_approved, cell_endpoint_config,
    cell_create_endpoint, cell_invoke, cell_cleanup, delete_config.
  repeat first
    [ apply fails_call; hit_by Hf
    | apply avoids_fails; solve [avoid_calls]
    | apply fails_bind; [|intros ?] ].
Qed.

Lemma fails_create_group (w : world) (fuel : nat) (e : exn) :
  create_model_package_group w = Raises e -> e <> ClientError "ResourceInUse" ->
  fails_with CreateModelPackageGroup e (notebook w fuel).
Proof.
  intros Hr He.
  unfold notebook, cell_imports, cell_create_model, cell_create_group,
    cell_register, cell_fetch_approved, cell_endpoint_config,
    cell_create_endpoint, cell_invoke, cell_cleanup, delete_config.
  repeat first
    [ apply avoids_fails; solve [avoid_calls]
    | apply fails_call; intros _; exact Hr
    | apply fails_try;
      [ | destruct e; try reflexivity;
          destruct (String.eqb_spec code "ResourceInUse");
          [subst; contradiction|reflexivity]
        | intros e0 h E; destruct e0; try discriminate E;
          destruct (String.eqb code "ResourceInUse");
          [injection E as <-; avoid|discriminate E] ]
    | apply fails_bind; [|intros ?] ].
Qed.

Lemma fails_delete_config (w : world) (fuel : nat) (e : exn) :
  delete_endpoint_config w = Raises e -> is_ClientError e = false ->
  fails_with DeleteEndpointConfig e (notebook w fuel).
Proof.
  intros Hr He.
  unfold notebook, cell_imports, cell_create_model, cell_create_group,
    cell_register, cell_fetch_approved, cell_endpoint_config,
    cell_create_endpoint, cell_invoke, cell_cleanup, delete_config.
  repeat first
    [ apply avoids_fails; solve [avoid_calls]
    | apply fails_call; intros _; exact Hr
    | apply fails_try;
      [ | destruct e; try reflexivity; discriminate He
        | intros e0 h E; destruct e0; try discriminate E;
          destruct (String.eqb code "ValidationException");
          injection E as <-; avoid ]
    | apply fails_bind; [|intros ?] ].
Qed.

(** C2, as claimed, fails: [create_model_package_group] and
    [delete_endpoint_config] sit inside [try]/[except] blocks.  In this
    run both calls are made and both raise, yet the notebook runs to its
    end. *)
Lemma unhandled_failures_counterexample :
  let w := world_with (Raises (ClientError "ResourceInUse"))
                      ["arn:model-package/1"] (gone_after 0)
                      (Raises (ClientError "AccessDeniedException")) in
  let r := notebook w 5 start in
  failure w CreateModelPackageGroup = Some (ClientError "ResourceInUse")
  /\ failure w DeleteEndpointConfig = Some (ClientError "AccessDeniedException")
  /\ called CreateModelPackageGroup (snd r)
  /\ called DeleteEndpointConfig (snd r)
  /\ In (Print "Model Package Group house-price-prediction-group already exists.")
        (trace (snd r))
  /\ fst r = Done tt.
Proof.
  cbv zeta. unfold called.
  split; [vm_compute; reflexivity|].
  split; [vm_compute; reflexivity|].
  split; [vm_compute; find_event|].
  split; [vm_compute; find_event|].
  split; [vm_compute; find_event|].
  vm_compute. reflexivity.
Qed.

(** C2, amended.  Apart from the wait loop, the notebooks handle failures
    in two places only: [create_model_package_group] raising
    [ResourceInUse] is caught, the cell prints that the group already
    exists and completes; [delete_endpoint_config] raising a [ClientError]
    is caught, the cell completes, and it prints a message for the code
    ["ValidationException"] and nothing for any other code.  Any other
    failure of those two calls, and every failure of any other call made
    once (create model, register model package, list model packages, create
    endpoint config, create endpoint, invoke endpoint, delete endpoint, and
    in lab3 the processing job), ends the run with that exception
    uncaught. *)
Theorem failures_outside_handlers_propagate :
  (forall w fuel o e,
      o <> CreateModelPackageGroup -> o <> DeleteEndpointConfig ->
      failure w o = Some e ->
      called o (snd (notebook w fuel start)) ->
      fst (notebook w fuel start) = Uncaught e)
  /\ (forall w fuel e,
         create_model_package_group w = Raises e ->
         e <> ClientError "ResourceInUse" ->
         called CreateModelPackageGroup (snd (notebook w fuel start)) ->
         fst (notebook w fuel start) = Uncaught e)
  /\ (forall w fuel e,
         delete_endpoint_config w = Raises e ->
         is_ClientError e = false ->
         called DeleteEndpointConfig (snd (notebook w fuel start)) ->
         fst (notebook w fuel start) = Uncaught e)
  /\ (forall w s,
         boto3_client w "sagemaker" = Returns tt ->
         create_model_package_group w = Raises (ClientError "ResourceInUse") ->
         fst (cell_create_group w s) = Done tt
         /\ trace (snd (cell_create_group w s))
            = trace s
              ++ [Call (Boto3Client "sagemaker");
                  Call CreateModelPackageGroup; Print
                    "Model Package Group house-price-prediction-group already exists."])
  /\ (forall w s code,
         delete_endpoint_config w = Raises (ClientError code) ->
         fst (delete_config w s) = Done tt
         /\ trace (snd (delete_config w s))
            = trace s
              ++ [Print "Deleting endpoint configuration: house-price-endpoint-config";
                  Call DeleteEndpointConfig]
              ++ (if String.eqb code "ValidationException"
                  then [Print "Endpoint configuration not found or already deleted."]
                  else []))
  /\ (forall w render o e,
         Lab3.failure w o = Some e ->
         called o (snd (Lab3.notebook w render start)) ->
         fst (Lab3.notebook w render start) = Uncaught e).
Proof.
  split; [|split; [|split; [|split; [|split]]]].
  - intros w fuel o e H1 H2 Hf Hc.
    destruct (fails_unguarded w fuel o e H1 H2 Hf start (not_called_at_start o))
      as [H|H]; [contradiction|exact H].
  - intros w fuel e Hr He Hc.
    destruct (fails_create_group w fuel e Hr He start (not_called_at_start _))
      as [H|H]; [contradiction|exact H].
  - intros w fuel e Hr He Hc.
    destruct (fails_delete_config w fuel e Hr He start (not_called_at_start _))
      as [H|H]; [contradiction|exact H].
  - intros w s Hb Hr.
    unfold cell_create_group, try_except, bind, call, emit, print, ret, raise.
    cbn. rewrite Hb, Hr. cbn. split; [reflexivity|].
    rewrite <- !app_assoc. reflexivity.
  - intros w s code Hr.
    unfold delete_config, try_except, bind, call, emit, print, ret, raise.
    cbn. rewrite Hr. cbn.
    destruct (String.eqb code "ValidationException"); cbn;
      (split; [reflexivity|rewrite <- !app_assoc; reflexivity]).
  - intros w render o e Hf Hc.
    destruct (Lab3Facts.fails_notebook w render o e Hf start
                (not_called_at_start o)) as [H|H]; [contradiction|exact H].
Qed.

Lemma failures_outside_handlers_propagate_witness :
  fst (notebook create_refused 5 start)
  = Uncaught (ClientError "AccessDeniedException")
  /\ fst (Lab3.notebook job_fails (fun _ => "") start)
     = Uncaught (OtherError "UnexpectedStatusException").
Proof.
  split.
  - apply (proj1 failures_outside_handlers_propagate create_refused 5
                 ModelCreate (ClientError "AccessDeniedException"));
      [discriminate|discriminate|reflexivity|].
    unfold called. vm_compute. find_event.
  - apply (proj2 (proj2 (proj2 (proj2 (proj2
             failures_outside_handlers_propagate))))
             job_fails (fun _ => "") ProcessorRun
             (OtherError "UnexpectedStatusException"));
      [reflexivity|].
    unfold called. vm_compute. find_event.
Defined.

(** *** The sequence of calls (C6) *)

Lemma filter_repeat_polls (n : nat) :
  filter named_in_claim (repeat DescribeEndpoint n) = repeat DescribeEndpoint n.
Proof. induction n as [|n IH]; cbn; [reflexivity|now rewrite IH]. Qed.

(** The loop comes to its end once a poll is answered not-found, if the
    run is observed long enough. *)
Lemma wait_completes (w : world) (k : nat) :
  forall s fuel,
    (forall j, j < k -> goes_on (describe_endpoint w (polls s + j))) ->
    describe_endpoint w (polls s + k) = not_found ->
    k < fuel ->
    fst (wait_for_deletion w fuel s) = Done tt.
Proof.
  induction k as [|k IH]; intros s fuel Hgo Hend Hfuel;
    (destruct fuel as [|fuel]; [lia|]); rewrite wait_step; cbv zeta.
  - rewrite Nat.add_0_r in Hend. rewrite Hend. reflexivity.
  - assert (goes_on (describe_endpoint w (polls s))) as H0.
    { rewrite <- (Nat.add_0_r (polls s)). apply Hgo. lia. }
    assert (fst (wait_for_deletion w fuel (after s (describe_endpoint w (polls s))))
            = Done tt) as Hrec.
    { apply IH; cbn [after polls]; [|now rewrite Nat.add_succ_comm|lia].
      intros j Hj. rewrite Nat.add_succ_comm. apply Hgo. lia. }
    destruct H0 as [H0|H0]; rewrite H0; exact Hrec.
Qed.

(** A run in which every call made once succeeds, an approved package
    exists and the endpoint is at last reported gone runs to its end. *)
Lemma notebook_completes (w : world) (k fuel : nat) (arn : string) (rest : list string) :
  all_succeed w ->
  list_model_packages w = Returns (arn :: rest) ->
  (forall j, j < k -> goes_on (describe_endpoint w j)) ->
  describe_endpoint w k = not_found ->
  k < fuel ->
  fst (notebook w fuel start) = Done tt.
Proof.
  intros Hall Hlist Hgo Hend Hfuel.
  pose proof (Hall Session ltac:(discriminate)) as H1.
  pose proof (Hall GetExecutionRole ltac:(discriminate)) as H2.
  pose proof (Hall DefaultBucket ltac:(discriminate)) as H3.
  pose proof (Hall UploadData ltac:(discriminate)) as H4.
  pose proof (Hall ImageUrisRetrieve ltac:(discriminate)) as H5.
  pose proof (Hall ModelInit ltac:(discriminate)) as H6.
  pose proof (Hall ModelCreate ltac:(discriminate)) as H7.
  pose proof (Hall (Boto3Client "sagemaker") ltac:(discriminate)) as H8.
  pose proof (Hall CreateModelPackageGroup ltac:(discriminate)) as H9.
  pose proof (Hall ModelRegister ltac:(discriminate)) as H10.
  pose proof (Hall CreateEndpointConfig ltac:(discriminate)) as H11.
  pose proof (Hall CreateEndpoint ltac:(discriminate)) as H12.
  pose proof (Hall (Boto3Client "sagemaker-runtime") ltac:(discriminate)) as H13.
  pose proof (Hall InvokeEndpoint ltac:(discriminate)) as H14.
  pose proof (Hall BodyRead ltac:(discriminate)) as H15.
  pose proof (Hall DeleteEndpoint ltac:(discriminate)) as H16.
  pose proof (Hall DeleteEndpointConfig ltac:(discriminate)) as H17.
  cbn [failure] in *.
  unfold notebook, cell_imports, cell_create_model, cell_create_group,
    cell_register, cell_fetch_approved, cell_endpoint_config,
    cell_create_endpoint, cell_invoke, cell_cleanup, delete_config,
    try_except, first_item, bind, call, emit, print, sleep, ret, raise.
  rewrite Hlist.
  destruct (session w); [|discriminate H1].
  destruct (get_execution_role w); [|discriminate H2].
  destruct (default_bucket w); [|discriminate H3].
  destruct (upload_data w); [|discriminate H4].
  destruct (image_uris_retrieve w); [|discriminate H5].
  destruct (model_init w); [|discriminate H6].
  destruct (model_create w); [|discriminate H7].
  destruct (boto3_client w "sagemaker"); [|discriminate H8].
  destruct (create_model_package_group w); [|discriminate H9].
  destruct (model_register w); [|discriminate H10].
  destruct (create_endpoint_config w); [|discriminate H11].
  destruct (create_endpoint w); [|discriminate H12].
  destruct (boto3_client w "sagemaker-runtime"); [|discriminate H13].
  destruct (invoke_endpoint w); [|discriminate H14].
  destruct (body_read w); [|discriminate H15].
  destruct (delete_endpoint w); [|discriminate H16].
  destruct (delete_endpoint_config w); [|discriminate H17].
  cbn -[wait_for_deletion String.append].
  match goal with
  | |- context [wait_for_deletion w fuel ?s] =>
      pose proof (wait_completes w k s fuel Hgo Hend Hfuel) as Hw;
      destruct (wait_for_deletion w fuel s) as [r s']
  end.
  cbn in Hw. subst r. reflexivity.
Qed.

Lemma wait_calls (w : world) (fuel : nat) (s : state) :
  exists n, calls (trace (snd (wait_for_deletion w fuel s)))
            = calls (trace s) ++ repeat DescribeEndpoint n.
Proof.
  destruct (wait_shape w fuel s) as [n [_ [_ [Ht _]]]].
  exists n. now rewrite Ht, calls_app, calls_chunks, answers_length.
Qed.

(** The run has stopped before the loop. *)
Ltac stop_here := exists 0; eexists; reflexivity.

(** The run has been through the loop. *)
Ltac stop_later :=
  match goal with
  | Hn : calls (trace _) = _ ++ repeat DescribeEndpoint ?n |- _ =>
      exists n; eexists; unfold calls in *;
      rewrite ?flat_map_app, Hn; cbn [flat_map app];
      rewrite <- ?app_assoc; cbn [app]; reflexivity
  end.

Ltac next_answer :=
  first
    [ stop_later
    | stop_here
    | match goal with
      | |- context [wait_for_deletion ?w ?fuel ?s] =>
          let n := fresh "n" in
          let Hn := fresh "Hn" in
          destruct (wait_calls w fuel s) as [n Hn];
          destruct (wait_for_deletion w fuel s) as [[?|?|] ?];
          cbn [snd trace] in Hn
      end
    | match goal with
      | |- context [match ?r with Returns _ => _ | Raises _ => _ end] =>
          destruct r
      end
    | match goal with
      | |- context [match ?l with [] => _ | _ :: _ => _ end] => destruct l
      end
    | match goal with
      | |- context [if String.eqb ?c ?x then _ else _] =>
          destruct (String.eqb c x)
      end
    | match goal with e : exn |- _ => destruct e end ];
  cbn -[wait_for_deletion String.append calls].

(** Whatever the services answer, the calls of a run are the first calls
    of the one sequence. *)
Lemma calls_in_order (w : world) (fuel : nat) :
  exists n rest,
    calls (trace (snd (notebook w fuel start))) ++ rest
    = calls_before_polling ++ repeat DescribeEndpoint n ++ [DeleteEndpointConfig].
Proof.
  unfold notebook, cell_imports, cell_create_model, cell_create_group,
    cell_register, cell_fetch_approved, cell_endpoint_config,
    cell_create_endpoint, cell_invoke, cell_cleanup, delete_config,
    try_except, first_item, bind, call, emit, print, sleep, ret, raise.
  repeat next_answer.
Qed.

(** C6, as claimed, fails on two counts.  The listed operations are not
    the only SDK calls: in a run where everything succeeds the notebook
    first sets up a session and uploads the model artifact ([upload_data])
    before the model is created, and it builds two boto3 clients and reads
    the response body on the way.  And there is control logic between the
    calls: when [create_model_package_group] raises [ResourceInUse] the
    [except] clause takes over, prints, and the notebook goes on to
    register the model and runs to its end. *)
Lemma exact_call_sequence_counterexample :
  fst (notebook happy 5 start) = Done tt
  /\ hd_error (calls (trace (snd (notebook happy 5 start)))) = Some Session
  /\ In UploadData (calls (trace (snd (notebook happy 5 start))))
  /\ (forall n, calls (trace (snd (notebook happy 5 start))) <> claimed_calls n)
  /\ let w := world_with (Raises (ClientError "ResourceInUse"))
                         ["arn:model-package/1"] (gone_after 0) (Returns tt) in
     failure w CreateModelPackageGroup = Some (ClientError "ResourceInUse")
     /\ In (Print "Model Package Group house-price-prediction-group already exists.")
           (trace (snd (notebook w 5 start)))
     /\ In ModelRegister (calls (trace (snd (notebook w 5 start))))
     /\ fst (notebook w 5 start) = Done tt.
Proof.
  split; [vm_compute; reflexivity|].
  split; [vm_compute; reflexivity|].
  split; [vm_compute; find_event|].
  split.
  - intros n H.
    assert (hd_error (calls (trace (snd (notebook happy 5 start))))
            = hd_error (claimed_calls n)) as Hhd by now rewrite H.
    vm_compute in Hhd. discriminate Hhd.
  - cbv zeta. split; [vm_compute; reflexivity|].
    split; [vm_compute; find_event|].
    split; [vm_compute; find_event|].
    vm_compute. reflexivity.
Qed.

(** C6, amended.  A run of the notebook that reaches its end has made
    exactly these SDK calls, in this order: Session, get_execution_role,
    default_bucket, upload_data, image_uris.retrieve, get_execution_role,
    Model, model.create, boto3.client, create_model_package_group,
    model.register, list_model_packages, create_endpoint_config,
    create_endpoint, boto3.client, invoke_endpoint, Body.read,
    delete_endpoint, one or more describe_endpoint, delete_endpoint_config.
    The operations the specification names occur among them in the order
    it gives.  A run does reach its end when every call made once succeeds,
    an approved package exists, and a poll is at last answered not-found
    within the observation.  Each call is a direct call in that no answer
    changes what is called next: however a run goes and wherever it stops,
    the calls it has made are the first calls of that one sequence (the
    two [try]/[except] blocks and the loop only decide whether the run
    goes on, and how many polls there are). *)
Theorem completed_run_calls (w : world) (fuel : nat) :
  (fst (notebook w fuel start) = Done tt ->
   exists n,
     calls (trace (snd (notebook w fuel start)))
     = calls_before_polling ++ repeat DescribeEndpoint (S n)
       ++ [DeleteEndpointConfig]
     /\ filter named_in_claim (calls (trace (snd (notebook w fuel start))))
        = claimed_calls (S n))
  /\ (forall k arn rest,
         all_succeed w ->
         list_model_packages w = Returns (arn :: rest) ->
         (forall j, j < k -> goes_on (describe_endpoint w j)) ->
         describe_endpoint w k = not_found ->
         k < fuel ->
         fst (notebook w fuel start) = Done tt)
  /\ (exists n rest,
         calls (trace (snd (notebook w fuel start))) ++ rest
         = calls_before_polling ++ repeat DescribeEndpoint n
           ++ [DeleteEndpointConfig]).
Proof.
  split; [|split; [intros k arn rest; apply notebook_completes
                  |apply calls_in_order]].
  intros Hdone.
  destruct (notebook w fuel start) as [r s'] eqn:E. cbn [fst snd] in *. subst r.
  destruct (makes_notebook w fuel start tt s' E) as [L [[n ->] HL]].
  exists n. cbn [start trace calls flat_map app] in HL. rewrite HL.
  split; [reflexivity|].
  rewrite !filter_app, filter_repeat_polls. reflexivity.
Qed.

Lemma completed_run_calls_witness :
  exists n,
    calls (trace (snd (notebook happy 5 start)))
    = calls_before_polling ++ repeat DescribeEndpoint (S n)
      ++ [DeleteEndpointConfig]
    /\ filter named_in_claim (calls (trace (snd (notebook happy 5 start))))
       = claimed_calls (S n).
Proof.
  apply (proj1 (completed_run_calls happy 5)). vm_compute. reflexivity.
Defined.

(** *** Fetching the approved package (C8) *)

Lemma stops_fetch_approved (w : world) (o : op) :
  o <> ListModelPackages ->
  list_model_packages w = Returns [] ->
  stops_before o (cell_fetch_approved w).
Proof.
  intros Hne Hlist s H.
  unfold cell_fetch_approved, first_item, bind, call, emit, print, ret, raise.
  rewrite Hlist. cbn. split; [|discriminate].
  unfold called. cbn. intros Hin. apply in_app_or in Hin.
  destruct Hin as [Hin|[Hin|[]]]; [auto|congruence].
Qed.

(** C8.  The cell that fetches the latest approved model package takes
    element [0] of the list that [list_model_packages] returns.  On an
    empty list it raises [IndexError]; on a non-empty list it gives the
    first entry.  With an empty list the notebook never reaches
    [create_endpoint_config] and does not run to its end: at least one
    approved package is the precondition of the step. *)
Theorem fetch_requires_approved_package (w : world) :
  (forall s, list_model_packages w = Returns [] ->
             fst (cell_fetch_approved w s) = Uncaught IndexError)
  /\ (forall s arn rest, list_model_packages w = Returns (arn :: rest) ->
                         fst (cell_fetch_approved w s) = Done arn)
  /\ (forall fuel, list_model_packages w = Returns [] ->
                   (forall a, fst (notebook w fuel start) <> Done a)
                   /\ ~ called CreateEndpointConfig (snd (notebook w fuel start))).
Proof.
  split; [|split].
  - intros s Hlist.
    unfold cell_fetch_approved, first_item, bind, call, emit, print, ret, raise.
    now rewrite Hlist.
  - intros s arn rest Hlist.
    unfold cell_fetch_approved, first_item, bind, call, emit, print, ret, raise.
    now rewrite Hlist.
  - intros fuel Hlist.
    assert (stops_before CreateEndpointConfig (notebook w fuel)) as Hstop.
    { unfold notebook.
      apply stops_later; [unfold cell_imports; avoid|intros _].
      apply stops_later; [unfold cell_create_model; avoid|intros _].
      apply stops_later; [unfold cell_create_group; avoid|intros _].
      apply stops_later; [unfold cell_register; avoid|intros _].
      apply stops_here. apply stops_fetch_approved; [discriminate|exact Hlist]. }
    destruct (Hstop start (not_called_at_start _)) as [Hc Hd]. now split.
Qed.

Lemma fetch_requires_approved_package_witness :
  fst (cell_fetch_approved (world_with (Returns tt) [] (gone_after 0) (Returns tt))
                           start) = Uncaught IndexError
  /\ fst (cell_fetch_approved happy start) = Done "arn:model-package/1".
Proof.
  split.
  - apply (proj1 (fetch_requires_approved_package
                    (world_with (Returns tt) [] (gone_after 0) (Returns tt)))).
    reflexivity.
  - apply (proj1 (proj2 (fetch_requires_approved_package happy))
             start "arn:model-package/1" []).
    reflexivity.
Defined.

End NotebookClaims.

(** ** Frames: rows, masks and the row filter *)

Module PandasFacts.
Import Py Pandas.
Local Open Scope list_scope.

(** *** Masks *)

Lemma select_nil {A : Type} (mask : list bool) : select mask (@nil A) = [].
Proof. destruct mask; reflexivity. Qed.

Lemma select_map {A B : Type} (f : A -> B) (mask : list bool) :
  forall l, select mask (map f l) = map f (select mask l).
Proof.
  induction mask as [|b mask IH]; intros [|x l]; cbn; try reflexivity.
  destruct b; cbn; now rewrite IH.
Qed.

Lemma select_filter {A : Type} (p : A -> bool) (l : list A) :
  select (map p l) l = filter p l.
Proof.
  induction l as [|x l IH]; cbn; [reflexivity|].
  destruct (p x); now rewrite IH.
Qed.

Lemma select_combine {A B : Type} (mask : list bool) :
  forall (l : list A) (l' : list B),
    combine (select mask l) (select mask l') = select mask (combine l l').
Proof.
  induction mask as [|b mask IH]; intros [|x l] [|y l']; cbn;
    try reflexivity.
  - destruct b; [|apply combine_nil]. reflexivity.
  - destruct b; cbn; now rewrite IH.
Qed.

Lemma zip_cons_nil (c : list cell) : zip_cons c [] = [].
Proof. destruct c; reflexivity. Qed.

Lemma select_zip_cons (mask : list bool) :
  forall c rs, zip_cons (select mask c) (select mask rs)
               = select mask (zip_cons c rs).
Proof.
  induction mask as [|b mask IH]; intros [|x c] [|r rs]; cbn;
    try reflexivity.
  - destruct b; [|apply zip_cons_nil]. reflexivity.
  - destruct b; cbn; now rewrite IH.
Qed.

Lemma select_repeat {A : Type} (x : A) (mask : list bool) :
  forall n, length mask = n ->
            select mask (repeat x n) = repeat x (length (filter (fun b => b) mask)).
Proof.
  induction mask as [|b mask IH]; intros n Hn; subst n; cbn; [reflexivity|].
  destruct b; cbn; now rewrite IH.
Qed.

Lemma select_length {A : Type} (mask : list bool) :
  forall l : list A, length l = length mask ->
                     length (select mask l) = length (filter (fun b => b) mask).
Proof.
  induction mask as [|b mask IH]; intros [|x l] Hl; cbn in *;
    try reflexivity; try discriminate.
  destruct b; cbn; rewrite IH; auto.
Qed.

Lemma cells_of_select (mask : list bool) (s : series) :
  cells_of (series_select mask s) = select mask (cells_of s).
Proof. destruct s; cbn; now rewrite select_map. Qed.

(** *** Rows *)

Lemma wf_columns (df : frame) :
  wf_frame df = true ->
  Forall (fun c => length (cells_of (data c)) = nrows df) (columns df).
Proof.
  unfold wf_frame. rewrite forallb_forall, Forall_forall.
  intros H c Hc. apply Nat.eqb_eq. now apply H.
Qed.

Lemma zip_cons_length (c : list cell) :
  forall rs, length c = length rs -> length (zip_cons c rs) = length rs.
Proof.
  induction c as [|x c IH]; intros [|r rs] H; cbn in *;
    try reflexivity; try discriminate.
  now rewrite IH by lia.
Qed.

Lemma rows_of_length (n : nat) (cols : list (list cell)) :
  Forall (fun c => length c = n) cols -> length (rows_of n cols) = n.
Proof.
  induction 1 as [|c cols Hc _ IH]; cbn; [apply repeat_length|].
  rewrite zip_cons_length; congruence.
Qed.

Lemma rows_length (df : frame) :
  wf_frame df = true -> length (rows df) = nrows df.
Proof.
  intros Hwf. unfold rows. apply rows_of_length.
  apply Forall_map. exact (wf_columns df Hwf).
Qed.

(** *** Counting non-null entries: by column and by row *)

Lemma add_notna_rows (c : list cell) :
  forall rs, add_notna c (map count_notna rs) = map count_notna (zip_cons c rs).
Proof.
  induction c as [|x c IH]; intros [|r rs]; cbn; try reflexivity.
  rewrite IH. unfold bump, count_notna. cbn. now destruct (notna x).
Qed.

Lemma notna_counts_rows (df : frame) :
  notna_counts df = map count_notna (rows df).
Proof.
  unfold notna_counts, rows. induction (columns df) as [|c cols IH]; cbn.
  - now rewrite map_repeat.
  - now rewrite IH, add_notna_rows.
Qed.

(** *** The row filter *)

Lemma rows_of_select (mask : list bool) (n : nat) (cols : list (list cell)) :
  length mask = n ->
  rows_of (length (filter (fun b => b) mask)) (map (select mask) cols)
  = select mask (rows_of n cols).
Proof.
  intros Hn. induction cols as [|c cols IH]; cbn.
  - now rewrite select_repeat.
  - now rewrite IH, select_zip_cons.
Qed.

Lemma dropna_rows_select (thresh : Z) (df : frame) :
  wf_frame df = true ->
  rows (dropna thresh df) = select (keep_mask thresh df) (rows df).
Proof.
  intros Hwf.
  assert (length (keep_mask thresh df) = nrows df) as Hmask.
  { unfold keep_mask. now rewrite length_map, notna_counts_rows, length_map,
      rows_length. }
  unfold rows, dropna. cbv zeta. cbn [columns index nrows].
  unfold nrows at 1. cbn [index].
  rewrite select_length by (now rewrite Hmask).
  rewrite map_map. cbn [data].
  rewrite <- (rows_of_select (keep_mask thresh df) (nrows df)) by exact Hmask.
  f_equal. rewrite map_map. apply map_ext. intros c. apply cells_of_select.
Qed.

(** The rows kept are those with at least [thresh] non-null entries, as
    they were, in their order. *)
Lemma dropna_labelled_rows (thresh : Z) (df : frame) :
  wf_frame df = true ->
  labelled_rows (dropna thresh df)
  = filter (fun lr => (thresh <=? Z.of_nat (count_notna (snd lr)))%Z)
           (labelled_rows df).
Proof.
  intros Hwf. unfold labelled_rows.
  rewrite (dropna_rows_select thresh df Hwf). cbn [dropna index].
  rewrite select_combine.
  rewrite <- select_filter. f_equal.
  unfold keep_mask. rewrite notna_counts_rows, !map_map.
  assert (length (index df) = length (rows df)) as Hlen
      by (now rewrite rows_length).
  revert Hlen. generalize (rows df). generalize (index df).
  induction l as [|i l IH]; intros [|r rs] Hlen; cbn in *;
    try reflexivity; try discriminate.
  f_equal. apply IH. lia.
Qed.

(** *** The threshold *)

Lemma seven_tenths_below_90 (n : nat) :
  n < 90 -> seven_tenths n = (7 * Z.of_nat n / 10)%Z.
Proof.
  intros Hn.
  assert (forallb (fun k => (seven_tenths k =? 7 * Z.of_nat k / 10)%Z) (seq 0 90)
          = true) as Hall by (vm_compute; reflexivity).
  rewrite forallb_forall in Hall. apply Z.eqb_eq. apply Hall.
  apply in_seq. lia.
Qed.

End PandasFacts.

(** ** Claims about the row filter and the imputation *)

Module CleaningClaims.
Import Py Pandas Sklearn Preprocessing Samples PandasFacts.
Local Open Scope list_scope.

(** C10, as claimed, fails on a frame of ninety columns: the code's
    threshold is [int(90 * 0.7)], and the binary64 product is
    62.99999999999999, so the threshold is 62 and not 63.  The row below
    has 62 non-null entries and is kept. *)
Lemma floor_threshold_counterexample :
  wf_frame wide = true
  /\ ncols wide = 90
  /\ (7 * Z.of_nat (ncols wide) / 10 = 63)%Z
  /\ row_threshold wide = 62%Z
  /\ map count_notna (rows wide) = [62]
  /\ index (dropna_rows wide) = [0]
  /\ labelled_rows (dropna_rows wide) = labelled_rows wide.
Proof. repeat split; vm_compute; reflexivity. Qed.

(** C10, amended.  In the row filter a row is kept if and only if it has
    at least [int(ncols * 0.7)] non-null entries, the product being the
    binary64 one the code computes and [ncols] the number of columns of
    the frame at that point; this is floor(0.7 * ncols) for every frame of
    fewer than 90 columns.  The rows kept keep their labels, their values
    and their order. *)
Theorem dropna_rows_keeps_full_rows (df : frame) :
  wf_frame df = true ->
  labelled_rows (dropna_rows df)
  = filter (fun lr => (seven_tenths (ncols df)
                       <=? Z.of_nat (count_notna (snd lr)))%Z)
           (labelled_rows df)
  /\ (forall l r,
         In (l, r) (labelled_rows (dropna_rows df))
         <-> In (l, r) (labelled_rows df)
             /\ (seven_tenths (ncols df) <= Z.of_nat (count_notna r))%Z)
  /\ (ncols df < 90 ->
      seven_tenths (ncols df) = (7 * Z.of_nat (ncols df) / 10)%Z).
Proof.
  intros Hwf.
  pose proof (dropna_labelled_rows (row_threshold df) df Hwf) as Hrows.
  unfold dropna_rows. unfold row_threshold in *.
  split; [exact Hrows|split].
  - intros l r. rewrite Hrows, filter_In. cbn [snd].
    now rewrite Z.leb_le.
  - apply seven_tenths_below_90.
Qed.

Lemma dropna_rows_keeps_full_rows_witness :
  labelled_rows (dropna_rows houses)
  = filter (fun lr => (seven_tenths (ncols houses)
                       <=? Z.of_nat (count_notna (snd lr)))%Z)
           (labelled_rows houses)
  /\ (forall l r,
         In (l, r) (labelled_rows (dropna_rows houses))
         <-> In (l, r) (labelled_rows houses)
             /\ (seven_tenths (ncols houses) <= Z.of_nat (count_notna r))%Z)
  /\ (ncols houses < 90 ->
      seven_tenths (ncols houses) = (7 * Z.of_nat (ncols houses) / 10)%Z).
Proof. apply (dropna_rows_keeps_full_rows houses). reflexivity. Defined.

(** *** Imputation *)

Lemma numeric_names_length (cols : list column) :
  length (map name (filter (fun c => is_number (data c)) cols))
  = length (flat_map (fun c => as_float64 (data c)) cols).
Proof.
  induction cols as [|c cols IH]; cbn; [reflexivity|].
  destruct (data c); cbn; now rewrite IH.
Qed.

Lemma transform_length (lib : library) (X : list (list (option float64))) :
  length (flat_map (transform_one lib) X) <= length X.
Proof.
  induction X as [|v X IH]; cbn; [lia|].
  rewrite length_app. unfold transform_one at 1.
  destruct (statistic lib v); cbn; lia.
Qed.

(** When no feature is left out, each output column is its input column
    filled with that column's statistic. *)
Lemma transform_full (lib : library) (X : list (list (option float64))) :
  length (flat_map (transform_one lib) X) = length X ->
  Forall2 (fun v x => exists m, statistic lib v = Some m /\ x = map (fill m) v)
          X (flat_map (transform_one lib) X).
Proof.
  induction X as [|v X IH]; cbn [flat_map length]; intros Hlen; [constructor|].
  pose proof (transform_length lib X) as Hle.
  rewrite length_app in Hlen. unfold transform_one at 1.
  unfold transform_one at 1 in Hlen.
  destruct (statistic lib v) as [m|] eqn:E; cbn [length app] in *.
  - constructor; [now exists m|apply IH; lia].
  - lia.
Qed.

(** A feature without any entry is left out, so the output is short. *)
Lemma transform_short (lib : library) (X : list (list (option float64)))
      (v : list (option float64)) :
  In v X -> observed v = [] ->
  length (flat_map (transform_one lib) X) < length X.
Proof.
  induction X as [|v0 X IH]; intros Hin Hv; [destruct Hin|].
  cbn [flat_map length]. rewrite length_app.
  pose proof (transform_length lib X) as Hle.
  destruct Hin as [->|Hin].
  - unfold transform_one at 1. unfold statistic. rewrite Hv.
    cbn [length Nat.add]. lia.
  - specialize (IH Hin Hv). unfold transform_one at 1.
    destruct (statistic lib v0); cbn; lia.
Qed.

Lemma statistic_some (lib : library) (v : list (option float64)) (m : finite) :
  statistic lib v = Some m -> observed v <> [] /\ m = np_mean lib (masked v).
Proof.
  unfold statistic. destruct (observed v); [discriminate|].
  intros [= <-]. split; [discriminate|reflexivity].
Qed.

Lemma fill_filled (m : finite) (v : list (option float64)) :
  filled_with (Real m) v (map Some (map (fill m) v)).
Proof.
  unfold filled_with. induction v as [|x v IH]; cbn; constructor; [|exact IH].
  now destruct x.
Qed.

Lemma fill_integers (m : finite) (v : list Z) :
  map Some (map (fill m) (map (fun z => Some (Real (of_int64 z))) v))
  = map (fun z => Some (Real (of_int64 z))) v.
Proof. rewrite !map_map. reflexivity. Qed.

Lemma assign_numeric_imputed (lib : library) (cols : list column) :
  forall X,
    Forall2 (fun v x => exists m, statistic lib v = Some m /\ x = map (fill m) v)
            (numeric_block {| index := []; columns := cols |}) X ->
    Forall2 (imputed lib) cols (assign_numeric cols X).
Proof.
  unfold numeric_block. cbn [columns].
  induction cols as [|c cols IH]; intros X HX; cbn; [constructor|].
  cbn [flat_map] in HX.
  destruct (data c) as [v|v|v|v|v] eqn:Ec; cbn [is_number as_float64 app] in *.
  - inversion HX as [|v0 x block X' [m [Hm Hx]] Hrest]; subst.
    constructor; [|now apply IH].
    split; [reflexivity|]. rewrite Ec.
    destruct (statistic_some lib v m Hm) as [Hobs ->].
    split; [exact Hobs|]. exists (map Some (map (fill (np_mean lib (masked v))) v)).
    split; [reflexivity|apply fill_filled].
  - inversion HX as [|v0 x block X' [m [Hm Hx]] Hrest]; subst.
    constructor; [|now apply IH].
    split; [reflexivity|]. rewrite Ec. cbn [data]. now rewrite fill_integers.
  - constructor; [|now apply IH]. split; [reflexivity|]. now rewrite Ec.
  - constructor; [|now apply IH]. split; [reflexivity|]. now rewrite Ec.
  - constructor; [|now apply IH]. split; [reflexivity|]. now rewrite Ec.
Qed.

(** What a completed imputation has been through. *)
Lemma impute_numeric_passed (lib : library) (df df' : frame) :
  impute_numeric lib df = Returns df' ->
  nrows df <> 0
  /\ numeric_block df <> []
  /\ existsb has_infinity (numeric_block df) = false
  /\ length (flat_map (transform_one lib) (numeric_block df))
     = length (numeric_block df)
  /\ df' = {| index := index df;
              columns := assign_numeric (columns df)
                           (flat_map (transform_one lib) (numeric_block df)) |}.
Proof.
  unfold impute_numeric, fit_transform, setitem_numeric, select_dtypes.
  destruct (nrows df =? 0) eqn:En; [discriminate|].
  destruct (numeric_block df) as [|v0 X0] eqn:Eblock; [discriminate|].
  rewrite <- Eblock.
  destruct (existsb has_infinity (numeric_block df)) eqn:Einf; [discriminate|].
  cbn [bind].
  destruct (length (flat_map (transform_one lib) (numeric_block df))
            =? length (map name (filter (fun c => is_number (data c)) (columns df))))
    eqn:Elen; [|discriminate].
  intros H. injection H as <-.
  apply Nat.eqb_eq in Elen. rewrite numeric_names_length in Elen.
  apply Nat.eqb_neq in En.
  split; [exact En|]. split; [rewrite Eblock; discriminate|].
  split; [reflexivity|]. split; [exact Elen|reflexivity].
Qed.

Lemma impute_numeric_columns (lib : library) (df df' : frame) :
  impute_numeric lib df = Returns df' ->
  index df' = index df /\ Forall2 (imputed lib) (columns df) (columns df').
Proof.
  intros H. destruct (impute_numeric_passed lib df df' H)
    as [_ [_ [_ [Hlen ->]]]].
  cbn [index columns]. split; [reflexivity|].
  apply assign_numeric_imputed. now apply transform_full.
Qed.

(** The ways in which the imputation raises. *)
Lemma impute_numeric_raises (lib : library) (df : frame) :
  nrows df = 0
  \/ numeric_block df = []
  \/ existsb has_infinity (numeric_block df) = true
  \/ (exists v, In v (numeric_block df) /\ observed v = []) ->
  exists msg, impute_numeric lib df = Raises (ValueError msg).
Proof.
  unfold impute_numeric, fit_transform, setitem_numeric, select_dtypes.
  intros H.
  destruct (nrows df =? 0) eqn:En; [eexists; reflexivity|].
  apply Nat.eqb_neq in En.
  destruct (numeric_block df) as [|v0 X0] eqn:Eblock; [eexists; reflexivity|].
  rewrite <- Eblock in *.
  destruct (existsb has_infinity (numeric_block df)) eqn:Einf;
    [eexists; reflexivity|]. cbn [bind].
  destruct H as [H|[H|[H|[v [Hin Hv]]]]];
    [contradiction|rewrite Eblock in H; discriminate|discriminate|].
  pose proof (transform_short lib _ v Hin Hv) as Hshort.
  rewrite numeric_names_length. fold (numeric_block df).
  destruct (length (flat_map (transform_one lib) (numeric_block df))
            =? length (numeric_block df)) eqn:Elen; [|eexists; reflexivity].
  apply Nat.eqb_eq in Elen. lia.
Qed.

Lemma filled_complete (m : float64) (v v' : list (option float64)) :
  filled_with m v v' -> Forall (fun x => x <> None) v'.
Proof.
  induction 1 as [|x x' v v' Hx _ IH]; constructor; [|exact IH].
  destruct x; subst x'; discriminate.
Qed.

(** After the imputation no numeric column has a missing value left, so the
    means of the target encoding that follows run over every row of a
    group. *)
Lemma impute_numeric_leaves_no_gap (lib : library) (df df' : frame) :
  impute_numeric lib df = Returns df' ->
  Forall (fun c' => forall v', data c' = Number v' ->
                               Forall (fun x => x <> None) v')
         (columns df').
Proof.
  intros H. destruct (impute_numeric_columns lib df df' H) as [_ Hcols].
  induction Hcols as [|c c' cols cols' [_ Hc] _ IH]; constructor; [|exact IH].
  intros v' Hv'. destruct (data c) as [v|v|v|v|v].
  - destruct Hc as [_ [v'' [Hd Hfill]]].
    rewrite Hd in Hv'. injection Hv' as <-.
    exact (filled_complete _ v v'' Hfill).
  - rewrite Hc in Hv'. injection Hv' as <-. apply Forall_forall.
    intros x Hx. apply in_map_iff in Hx. destruct Hx as [z [<- _]]. discriminate.
  - congruence.
  - congruence.
  - congruence.
Qed.

(** *** What a float64 cannot hold *)







End CleaningClaims.


(** ** Claims about the target encoding *)

Module EncodingClaims.
Import Py Pandas Sklearn Preprocessing Samples PandasFacts.
Local Open Scope string_scope.
Local Open Scope list_scope.

(** *** Keys *)

Lemma float_eqb_refl (x : float64) : float_eqb x x = true.
Proof.
  destruct x as [a|s]; cbn.
  - apply Qeq_bool_iff. apply Qeq_refl.
  - now destruct s.
Qed.

Lemma float_eqb_sym (x y : float64) : float_eqb x y = float_eqb y x.
Proof.
  destruct x as [a|s], y as [b|t]; cbn; try reflexivity.
  - destruct (Qeq_bool (value a) (value b)) eqn:E1,
             (Qeq_bool (value b) (value a)) eqn:E2; try reflexivity.
    + apply Qeq_bool_sym in E1. congruence.
    + apply Qeq_bool_sym in E2. congruence.
  - now destruct s, t.
Qed.

Lemma float_eqb_trans (x y z : float64) :
  float_eqb x y = true -> float_eqb y z = true -> float_eqb x z = true.
Proof.
  destruct x as [a|s], y as [b|t]; cbn; try discriminate;
    destruct z as [c|u]; cbn; try discriminate.
  - apply Qeq_bool_trans.
  - destruct s, t, u; cbn; congruence.
Qed.

Lemma cell_eqb_refl (k : cell) : notna k = true -> cell_eqb k k = true.
Proof.
  destruct k; cbn; intros H; try discriminate.
  - apply float_eqb_refl.
  - apply Z.eqb_refl.
  - apply String.eqb_refl.
  - apply Z.eqb_refl.
  - now destruct b.
Qed.

Lemma cell_eqb_sym (a b : cell) : cell_eqb a b = cell_eqb b a.
Proof.
  destruct a, b; cbn; try reflexivity.
  - apply float_eqb_sym.
  - apply Z.eqb_sym.
  - apply String.eqb_sym.
  - apply Z.eqb_sym.
  - now destruct b0, b.
Qed.

Lemma cell_eqb_trans (a b c : cell) :
  cell_eqb a b = true -> cell_eqb b c = true -> cell_eqb a c = true.
Proof.
  destruct a, b; cbn; try discriminate; destruct c; cbn; try discriminate.
  - apply float_eqb_trans.
  - rewrite !Z.eqb_eq. congruence.
  - rewrite !String.eqb_eq. congruence.
  - rewrite !Z.eqb_eq. congruence.
  - destruct b0, b, b1; cbn; congruence.
Qed.

Lemma cell_eqb_notna (a b : cell) : cell_eqb a b = true -> notna a = true.
Proof. destruct a; cbn; (reflexivity || discriminate). Qed.

(** Keys that are equal select the same rows. *)
Lemma cell_eqb_same (g k k' : cell) :
  cell_eqb g k = true -> cell_eqb k' g = cell_eqb k' k.
Proof.
  intros H. destruct (cell_eqb k' g) eqn:E1, (cell_eqb k' k) eqn:E2;
    try reflexivity.
  - rewrite (cell_eqb_trans k' g k E1 H) in E2. discriminate.
  - rewrite cell_eqb_sym in H.
    rewrite (cell_eqb_trans k' k g E2 H) in E1. discriminate.
Qed.

(** *** Groups *)

Lemma group_of_sharing (k : cell) (keys : list cell) :
  forall values, group_of k keys values = values_sharing k keys values.
Proof.
  unfold values_sharing.
  induction keys as [|k' keys IH]; intros [|v values]; cbn; try reflexivity.
  destruct (cell_eqb k' k); cbn; [|apply IH].
  destruct v; cbn; now rewrite IH.
Qed.

Lemma group_of_same (g k : cell) (keys : list cell) :
  cell_eqb g k = true ->
  forall values, group_of g keys values = group_of k keys values.
Proof.
  intros H. induction keys as [|k' keys IH]; intros [|v values]; cbn;
    try reflexivity.
  rewrite (cell_eqb_same g k k' H), IH. reflexivity.
Qed.

Lemma distinct_keys_cover (keys : list cell) (k : cell) :
  In k keys -> notna k = true ->
  exists g, In g (distinct_keys keys) /\ cell_eqb g k = true.
Proof.
  intros Hin Hk. induction keys as [|k0 keys IH]; [destruct Hin|].
  cbn [distinct_keys].
  destruct (cell_eqb k0 k) eqn:E.
  - exists k0. rewrite (cell_eqb_notna k0 k E). split; [now left|exact E].
  - destruct Hin as [->|Hin]; [rewrite (cell_eqb_refl k Hk) in E; discriminate|].
    destruct (IH Hin) as [g [Hg Hgk]].
    assert (In g (filter (fun k' => negb (cell_eqb k' k0)) (distinct_keys keys)))
      as Hkeep.
    { apply filter_In. split; [exact Hg|].
      destruct (cell_eqb g k0) eqn:E0; [|reflexivity].
      rewrite cell_eqb_sym in E0.
      rewrite (cell_eqb_trans k0 g k E0 Hgk) in E. discriminate. }
    exists g. split; [|exact Hgk].
    destruct (notna k0); [now right|exact Hkeep].
Qed.

(** *** The lookup table *)

Lemma lookup_found (F : cell -> option float64) (k : cell) (l : list cell) :
  (forall g, cell_eqb g k = true -> F g = F k) ->
  (exists g, In g l /\ cell_eqb g k = true) ->
  lookup k (map (fun g => (g, F g)) l) = F k.
Proof.
  intros HF. induction l as [|g0 l IH]; intros [g [Hin Hg]]; [destruct Hin|].
  cbn. destruct (cell_eqb g0 k) eqn:E; [now apply HF|].
  apply IH. destruct Hin as [->|Hin]; [congruence|]. now exists g.
Qed.

Lemma lookup_missing (table : list (cell * option float64)) :
  lookup NA table = None.
Proof.
  induction table as [|[g m] table IH]; cbn; [reflexivity|].
  now destruct g.
Qed.

(** Looking a row's key up in the table of group means gives the mean of
    the values of the rows sharing that key. *)
Lemma lookup_group_mean (lib : library) (keys : list cell)
      (values : list (option float64)) (k : cell) :
  In k keys ->
  lookup k (map (fun g => (g, mean lib (group_of g keys values)))
                (distinct_keys keys))
  = mean lib (values_sharing k keys values).
Proof.
  intros Hin. rewrite <- group_of_sharing.
  destruct (notna k) eqn:Hk.
  - apply (lookup_found (fun g => mean lib (group_of g keys values))).
    + intros g Hg. now rewrite (group_of_same g k keys Hg).
    + now apply distinct_keys_cover.
  - destruct k; try discriminate Hk. rewrite lookup_missing.
    rewrite group_of_sharing. unfold values_sharing.
    replace (filter (fun kv : cell * option float64 => cell_eqb (fst kv) NA)
                    (combine keys values)) with (@nil (cell * option float64));
      [reflexivity|].
    symmetry. induction (combine keys values) as [|[k' v] l IH]; cbn;
      [reflexivity|].
    rewrite (cell_eqb_sym k' NA). cbn. exact IH.
Qed.

(** *** Reading columns back *)

Lemma getitem_cols_app_new (cols : list column) (key : string) (s : series) :
  existsb (fun c => String.eqb (name c) key) cols = false ->
  getitem_cols (cols ++ [{| name := key; data := s |}]) key = Returns s.
Proof.
  induction cols as [|c cols IH]; cbn; intros H.
  - now rewrite String.eqb_refl.
  - apply orb_false_elim in H. destruct H as [Hc Hrest].
    rewrite Hc. now apply IH.
Qed.

Lemma getitem_cols_replaced (cols : list column) (key : string) (s : series) :
  existsb (fun c => String.eqb (name c) key) cols = true ->
  getitem_cols (map (fun c => if String.eqb (name c) key
                              then {| name := key; data := s |}
                              else c) cols) key = Returns s.
Proof.
  induction cols as [|c cols IH]; cbn; intros H; [discriminate|].
  destruct (String.eqb (name c) key) eqn:E; cbn.
  - now rewrite String.eqb_refl.
  - rewrite E. now apply IH.
Qed.

Lemma getitem_setitem (df df' : frame) (key : string) (s : series) :
  setitem df key s = Returns df' ->
  getitem df' key = Returns s /\ index df' = index df.
Proof.
  unfold setitem, getitem, has_column.
  destruct (negb (Nat.eqb (series_length s) (nrows df))); [discriminate|].
  destruct (existsb (fun c => String.eqb (name c) key) (columns df)) eqn:E;
    intros H; injection H as <-; cbn [columns index]; split;
    try reflexivity.
  - now apply getitem_cols_replaced.
  - now apply getitem_cols_app_new.
Qed.

Lemma getitem_cols_filter (cols : list column) (key : string) (keep : column -> bool) :
  (forall c, name c = key -> keep c = true) ->
  getitem_cols (filter keep cols) key = getitem_cols cols key.
Proof.
  intros Hkeep. induction cols as [|c cols IH]; cbn; [reflexivity|].
  destruct (String.eqb (name c) key) eqn:E.
  - apply String.eqb_eq in E. rewrite (Hkeep c E). cbn.
    apply String.eqb_eq in E. now rewrite E.
  - destruct (keep c); cbn; [rewrite E|]; exact IH.
Qed.


Lemma Forall2_map_r {A B : Type} (P : A -> B -> Prop) (f : A -> B) (l : list A) :
  (forall a, In a l -> P a (f a)) -> Forall2 P l (map f l).
Proof.
  induction l as [|a l IH]; intros H; cbn [map]; constructor.
  - apply H. now left.
  - apply IH. intros b Hb. apply H. now right.
Qed.





End EncodingClaims.

(** ** The statements of the script one after the other *)

Module ScriptFacts.
Import Py Pandas Sklearn Preprocessing Samples PandasFacts.
Local Open Scope string_scope.
Local Open Scope list_scope.


(** *** Which statements keep the rows *)

Lemma drop_columns_index (labels : list string) (df df' : frame) :
  drop_columns labels df = Returns df' -> index df' = index df.
Proof.
  unfold drop_columns.
  destruct (filter (fun k => negb (has_column df k)) labels); [|discriminate].
  intros H. now injection H as <-.
Qed.

Lemma setitem_index (df df' : frame) (key : string) (s : series) :
  setitem df key s = Returns df' -> index df' = index df.
Proof.
  unfold setitem.
  destruct (negb (Nat.eqb (series_length s) (nrows df))); [discriminate|].
  destruct (has_column df key); intros H; now injection H as <-.
Qed.

Lemma convert_date_column_index (lib : library) (key : string)
      (df df' : frame) :
  convert_date_column lib key df = Returns df' -> index df' = index df.
Proof.
  unfold convert_date_column.
  destruct (getitem df key) as [s|]; [|discriminate]. cbn [bind].
  destruct (to_datetime lib s) as [t|]; [|discriminate]. cbn [bind].
  apply setitem_index.
Qed.


Lemma target_encode_index (lib : library) (df df' : frame) :
  target_encode lib df = Returns df' -> index df' = index df.
Proof.
  unfold target_encode.
  destruct (groupby_mean lib df "postcode" "saleEstimate_currentPrice") as [t|];
    [|discriminate]. cbn [bind].
  destruct (getitem df "postcode") as [k|]; [|discriminate]. cbn [bind].
  apply setitem_index.
Qed.

End ScriptFacts.


(** ** More about the wait loop *)

Module WaitingFacts.
Import Py Notebook Deploy Polling PollingFacts Scenarios Measures.
Local Open Scope string_scope.
Local Open Scope list_scope.

Lemma goes_on_exclusive (r : result unit) :
  goes_on r -> classify r <> Exited /\ forall e, classify r <> Propagated e.
Proof. intros [H|H]; rewrite H; split; intros; discriminate. Qed.

(** X1.  The loop has no bound of its own: a run is still inside the loop after
    [fuel] iterations if and only if each of the first [fuel] polls either
    succeeded or raised a [ClientError] other than ["ValidationException"]. *)
Theorem wait_goes_on_while_polls_go_on (w : world) (fuel : nat) (s : state) :
  fst (wait_for_deletion w fuel s) = Running
  <-> forall k, k < fuel -> goes_on (describe_endpoint w (polls s + k)).
Proof.
  destruct (wait_summary w fuel s) as [Hle [_ He]]. split.
  - intros Hrun k Hk. rewrite Hrun in He. destruct He as [Hn Hall].
    apply (goes_on_all w (polls s) _ k Hall). lia.
  - intros Hgo.
    destruct (fst (wait_for_deletion w fuel s)) as [u|e|]; [| |reflexivity];
      destruct He as [m [Hn [_ Hlast]]];
      assert (m < fuel) as Hm by (cbv zeta in *; lia);
      destruct (goes_on_exclusive _ (Hgo m Hm)) as [H1 H2];
      [contradiction|now destruct (H2 e)].
Qed.

Lemma slept_app (a b : list event) : slept (a ++ b) = slept a + slept b.
Proof.
  unfold slept. induction a as [|ev a IH]; cbn [app fold_right]; [reflexivity|].
  destruct ev; rewrite ?IH; lia.
Qed.

Lemma slept_chunks (rs : list (result unit)) :
  slept (flat_map chunk rs) = 30 * length (filter returned rs).
Proof.
  induction rs as [|r rs IH]; [reflexivity|].
  cbn [flat_map]. rewrite slept_app, IH.
  destruct r as [u|e]; cbn; [lia|].
  destruct e; cbn; try lia.
  unfold chunk, rest, classify.
  destruct (String.eqb code "ValidationException"); cbn; lia.
Qed.

(** X2.  The time a run of the loop spends asleep is thirty seconds for each
    poll that returned, and nothing for the polls that raised. *)
Theorem wait_sleeps_thirty_per_success (w : world) (fuel : nat) (s : state) :
  let r := wait_for_deletion w fuel s in
  slept (events_since s (snd r))
  = 30 * length (filter returned (answers w (polls s) (polls_since s (snd r)))).
Proof.
  cbv zeta. destruct (wait_shape w fuel s) as [n [_ [Hp [Ht _]]]].
  unfold polls_since. rewrite Hp.
  replace (polls s + n - polls s) with n by lia.
  rewrite (events_since_app _ _ _ Ht). apply slept_chunks.
Qed.

End WaitingFacts.

(** ** The order of the calls: what a failure leaves undone *)

Module OrderFacts.
Import Py Notebook Deploy Polling PollingFacts Scenarios Runs RunFacts DeployFacts.
Import Measures.
Local Open Scope string_scope.
Local Open Scope list_scope.

Lemma raised_some {A : Type} (r : result A) (e : exn) :
  raised r = Some e -> r = Raises e.
Proof. destruct r; cbn; congruence. Qed.

(** A call that raises stops the cell there. *)
Lemma stops_call {A : Type} (target o : op) (answer : result A) (e : exn) :
  answer = Raises e -> o <> target -> stops_before target (call o answer).
Proof.
  intros -> Hne s H. unfold call, bind, emit, raise. cbn. split; [|discriminate].
  unfold called. cbn. intros Hin. apply in_app_or in Hin.
  destruct Hin as [Hin|[Hin|[]]]; [auto|congruence].
Qed.

(** [halt base] looks for the statement at which a run stops. *)
Ltac halt base :=
  first
    [ base
    | apply stops_later; [solve [avoid_calls]|intros ?; halt base]
    | apply stops_here; halt base ].






Lemma stops_wait (w : world) (fuel : nat) (target : op) :
  target <> DescribeEndpoint ->
  (forall k, describe_endpoint w k <> not_found) ->
  stops_before target (wait_for_deletion w fuel).
Proof.
  intros Hne Hnever s H. split; [now apply avoids_wait|].
  intros a Hdone. destruct (wait_summary w fuel s) as [_ [_ He]].
  rewrite Hdone in He. destruct He as [m [_ [_ Hlast]]].
  apply classify_exited in Hlast. exact (Hnever _ Hlast).
Qed.

(** X4.  As long as no poll is answered not-found, the endpoint configuration is
    never deleted and the notebook never reaches its end, however long the
    run is observed. *)
Theorem config_kept_until_not_found (w : world) (fuel : nat) :
  (forall k, describe_endpoint w k <> not_found) ->
  ~ called DeleteEndpointConfig (snd (notebook w fuel start))
  /\ forall a, fst (notebook w fuel start) <> Done a.
Proof.
  intros Hnever.
  assert (stops_before DeleteEndpointConfig (notebook w fuel)) as Hstop.
  { unfold notebook, cell_imports, cell_create_model, cell_create_group,
      cell_register, cell_fetch_approved, cell_endpoint_config,
      cell_create_endpoint, cell_invoke, cell_cleanup.
    halt ltac:(apply stops_wait; [discriminate|exact Hnever]). }
  exact (Hstop start (not_called_at_start _)).
Qed.


Lemma config_kept_until_not_found_witness :
  called DeleteEndpoint (snd (notebook Outages.never_gone 4 start))
  /\ ~ called DeleteEndpointConfig (snd (notebook Outages.never_gone 4 start))
  /\ forall a, fst (notebook Outages.never_gone 4 start) <> Done a.
Proof.
  split.
  - vm_compute. repeat (first [left; reflexivity|right]).
  - apply (config_kept_until_not_found Outages.never_gone 4).
    intros k. cbn. discriminate.
Defined.

End OrderFacts.

(** ** The data processing notebook: order and paths *)

Module Lab3Extras.
Import Py Notebook Runs RunFacts DeployFacts OrderFacts Measures Lab3Paths.
Local Open Scope string_scope.
Local Open Scope list_scope.

Lemma stops_before_job (w : Lab3.world) (render : Pandas.frame -> string)
      (o : op) (e : exn) :
  In o before_processor_run -> Lab3.failure w o = Some e ->
  stops_before ProcessorRun (Lab3.notebook w render).
Proof.
  intros Hin Hf. unfold before_processor_run in Hin.
  unfold Lab3.notebook, Lab3.cell_setup, Lab3.cell_explore, Lab3.cell_upload,
    Lab3.cell_run_job, Lab3.cell_validate.
  repeat (destruct Hin as [<-|Hin];
          [apply raised_some in Hf;
           halt ltac:(eapply stops_call; [exact Hf|discriminate])|]).
  destruct Hin.
Qed.

(** X5.  If a call made before [processor.run] fails (the session, the role, the
    bucket, reading the sample, the upload of the input, the image lookup,
    building the processor, its input or its output), the processing job is
    never started. *)
Theorem failure_before_job (w : Lab3.world) (render : Pandas.frame -> string)
        (o : op) (e : exn) :
  In o before_processor_run ->
  Lab3.failure w o = Some e ->
  ~ called ProcessorRun (snd (Lab3.notebook w render start))
  /\ forall a, fst (Lab3.notebook w render start) <> Done a.
Proof.
  intros Hin Hf.
  apply (stops_before_job w render o e Hin Hf start). intros [].
Qed.

(** X6.  A run of the lab3 notebook that reaches its end has made these calls
    in this order; the table read back at the end is the one under the
    bucket that [default_bucket] named. *)
Theorem lab3_completed_run_calls (w : Lab3.world) (render : Pandas.frame -> string) :
  fst (Lab3.notebook w render start) = Done tt ->
  exists bucket,
    Lab3.default_bucket w = Returns bucket
    /\ calls (trace (snd (Lab3.notebook w render start)))
       = [Session; GetExecutionRole; DefaultBucket; Boto3Session;
          ReadCsv Lab3.sample_csv; Boto3Resource "s3"; UploadFile;
          ImageUrisRetrieve; ScriptProcessorInit; ProcessingInputInit;
          ProcessingOutputInit; ProcessorRun;
          ReadCsv (validated_path bucket)].
Proof.
  unfold Lab3.notebook, Lab3.cell_setup, Lab3.cell_explore, Lab3.cell_upload,
    Lab3.cell_run_job, Lab3.cell_validate, bind, call, emit, print, ret, raise.
  cbv zeta.
  destruct (Lab3.default_bucket w) as [bucket|] eqn:Eb.
  - repeat (cbn -[append];
            match goal with
            | |- context [match ?r with Returns _ => _ | Raises _ => _ end] =>
                destruct r; [|cbn -[append]; discriminate]
            end).
    cbn -[append].
    intros _. exists bucket. split; reflexivity.
  - repeat (cbn -[append];
            match goal with
            | |- context [match ?r with Returns _ => _ | Raises _ => _ end] =>
                destruct r; [|cbn -[append]; discriminate]
            end).
    cbn. discriminate.
Qed.

Lemma failure_before_job_witness :
  ~ called ProcessorRun
      (snd (Lab3.notebook Outages.upload_fails (fun _ => "") start))
  /\ forall a, fst (Lab3.notebook Outages.upload_fails (fun _ => "") start)
               <> Done a.
Proof.
  apply (failure_before_job Outages.upload_fails (fun _ => "") UploadFile
                            (ClientError "AccessDenied")).
  - unfold before_processor_run. repeat (first [left; reflexivity|right]).
  - reflexivity.
Defined.

Lemma lab3_completed_run_calls_witness :
  exists bucket,
    Lab3.default_bucket (Outages.job_runs Samples.houses) = Returns bucket
    /\ calls (trace (snd (Lab3.notebook (Outages.job_runs Samples.houses)
                                        (fun _ => "") start)))
       = [Session; GetExecutionRole; DefaultBucket; Boto3Session;
          ReadCsv Lab3.sample_csv; Boto3Resource "s3"; UploadFile;
          ImageUrisRetrieve; ScriptProcessorInit; ProcessingInputInit;
          ProcessingOutputInit; ProcessorRun;
          ReadCsv (validated_path bucket)].
Proof.
  apply (lab3_completed_run_calls (Outages.job_runs Samples.houses)
                                  (fun _ => "")).
  reflexivity.
Defined.

End Lab3Extras.

(** ** The paths of the data processing notebook *)

Module Lab3PathFacts.
Import Lab3Paths.
Local Open Scope string_scope.

Lemma endswith_sep_app (a b : string) :
  b <> "" -> endswith_sep (a ++ b) = endswith_sep b.
Proof.
  intros Hb. induction a as [|c a IH]; [reflexivity|].
  cbn [append endswith_sep]. rewrite IH.
  destruct (a ++ b) eqn:E; [|reflexivity].
  destruct a; cbn in E; [contradiction|discriminate].
Qed.

Lemma append_assoc (a b c : string) : (a ++ b) ++ c = a ++ (b ++ c).
Proof. induction a as [|x a IH]; cbn; [reflexivity|now rewrite IH]. Qed.

Lemma append_nonempty (a b : string) : b <> "" -> a ++ b <> "".
Proof. destruct a; cbn; [auto|discriminate]. Qed.

Lemma join_one_plain (path b : string) :
  startswith_sep b = false -> path <> "" -> endswith_sep path = false ->
  join_one path b = path ++ "/" ++ b.
Proof.
  intros Hb Hp He. unfold join_one. rewrite Hb, He.
  now rewrite (proj2 (String.eqb_neq path "") Hp).
Qed.

Lemma join_one_after_sep (path b : string) :
  startswith_sep b = false -> endswith_sep path = true ->
  join_one path b = path ++ b.
Proof.
  intros Hb He. unfold join_one. now rewrite Hb, He, orb_true_r.
Qed.

(** X7.  For a bucket name that is not empty and does not end with a slash (as
    bucket names are), the job's input is the object the notebook uploaded,
    and the table the last cell reads is the file the script writes, under
    the job's output destination. *)
Theorem lab3_paths_agree (bucket : string) :
  bucket <> "" -> endswith_sep bucket = false ->
  input_source bucket = s3_uri bucket upload_key
  /\ os_path_join input_destination ["data.csv"] = script_input
  /\ os_path_join output_source ["processed.csv"] = script_output
  /\ os_path_join (output_destination bucket) ["processed.csv"]
     = validated_path bucket.
Proof.
  intros Hne Hend.
  assert (os_path_join bucket ["input/"; "data.csv"] = bucket ++ "/input/data.csv")
    as Hin.
  { unfold os_path_join. cbn [fold_left].
    rewrite (join_one_plain bucket "input/") by (reflexivity || assumption).
    rewrite join_one_after_sep;
      [|reflexivity|now rewrite endswith_sep_app].
    now rewrite !append_assoc. }
  assert (os_path_join bucket ["output"; "data-processed"]
          = bucket ++ "/output/data-processed") as Hout.
  { unfold os_path_join. cbn [fold_left].
    rewrite (join_one_plain bucket "output") by (reflexivity || assumption).
    rewrite join_one_plain;
      [|reflexivity|now apply append_nonempty|now rewrite endswith_sep_app].
    now rewrite !append_assoc. }
  split; [|split; [reflexivity|split; [reflexivity|]]].
  - unfold input_source, s3_uri, upload_key, input_raw_data_prefix.
    now rewrite Hin.
  - unfold output_destination, validated_path, output_preprocessed_data_prefix.
    rewrite Hout. unfold os_path_join. cbn [fold_left].
    rewrite join_one_plain; [|reflexivity|discriminate|].
    + now rewrite !append_assoc.
    + rewrite endswith_sep_app by (apply append_nonempty; discriminate).
      now rewrite endswith_sep_app by discriminate.
Qed.

Lemma lab3_paths_agree_witness :
  input_source "sagemaker-lab" = "s3://sagemaker-lab/input/data.csv"
  /\ (input_source "sagemaker-lab" = s3_uri "sagemaker-lab" upload_key
      /\ os_path_join input_destination ["data.csv"] = script_input
      /\ os_path_join output_source ["processed.csv"] = script_output
      /\ os_path_join (output_destination "sagemaker-lab") ["processed.csv"]
         = validated_path "sagemaker-lab").
Proof.
  split; [reflexivity|].
  apply (lab3_paths_agree "sagemaker-lab"); [discriminate|reflexivity].
Defined.

End Lab3PathFacts.

(** ** More about frames: dropping columns and filtering rows *)

Module FrameExtras.
Import Py Pandas Sklearn Preprocessing Samples PandasFacts.
Local Open Scope list_scope.

Lemma mem_string_In (k : string) (ks : list string) :
  mem_string k ks = true <-> In k ks.
Proof.
  unfold mem_string. rewrite existsb_exists. split.
  - intros [x [Hx E]]. apply String.eqb_eq in E. now subst.
  - intros H. exists k. split; [exact H|apply String.eqb_refl].
Qed.

Lemma has_column_In (df : frame) (key : string) :
  has_column df key = true <-> In key (map name (columns df)).
Proof.
  unfold has_column. rewrite existsb_exists, in_map_iff. split.
  - intros [c [Hc E]]. apply String.eqb_eq in E. now exists c.
  - intros [c [E Hc]]. exists c. split; [exact Hc|now apply String.eqb_eq].
Qed.

Lemma getitem_missing (df : frame) (key : string) :
  has_column df key = false <-> getitem df key = Raises (KeyError key).
Proof.
  unfold has_column, getitem. induction (columns df) as [|c cols IH]; cbn.
  - split; reflexivity.
  - destruct (String.eqb (name c) key); cbn; [split; discriminate|exact IH].
Qed.

Lemma drop_columns_all (labels : list string) (df df' : frame) :
  drop_columns labels df = Returns df' ->
  forall k, In k labels -> has_column df k = true.
Proof.
  unfold drop_columns.
  destruct (filter (fun k => negb (has_column df k)) labels) eqn:E;
    [|discriminate].
  intros _ k Hk. destruct (has_column df k) eqn:Hc; [reflexivity|].
  assert (In k (filter (fun k => negb (has_column df k)) labels)) as Hin
      by (apply filter_In; now rewrite Hc).
  rewrite E in Hin. destruct Hin.
Qed.

(** What a completed [drop] has done. *)
Lemma drop_columns_returns (labels : list string) (df df' : frame) :
  drop_columns labels df = Returns df' ->
  index df' = index df
  /\ (forall k, In k labels -> has_column df k = true
                               /\ has_column df' k = false)
  /\ (forall key, ~ In key labels -> getitem df' key = getitem df key).
Proof.
  intros H. pose proof (drop_columns_all labels df df' H) as Hall.
  unfold drop_columns in H.
  destruct (filter (fun k => negb (has_column df k)) labels); [|discriminate].
  injection H as <-. cbn [index columns].
  split; [reflexivity|split].
  - intros k Hk. split; [now apply Hall|].
    unfold has_column. cbn [columns].
    destruct (existsb (fun c => String.eqb (name c) k)
                      (filter (fun c => negb (mem_string (name c) labels))
                              (columns df))) eqn:Ex; [|reflexivity].
    apply existsb_exists in Ex. destruct Ex as [c [Hc Hn]].
    apply filter_In in Hc. destruct Hc as [_ Hc].
    apply String.eqb_eq in Hn. subst k.
    apply (proj2 (mem_string_In _ _)) in Hk. rewrite Hk in Hc. discriminate.
  - intros key Hkey. unfold getitem. cbn [columns].
    apply EncodingClaims.getitem_cols_filter. intros c <-.
    destruct (mem_string (name c) labels) eqn:Hm; [|reflexivity].
    apply mem_string_In in Hm. contradiction.
Qed.

(** X8.  [df.drop(columns=labels)] raises [KeyError] exactly when one of the
    labels is not a column, and then names such a label.  When it
    returns, the row labels are as before, none of the labels is a column
    any more, and every other column reads back as it was. *)
Theorem drop_columns_removes_exactly (labels : list string) (df : frame) :
  ((exists k, In k labels /\ has_column df k = false)
   <-> exists k, drop_columns labels df = Raises (KeyError k)
                 /\ In k labels /\ has_column df k = false)
  /\ (forall df', drop_columns labels df = Returns df' ->
        index df' = index df
        /\ (forall k, In k labels -> has_column df k = true
                                     /\ has_column df' k = false)
        /\ (forall key, ~ In key labels -> getitem df' key = getitem df key)).
Proof.
  split; [|apply drop_columns_returns].
  unfold drop_columns.
  destruct (filter (fun k => negb (has_column df k)) labels) as [|k0 rest] eqn:E.
  - assert (forall k, In k labels -> has_column df k = true) as Hall.
    { intros k Hk. destruct (has_column df k) eqn:Hc; [reflexivity|].
      assert (In k (filter (fun k => negb (has_column df k)) labels)) as Hin
          by (apply filter_In; now rewrite Hc).
      rewrite E in Hin. destruct Hin. }
    split.
    + intros [k [Hk Hc]]. rewrite (Hall k Hk) in Hc. discriminate.
    + intros [k [H _]]. discriminate.
  - assert (In k0 labels /\ has_column df k0 = false) as [Hk0 Hc0].
    { assert (In k0 (filter (fun k => negb (has_column df k)) labels)) as Hin
          by (rewrite E; now left).
      apply filter_In in Hin. destruct Hin as [Hin Hc].
      split; [exact Hin|]. now destruct (has_column df k0). }
    split; intros _; now exists k0.
Qed.

(** *** The row filter keeps frames in shape *)

Lemma select_all {A : Type} (mask : list bool) :
  forall l : list A,
    Forall (fun b => b = true) mask -> length l <= length mask ->
    select mask l = l.
Proof.
  induction mask as [|b mask IH]; intros [|x l] Hall Hlen; cbn in *;
    try reflexivity; try lia.
  inversion Hall as [|b' m' Hb Hrest]; subst. now rewrite IH by (auto; lia).
Qed.

Lemma keep_mask_length (thresh : Z) (df : frame) :
  wf_frame df = true -> length (keep_mask thresh df) = nrows df.
Proof.
  intros Hwf. unfold keep_mask.
  now rewrite length_map, notna_counts_rows, length_map, rows_length.
Qed.

Lemma dropna_wf (thresh : Z) (df : frame) :
  wf_frame df = true -> wf_frame (dropna thresh df) = true.
Proof.
  intros Hwf. pose proof (wf_columns df Hwf) as Hcols.
  pose proof (keep_mask_length thresh df Hwf) as Hmask.
  unfold wf_frame, dropna. cbv zeta. cbn [columns index]. unfold nrows at 1.
  cbn [index]. rewrite forallb_forall. intros c Hc.
  apply in_map_iff in Hc. destruct Hc as [c0 [<- Hc0]]. cbn [data].
  rewrite Forall_forall in Hcols. specialize (Hcols c0 Hc0).
  apply Nat.eqb_eq. unfold series_length. rewrite cells_of_select.
  unfold nrows in *.
  rewrite !select_length by congruence. reflexivity.
Qed.

Lemma series_select_all (mask : list bool) (s : series) :
  Forall (fun b => b = true) mask -> series_length s <= length mask ->
  series_select mask s = s.
Proof.
  intros Hall Hlen. unfold series_length in Hlen.
  destruct s; cbn in *; rewrite length_map in Hlen; now rewrite select_all.
Qed.

Lemma keep_mask_after (thresh : Z) (df : frame) :
  wf_frame df = true ->
  Forall (fun b => b = true) (keep_mask thresh (dropna thresh df)).
Proof.
  intros Hwf. unfold keep_mask at 1.
  rewrite notna_counts_rows, (dropna_rows_select thresh df Hwf).
  unfold keep_mask. rewrite notna_counts_rows, !map_map.
  rewrite select_filter. rewrite Forall_forall. intros b Hb.
  apply in_map_iff in Hb. destruct Hb as [r [<- Hr]].
  apply filter_In in Hr. now destruct Hr.
Qed.

(** X9.  The row filter keeps a well-formed frame well-formed, keeps the names
    of the columns, and does nothing when it is applied a second time with
    the same threshold. *)
Theorem dropna_settles (thresh : Z) (df : frame) :
  wf_frame df = true ->
  wf_frame (dropna thresh df) = true
  /\ map name (columns (dropna thresh df)) = map name (columns df)
  /\ nrows (dropna thresh df) <= nrows df
  /\ dropna thresh (dropna thresh df) = dropna thresh df.
Proof.
  intros Hwf. pose proof (dropna_wf thresh df Hwf) as Hwf'.
  split; [exact Hwf'|split; [|split]].
  - unfold dropna. cbv zeta. cbn [columns]. rewrite map_map. reflexivity.
  - pose proof (keep_mask_length thresh df Hwf) as Hm.
    unfold dropna, nrows in *. cbv zeta. cbn [index].
    rewrite select_length by congruence.
    rewrite <- Hm. apply filter_length_le.
  - pose proof (keep_mask_after thresh df Hwf) as Hall.
    pose proof (keep_mask_length thresh (dropna thresh df) Hwf') as Hlen.
    pose proof (wf_columns _ Hwf') as Hcols.
    set (df' := dropna thresh df) in *.
    unfold dropna at 1. cbv zeta.
    destruct df' as [idx cols] eqn:Edf. cbn [index columns] in *.
    f_equal.
    + apply select_all; [exact Hall|]. unfold nrows in Hlen.
      cbn [index] in Hlen. rewrite Hlen. apply Nat.le_refl.
    + rewrite <- (map_id cols) at 2. apply map_ext_in. intros c Hc.
      rewrite Forall_forall in Hcols. specialize (Hcols c Hc).
      rewrite series_select_all; [now destruct c|exact Hall|].
      unfold series_length. rewrite Hcols, Hlen. apply Nat.le_refl.
Qed.

(** *** Rows that are full, rows that are empty *)

Lemma seven_tenths_bounds (n : nat) :
  n < 1000 ->
  (0 <= seven_tenths n <= Z.of_nat n)%Z /\ (2 <= n -> (1 <= seven_tenths n)%Z).
Proof.
  intros Hn.
  assert (forallb (fun k => Z.leb 0 (seven_tenths k)
                            && Z.leb (seven_tenths k) (Z.of_nat k)
                            && (Nat.ltb k 2 || Z.leb 1 (seven_tenths k)))
                  (seq 0 1000) = true) as Hall by (vm_compute; reflexivity).
  rewrite forallb_forall in Hall.
  specialize (Hall n ltac:(apply in_seq; lia)).
  apply andb_prop in Hall. destruct Hall as [Hall H3].
  apply andb_prop in Hall. destruct Hall as [H1 H2].
  apply Z.leb_le in H1, H2. split; [lia|].
  intros H2n. apply orb_prop in H3. destruct H3 as [H3|H3].
  - apply Nat.ltb_lt in H3. lia.
  - now apply Z.leb_le.
Qed.

(** X10.  In a frame of fewer than a thousand columns the row filter keeps every
    row without a missing value, and, when there are at least two columns,
    removes every row that has no value at all. *)
Theorem dropna_rows_full_and_empty (df : frame) (l : nat) (r : list cell) :
  wf_frame df = true -> ncols df < 1000 ->
  In (l, r) (labelled_rows df) ->
  (count_notna r = ncols df -> In (l, r) (labelled_rows (dropna_rows df)))
  /\ (2 <= ncols df -> count_notna r = 0 ->
      ~ In (l, r) (labelled_rows (dropna_rows df))).
Proof.
  intros Hwf Hn Hin. unfold dropna_rows, row_threshold.
  rewrite (dropna_labelled_rows _ df Hwf).
  destruct (seven_tenths_bounds (ncols df) Hn) as [[_ Hup] Hlow]. split.
  - intros Hfull. apply filter_In. split; [exact Hin|]. cbn [snd].
    apply Z.leb_le. lia.
  - intros H2 Hempty Hkept. apply filter_In in Hkept.
    destruct Hkept as [_ Hk]. cbn [snd] in Hk. apply Z.leb_le in Hk.
    specialize (Hlow H2). lia.
Qed.

Lemma dropna_settles_witness :
  index (dropna 10 houses) = [0; 1; 3]
  /\ (wf_frame (dropna 10 houses) = true
      /\ map name (columns (dropna 10 houses)) = map name (columns houses)
      /\ nrows (dropna 10 houses) <= nrows houses
      /\ dropna 10 (dropna 10 houses) = dropna 10 houses).
Proof.
  split; [reflexivity|].
  apply (dropna_settles 10 houses). reflexivity.
Defined.

Lemma dropna_rows_full_and_empty_witness :
  In (2, repeat NA 14) (labelled_rows houses)
  /\ ((count_notna (repeat NA 14) = ncols houses ->
       In (2, repeat NA 14) (labelled_rows (dropna_rows houses)))
      /\ (2 <= ncols houses -> count_notna (repeat NA 14) = 0 ->
          ~ In (2, repeat NA 14) (labelled_rows (dropna_rows houses)))).
Proof.
  assert (In (2, repeat NA 14) (labelled_rows houses)) as Hin
      by (vm_compute; repeat (first [left; reflexivity|right])).
  split; [exact Hin|].
  apply (dropna_rows_full_and_empty houses 2 (repeat NA 14));
    [reflexivity|vm_compute; lia|exact Hin].
Defined.

End FrameExtras.

(** ** More about the imputation *)

Module ImputeExtras.
Import Py Pandas Sklearn Preprocessing Samples PandasFacts CleaningClaims.
Local Open Scope list_scope.

Lemma Forall2_In_left {A B : Type} (P : A -> B -> Prop) (l : list A)
      (l' : list B) (a : A) :
  Forall2 P l l' -> In a l -> exists b, In b l' /\ P a b.
Proof.
  induction 1 as [|x y l l' Hxy _ IH]; intros Hin; [destruct Hin|].
  destruct Hin as [->|Hin].
  - exists y. split; [now left|exact Hxy].
  - destruct (IH Hin) as [b [Hb Hab]]. exists b. split; [now right|exact Hab].
Qed.

Lemma observed_some (v : list (option float64)) :
  observed v <> [] <-> exists x, In (Some x) v.
Proof.
  unfold observed. induction v as [|[x|] v IH]; cbn [flat_map app].
  - split; [contradiction|intros [x []]].
  - split; [intros _; exists x; now left|discriminate].
  - rewrite IH. split; intros [x H]; exists x.
    + now right.
    + destruct H as [H|H]; [discriminate|exact H].
Qed.

Lemma has_infinity_none (v : list (option float64)) :
  has_infinity v = false <-> forall s, ~ In (Some (Infinity s)) v.
Proof.
  unfold has_infinity. split.
  - intros H s Hin.
    assert (existsb (fun x : option float64 =>
                       match x with Some (Infinity _) => true | _ => false end)
                    v = true) as Ht
        by (apply existsb_exists; now exists (Some (Infinity s))).
    congruence.
  - intros H.
    destruct (existsb (fun x : option float64 =>
                         match x with Some (Infinity _) => true | _ => false end)
                      v) eqn:E; [|reflexivity].
    apply existsb_exists in E. destruct E as [[[q|s]|] [Hin Hx]];
      try discriminate. now destruct (H s).
Qed.

Lemma transform_all_observed (lib : library) (X : list (list (option float64))) :
  Forall (fun v => observed v <> []) X ->
  length (flat_map (transform_one lib) X) = length X.
Proof.
  induction 1 as [|v X Hv _ IH]; [reflexivity|].
  cbn [flat_map]. rewrite length_app, IH. unfold transform_one, statistic.
  destruct (observed v); [contradiction|reflexivity].
Qed.

(** X11.  The imputation step completes exactly when the frame has a row, has
    a numeric column, no numeric entry is infinite, and every numeric
    column has at least one value; in any other case it raises
    [ValueError]. *)
Theorem impute_numeric_completes_iff (lib : library) (df : frame) :
  ((exists df', impute_numeric lib df = Returns df')
   <-> nrows df <> 0 /\ numeric_block df <> []
       /\ Forall (fun v => (exists x, In (Some x) v)
                           /\ forall s, ~ In (Some (Infinity s)) v)
                 (numeric_block df))
  /\ ((forall df', impute_numeric lib df <> Returns df')
      -> exists msg, impute_numeric lib df = Raises (ValueError msg)).
Proof.
  assert ((exists df', impute_numeric lib df = Returns df')
          <-> nrows df <> 0 /\ numeric_block df <> []
              /\ Forall (fun v => (exists x, In (Some x) v)
                                  /\ forall s, ~ In (Some (Infinity s)) v)
                        (numeric_block df)) as Hiff.
  { split.
    - intros [df' H].
      destruct (impute_numeric_passed lib df df' H)
        as [Hn [Hb [Hinf [Hlen _]]]].
      split; [exact Hn|]. split; [exact Hb|].
      pose proof (transform_full lib _ Hlen) as Hfull.
      apply Forall_forall. intros v Hv. split.
      + apply observed_some.
        destruct (Forall2_In_left _ _ _ _ Hfull Hv) as [x [_ [m [Hm _]]]].
        now apply (statistic_some lib v m).
      + apply has_infinity_none.
        destruct (has_infinity v) eqn:E; [|reflexivity].
        assert (existsb has_infinity (numeric_block df) = true) as Ht
            by (apply existsb_exists; now exists v).
        congruence.
    - intros [Hn [Hb Hall]]. rewrite Forall_forall in Hall.
      unfold impute_numeric, fit_transform, setitem_numeric, select_dtypes.
      apply Nat.eqb_neq in Hn. rewrite Hn.
      destruct (numeric_block df) as [|v0 X0] eqn:Eblock; [contradiction|].
      rewrite <- Eblock in *.
      assert (existsb has_infinity (numeric_block df) = false) as Hinf.
      { destruct (existsb has_infinity (numeric_block df)) eqn:E;
          [|reflexivity].
        apply existsb_exists in E. destruct E as [v [Hv Hi]].
        rewrite (proj2 (has_infinity_none v)) in Hi; [discriminate|].
        now apply Hall. }
      rewrite Hinf. cbn [bind]. rewrite numeric_names_length.
      fold (numeric_block df). rewrite transform_all_observed.
      + rewrite Nat.eqb_refl. eexists. reflexivity.
      + apply Forall_forall. intros v Hv. apply observed_some.
        now apply Hall. }
  split; [exact Hiff|].
  intros Hno. apply impute_numeric_raises.
  destruct (Nat.eq_dec (nrows df) 0) as [H0|H0]; [now left|right].
  destruct (numeric_block df) as [|v0 X0] eqn:Eblock; [now left|right].
  rewrite <- Eblock in *.
  destruct (existsb has_infinity (numeric_block df)) eqn:Einf; [now left|right].
  destruct (existsb (fun v => match observed v with [] => true | _ => false end)
                    (numeric_block df)) eqn:Eobs.
  - apply existsb_exists in Eobs. destruct Eobs as [v [Hv Ho]].
    exists v. split; [exact Hv|]. now destruct (observed v).
  - exfalso. destruct (proj2 Hiff) as [df' Hdf']; [|exact (Hno df' Hdf')].
    split; [exact H0|]. split; [rewrite Eblock; discriminate|].
    apply Forall_forall. intros v Hv. split.
    + apply observed_some. intros Ho.
      assert (existsb (fun v => match observed v with [] => true | _ => false end)
                      (numeric_block df) = true) as Ht
          by (apply existsb_exists; exists v; now rewrite Ho).
      congruence.
    + apply has_infinity_none. destruct (has_infinity v) eqn:E; [|reflexivity].
      assert (existsb has_infinity (numeric_block df) = true) as Ht
          by (apply existsb_exists; now exists v).
      congruence.
Qed.

(** *** Imputing twice *)







Lemma filled_finite (m : finite) (v : list (option float64)) :
  has_infinity v = false ->
  Forall (fun y => exists q, y = Real q) (map (fill m) v).
Proof.
  unfold has_infinity. induction v as [|[[q|s]|] v IH]; cbn; intros H;
    try discriminate; constructor; eauto.
Qed.

Lemma assign_numeric_finite (cols : list column) :
  forall X,
    Forall (Forall (fun y => exists q, y = Real q)) X ->
    length X = length (numeric_block {| index := []; columns := cols |}) ->
    Forall (fun c' => forall v', data c' = Number v' ->
                                 Forall (fun x => exists q, x = Some (Real q)) v')
           (assign_numeric cols X).
Proof.
  unfold numeric_block. cbn [columns].
  induction cols as [|c cols IH]; intros X HX Hlen; [constructor|].
  cbn [flat_map assign_numeric] in *.
  assert (forall x X', X = x :: X' ->
            length X' = length (flat_map (fun c => as_float64 (data c)) cols) ->
            Forall (fun c' => forall v', data c' = Number v' ->
                        Forall (fun x => exists q, x = Some (Real q)) v')
                   ({| name := name c; data := Number (map Some x) |}
                    :: assign_numeric cols X')) as Hstep.
  { intros x X' -> Hl. inversion HX as [|x0 X0 Hx HX']; subst.
    constructor; [|now apply IH].
    cbn [data]. intros v' [= <-]. apply Forall_forall. intros y Hy.
    apply in_map_iff in Hy. destruct Hy as [z [<- Hz]].
    rewrite Forall_forall in Hx. destruct (Hx z Hz) as [q ->]. now exists q. }
  destruct (data c) as [v|v|v|v|v] eqn:Ec;
    cbn [is_number as_float64 app length] in *.
  - destruct X as [|x X']; [discriminate|]. apply Hstep; [reflexivity|].
    cbn in Hlen. lia.
  - destruct X as [|x X']; [discriminate|]. apply Hstep; [reflexivity|].
    cbn in Hlen. lia.
  - constructor; [congruence|now apply IH].
  - constructor; [congruence|now apply IH].
  - constructor; [congruence|now apply IH].
Qed.

Lemma transformed_finite (lib : library) (X : list (list (option float64)))
      (Y : list (list float64)) :
  Forall2 (fun v x => exists m, statistic lib v = Some m /\ x = map (fill m) v)
          X Y ->
  existsb has_infinity X = false ->
  Forall (Forall (fun y => exists q, y = Real q)) Y.
Proof.
  induction 1 as [|v x A B [m [_ ->]] _ IH]; intros Hinf; constructor;
    cbn [existsb] in Hinf; apply orb_false_elim in Hinf.
  - now apply filled_finite.
  - now apply IH.
Qed.

(** After the imputation every entry of a float64 column is a finite
    number. *)
Lemma impute_numeric_finite (lib : library) (df df' : frame) :
  impute_numeric lib df = Returns df' ->
  Forall (fun c' => forall v', data c' = Number v' ->
                               Forall (fun x => exists q, x = Some (Real q)) v')
         (columns df').
Proof.
  intros H.
  destruct (impute_numeric_passed lib df df' H) as [_ [_ [Hinf [Hlen ->]]]].
  cbn [columns]. apply assign_numeric_finite; [|exact Hlen].
  exact (transformed_finite lib _ _ (transform_full lib _ Hlen) Hinf).
Qed.



End ImputeExtras.

(** ** What each statement of the script keeps *)

Module StepFacts.
Import Py Pandas Sklearn Preprocessing PandasFacts FrameExtras CleaningClaims.
Local Open Scope string_scope.
Local Open Scope list_scope.

Lemma drop_columns_wf (labels : list string) (df df' : frame) :
  wf_frame df = true -> drop_columns labels df = Returns df' ->
  wf_frame df' = true.
Proof.
  unfold drop_columns. destruct (filter _ labels); [|discriminate].
  intros Hwf [= <-]. unfold wf_frame, nrows in *. cbn [index columns].
  rewrite forallb_forall in *. intros c Hc. apply filter_In in Hc.
  apply Hwf, Hc.
Qed.

Lemma drop_columns_has (labels : list string) (df df' : frame) (k : string) :
  drop_columns labels df = Returns df' ->
  has_column df' k = true -> has_column df k = true.
Proof.
  unfold drop_columns. destruct (filter _ labels); [|discriminate].
  intros [= <-]. unfold has_column. cbn [columns].
  rewrite !existsb_exists. intros [c [Hc E]]. apply filter_In in Hc.
  exists c. now split.
Qed.

Lemma setitem_wf (df df' : frame) (key : string) (s : series) :
  wf_frame df = true -> setitem df key s = Returns df' -> wf_frame df' = true.
Proof.
  unfold setitem.
  destruct (Nat.eqb (series_length s) (nrows df)) eqn:E; cbn [negb]; [|discriminate].
  destruct (has_column df key); intros Hwf [= <-];
    unfold wf_frame, nrows in *; cbn [index columns];
    rewrite forallb_forall in *; intros c Hc.
  - apply in_map_iff in Hc. destruct Hc as [c0 [<- Hc0]].
    destruct (String.eqb (name c0) key); [exact E|apply Hwf, Hc0].
  - apply in_app_or in Hc. destruct Hc as [Hc|[<-|[]]]; [apply Hwf, Hc|exact E].
Qed.

Lemma setitem_names (df df' : frame) (key : string) (s : series) :
  has_column df key = true -> setitem df key s = Returns df' ->
  map name (columns df') = map name (columns df).
Proof.
  unfold setitem. intros Hc.
  destruct (negb (Nat.eqb (series_length s) (nrows df))); [discriminate|].
  rewrite Hc. intros [= <-]. cbn [columns]. rewrite map_map.
  apply map_ext. intros c. destruct (String.eqb (name c) key) eqn:E;
    [|reflexivity].
  apply String.eqb_eq in E. now rewrite E.
Qed.

Lemma getitem_has (df : frame) (key : string) (s : series) :
  getitem df key = Returns s -> has_column df key = true.
Proof.
  intros H. destruct (has_column df key) eqn:E; [reflexivity|].
  apply getitem_missing in E. congruence.
Qed.

Lemma names_has (df df' : frame) (k : string) :
  map name (columns df') = map name (columns df) ->
  has_column df' k = has_column df k.
Proof.
  intros H. destruct (has_column df k) eqn:E.
  - apply has_column_In. rewrite H. now apply has_column_In.
  - destruct (has_column df' k) eqn:E'; [|reflexivity].
    apply has_column_In in E'. rewrite H in E'. apply has_column_In in E'.
    congruence.
Qed.

Lemma convert_date_column_keeps (lib : library) (key : string)
      (df df' : frame) :
  convert_date_column lib key df = Returns df' ->
  has_column df key = true
  /\ map name (columns df') = map name (columns df)
  /\ (wf_frame df = true -> wf_frame df' = true).
Proof.
  unfold convert_date_column.
  destruct (getitem df key) as [s|e] eqn:Eg; [|discriminate]. cbn [bind].
  destruct (to_datetime lib s) as [t|e]; [|discriminate]. cbn [bind].
  intros H. pose proof (getitem_has _ _ _ Eg) as Hc.
  split; [exact Hc|]. split.
  - now apply (setitem_names df df' key t).
  - intros Hwf. now apply (setitem_wf df df' key t).
Qed.

Lemma dropna_names (thresh : Z) (df : frame) :
  map name (columns (dropna thresh df)) = map name (columns df).
Proof. unfold dropna. cbn [columns]. rewrite map_map. reflexivity. Qed.

Lemma filled_length (m : float64) (v v' : list (option float64)) :
  filled_with m v v' -> length v' = length v.
Proof. intros H. symmetry. exact (Forall2_length H). Qed.

Lemma imputed_keeps (lib : library) (cols cols' : list column) :
  Forall2 (imputed lib) cols cols' ->
  map name cols' = map name cols
  /\ map (fun c => series_length (data c)) cols'
     = map (fun c => series_length (data c)) cols.
Proof.
  induction 1 as [|c c' cols cols' [Hn Hd] _ [IH1 IH2]]; [split; reflexivity|].
  cbn [map]. rewrite IH1, IH2, Hn. split; [reflexivity|]. f_equal.
  destruct (data c) as [v|v|v|v|v] eqn:E; try (now rewrite Hd).
  - destruct Hd as [_ [v' [-> Hf]]]. unfold series_length. cbn [cells_of].
    rewrite !length_map. now apply filled_length in Hf.
  - rewrite Hd. unfold series_length. cbn [cells_of]. now rewrite !length_map.
Qed.

Lemma forallb_lengths (n : nat) (cols : list column) :
  forallb (fun c => Nat.eqb (series_length (data c)) n) cols
  = forallb (fun k => Nat.eqb k n) (map (fun c => series_length (data c)) cols).
Proof. induction cols as [|c cols IH]; cbn; [reflexivity|now rewrite IH]. Qed.

Lemma impute_numeric_keeps (lib : library) (df df' : frame) :
  impute_numeric lib df = Returns df' ->
  index df' = index df
  /\ nrows df <> 0
  /\ map name (columns df') = map name (columns df)
  /\ (wf_frame df = true -> wf_frame df' = true).
Proof.
  intros H. destruct (impute_numeric_columns lib df df' H) as [Hi Hc].
  destruct (imputed_keeps lib _ _ Hc) as [Hn Hl].
  split; [exact Hi|]. split; [|split; [exact Hn|]].
  - now destruct (impute_numeric_passed lib df df' H) as [Hrows _].
  - unfold wf_frame, nrows. rewrite Hi.
    rewrite !forallb_lengths. now rewrite Hl.
Qed.

Lemma target_encode_keeps (lib : library) (df df' : frame) :
  target_encode lib df = Returns df' ->
  has_column df "postcode" = true
  /\ has_column df "saleEstimate_currentPrice" = true
  /\ (wf_frame df = true -> wf_frame df' = true).
Proof.
  unfold target_encode, groupby_mean.
  destruct (getitem df "postcode") as [k|e] eqn:Ek; [|discriminate].
  cbn [bind].
  destruct (getitem df "saleEstimate_currentPrice") as [s|e] eqn:Es;
    [|discriminate]. cbn [bind].
  destruct (numeric_values "saleEstimate_currentPrice" s) as [vs|e];
    [|discriminate]. cbn [bind].
  intros H. split; [now apply getitem_has in Ek|].
  split; [now apply getitem_has in Es|].
  intros Hwf. eapply setitem_wf; eassumption.
Qed.

Lemma dummies_lengths (c : column) :
  Forall (fun d => series_length (data d) = series_length (data c)) (dummies c).
Proof.
  unfold dummies. destruct (data c) as [v|v|v|v|v] eqn:E;
    try (constructor; [now rewrite E|constructor]).
  apply Forall_forall. intros d Hd. apply in_map_iff in Hd.
  destruct Hd as [level [<- _]]. unfold series_length. cbn [data cells_of].
  now rewrite !length_map.
Qed.

Lemma dummies_not_object (c : column) :
  Forall (fun d => is_object (data d) = false) (dummies c).
Proof.
  unfold dummies. destruct (data c) as [v|v|v|v|v] eqn:E;
    try (constructor; [now rewrite E|constructor]).
  apply Forall_forall. intros d Hd. apply in_map_iff in Hd.
  now destruct Hd as [level [<- _]].
Qed.

Lemma get_dummies_wf (df : frame) (keys : list string) :
  wf_frame df = true -> wf_frame (get_dummies df keys) = true.
Proof.
  unfold wf_frame, get_dummies, nrows. cbn [index columns].
  rewrite !forallb_forall. intros Hwf d Hd. apply in_app_or in Hd.
  destruct Hd as [Hd|Hd].
  - apply filter_In in Hd. apply Hwf, Hd.
  - apply in_flat_map in Hd. destruct Hd as [c [Hc Hd]].
    apply filter_In in Hc. destruct Hc as [Hc _].
    pose proof (dummies_lengths c) as Hl. rewrite Forall_forall in Hl.
    rewrite (Hl d Hd). apply Hwf, Hc.
Qed.

End StepFacts.

(** ** The encoded postcode *)

Module EncodeExtras.
Import Py Pandas Sklearn Preprocessing Samples PandasFacts FrameExtras.
Import CleaningClaims EncodingClaims ImputeExtras StepFacts.
Local Open Scope string_scope.
Local Open Scope list_scope.

Lemma cell_eqb_na (x : cell) : cell_eqb x NA = false.
Proof. now destruct x. Qed.

Lemma notna_not_na (x : cell) : notna x = false <-> x = NA.
Proof. destruct x; cbn; split; congruence. Qed.

Lemma group_of_na (keys : list cell) :
  forall values, group_of NA keys values = [].
Proof.
  induction keys as [|k keys IH]; intros [|v values]; cbn; try reflexivity.
  rewrite cell_eqb_na. apply IH.
Qed.

(** A key that occurs and is not null has a value in its group as soon as
    no value is missing. *)
Lemma group_of_nonempty (k : cell) (keys : list cell) :
  forall values,
    In k keys -> notna k = true -> length values = length keys ->
    Forall (fun x => x <> None) values ->
    group_of k keys values <> [].
Proof.
  induction keys as [|k' keys IH]; intros values Hin Hk Hlen Hall;
    [destruct Hin|].
  destruct values as [|v values]; [discriminate|].
  cbn [group_of]. inversion Hall as [|v0 vs0 Hv Hrest]; subst.
  destruct v as [q|]; [|contradiction].
  destruct (cell_eqb k' k) eqn:E; [discriminate|].
  destruct Hin as [->|Hin]; [now rewrite cell_eqb_refl in E|].
  apply IH; auto.
Qed.

(** The values of a group are finite when all the values are. *)
Lemma group_of_finite (k : cell) (keys : list cell) :
  forall values,
    Forall (fun x => exists q, x = Some (Real q)) values ->
    exists qs, all_finite (group_of k keys values) = Some qs.
Proof.
  induction keys as [|k' keys IH]; intros values Hall; [now exists []|].
  destruct values as [|v values]; [now exists []|].
  inversion Hall as [|v0 vs0 [q ->] Hrest]; subst.
  destruct (IH values Hrest) as [qs Hqs]. cbn [group_of].
  destruct (cell_eqb k' k); [|now exists qs].
  cbn [all_finite]. rewrite Hqs. now exists (q :: qs).
Qed.

Lemma mean_finite (lib : library) (xs : list float64) (qs : list finite) :
  xs <> [] -> all_finite xs = Some qs -> mean lib xs <> None.
Proof.
  intros Hne Hqs. unfold mean. destruct xs; [contradiction|].
  rewrite Hqs. discriminate.
Qed.

Lemma getitem_cols_In (cols : list column) (key : string) (s : series) :
  getitem_cols cols key = Returns s ->
  exists c, In c cols /\ name c = key /\ data c = s.
Proof.
  induction cols as [|c cols IH]; cbn [getitem_cols]; [discriminate|].
  destruct (String.eqb (name c) key) eqn:E.
  - intros [= <-]. apply String.eqb_eq in E. exists c. split; [now left|auto].
  - intros H. destruct (IH H) as [c' [Hc' Hrest]]. exists c'.
    split; [now right|exact Hrest].
Qed.

Lemma getitem_length (df : frame) (key : string) (s : series) :
  wf_frame df = true -> getitem df key = Returns s ->
  series_length s = nrows df.
Proof.
  intros Hwf H. apply getitem_cols_In in H. destruct H as [c [Hc [_ <-]]].
  unfold wf_frame in Hwf. rewrite forallb_forall in Hwf.
  now apply Nat.eqb_eq, Hwf.
Qed.

(** The values averaged by the target encoding are all there and finite
    once the imputation has run. *)
Lemma prices_complete (lib : library) (df df1 : frame) (key : string)
      (s : series) (vs : list (option float64)) :
  impute_numeric lib df = Returns df1 ->
  getitem df1 key = Returns s ->
  numeric_values key s = Returns vs ->
  Forall (fun x => exists q, x = Some (Real q)) vs
  /\ length vs = series_length s.
Proof.
  intros Himp Hget Hnum.
  pose proof (impute_numeric_finite lib df df1 Himp) as Hfin.
  rewrite Forall_forall in Hfin.
  apply getitem_cols_In in Hget. destruct Hget as [c [Hc [_ Hs]]].
  destruct s as [v|v|v|v|v]; cbn [numeric_values] in Hnum;
    try discriminate; injection Hnum as <-.
  - split; [exact (Hfin c Hc v Hs)|].
    unfold series_length. cbn [cells_of]. now rewrite length_map.
  - split.
    + apply Forall_forall. intros x Hx. apply in_map_iff in Hx.
      destruct Hx as [z [<- _]]. eauto.
    + unfold series_length. cbn [cells_of]. now rewrite !length_map.
  - split.
    + apply Forall_forall. intros x Hx. apply in_map_iff in Hx.
      destruct Hx as [b [<- _]]. destruct b; unfold one, zero; eauto.
    + unfold series_length. cbn [cells_of]. now rewrite !length_map.
Qed.

(** X13.  After the imputation, the encoded postcode is missing on exactly the
    rows whose postcode is missing: every postcode that is present has at
    least one price to average. *)
Theorem postcode_encoded_gaps (lib : library) (df df1 df2 : frame) :
  wf_frame df = true ->
  impute_numeric lib df = Returns df1 ->
  target_encode lib df1 = Returns df2 ->
  exists postcode enc,
    getitem df1 "postcode" = Returns postcode
    /\ getitem df2 "Postcode_Encoded" = Returns (Number enc)
    /\ Forall2 (fun k e => e = None <-> k = NA) (cells_of postcode) enc.
Proof.
  intros Hwf Himp Henc.
  assert (wf_frame df1 = true) as Hwf1
      by (now apply (impute_numeric_keeps lib df df1 Himp)).
  unfold target_encode, groupby_mean in Henc.
  destruct (getitem df1 "postcode") as [k|e] eqn:Ek; [|discriminate].
  cbn [bind] in Henc.
  destruct (getitem df1 "saleEstimate_currentPrice") as [s|e] eqn:Es;
    [|discriminate]. cbn [bind] in Henc.
  destruct (numeric_values "saleEstimate_currentPrice" s) as [vs|e] eqn:Ev;
    [|discriminate]. cbn [bind] in Henc.
  destruct (prices_complete lib df df1 _ s vs Himp Es Ev) as [Hall Hlen].
  rewrite (getitem_length df1 _ s Hwf1 Es) in Hlen.
  rewrite <- (getitem_length df1 _ k Hwf1 Ek) in Hlen.
  unfold series_length in Hlen.
  assert (Forall (fun x => x <> None) vs) as Hsome.
  { apply Forall_forall. intros x Hx. rewrite Forall_forall in Hall.
    destruct (Hall x Hx) as [q ->]. discriminate. }
  apply getitem_setitem in Henc. destruct Henc as [Hget _].
  exists k. eexists. split; [reflexivity|]. split; [exact Hget|].
  apply Forall2_map_r. intros c Hc.
  rewrite (lookup_group_mean lib (cells_of k) vs c Hc).
  rewrite <- group_of_sharing. split.
  - intros Hnone. destruct (notna c) eqn:Hn; [|now apply notna_not_na].
    exfalso. destruct (group_of_finite c (cells_of k) vs Hall) as [qs Hqs].
    refine (mean_finite lib _ qs _ Hqs Hnone).
    exact (group_of_nonempty c (cells_of k) vs Hc Hn Hlen Hsome).
  - intros ->. now rewrite group_of_na.
Qed.

Lemma postcode_encoded_gaps_witness :
  exists df1 df2,
    impute_numeric sample_lib houses_imputed = Returns df1
    /\ target_encode sample_lib df1 = Returns df2
    /\ exists postcode enc,
        getitem df1 "postcode" = Returns postcode
        /\ getitem df2 "Postcode_Encoded" = Returns (Number enc)
        /\ Forall2 (fun k e => e = None <-> k = NA) (cells_of postcode) enc.
Proof.
  eexists. eexists. split; [vm_compute; reflexivity|].
  split; [vm_compute; reflexivity|].
  apply (postcode_encoded_gaps sample_lib houses_imputed); vm_compute;
    reflexivity.
Defined.

(** *** One-hot encoding *)

Lemma getitem_cols_app_found (a b : list column) (key : string) (s : series) :
  getitem_cols a key = Returns s -> getitem_cols (a ++ b) key = Returns s.
Proof.
  induction a as [|c a IH]; cbn [getitem_cols app]; [discriminate|].
  destruct (String.eqb (name c) key); auto.
Qed.

(** The dummies of an encoded column stand together in the result. *)
Lemma get_dummies_block (df : frame) (keys : list string) (c : column) :
  In c (columns df) -> mem_string (name c) keys = true ->
  exists pre post, columns (get_dummies df keys) = pre ++ dummies c ++ post.
Proof.
  intros Hc Hk. unfold get_dummies. cbn [columns].
  assert (In c (filter (fun c => mem_string (name c) keys) (columns df))) as Hin
      by (apply filter_In; now split).
  apply in_split in Hin. destruct Hin as [A [B ->]].
  exists (filter (fun c => negb (mem_string (name c) keys)) (columns df)
          ++ flat_map dummies A), (flat_map dummies B).
  rewrite flat_map_app. cbn [flat_map]. now rewrite <- !app_assoc.
Qed.

Lemma object_is_encoded (df : frame) (c : column) (v : list (option string)) :
  In c (columns df) -> data c = Object v ->
  mem_string (name c) (select_dtypes is_object df) = true.
Proof.
  intros Hc Hd. apply mem_string_In. unfold select_dtypes. apply in_map.
  apply filter_In. split; [exact Hc|]. now rewrite Hd.
Qed.

(** No text column is left by [get_dummies] on the text columns. *)
Lemma get_dummies_no_object (df : frame) :
  Forall (fun c => is_object (data c) = false)
         (columns (get_dummies df (select_dtypes is_object df))).
Proof.
  unfold get_dummies. cbn [columns]. apply Forall_app. split.
  - apply Forall_forall. intros c Hc. apply filter_In in Hc.
    destruct Hc as [Hc Hk]. destruct (is_object (data c)) eqn:E;
      [|reflexivity].
    assert (mem_string (name c) (select_dtypes is_object df) = true) as Hm.
    { apply mem_string_In. unfold select_dtypes. apply in_map.
      apply filter_In. now split. }
    rewrite Hm in Hk. discriminate.
  - apply Forall_forall. intros d Hd. apply in_flat_map in Hd.
    destruct Hd as [c [_ Hd]].
    pose proof (dummies_not_object c) as Hn. rewrite Forall_forall in Hn.
    now apply Hn.
Qed.

(** A column that is not encoded reads as before. *)
Lemma get_dummies_other (df : frame) (keys : list string) (key : string)
      (s : series) :
  getitem df key = Returns s -> mem_string key keys = false ->
  getitem (get_dummies df keys) key = Returns s.
Proof.
  intros Hget Hmem. unfold getitem, get_dummies. cbn [columns].
  apply getitem_cols_app_found. rewrite getitem_cols_filter; [exact Hget|].
  intros c <-. now rewrite Hmem.
Qed.

(** X14.  One-hot encoding keeps the rows, leaves no text column behind, and
    every column whose name is not that of a text column reads as before. *)
Theorem encode_categorical_keeps_other_columns (df df' : frame) :
  encode_categorical df = Returns df' ->
  index df' = index df
  /\ Forall (fun c => is_object (data c) = false) (columns df')
  /\ (wf_frame df = true -> wf_frame df' = true)
  /\ forall key s,
      getitem df key = Returns s ->
      mem_string key (select_dtypes is_object df) = false ->
      getitem df' key = Returns s.
Proof.
  unfold encode_categorical. intros [= <-].
  split; [reflexivity|]. split; [|split].
  - apply get_dummies_no_object.
  - apply get_dummies_wf.
  - intros key s Hget Hmem. now apply get_dummies_other.
Qed.

Lemma encode_categorical_keeps_other_columns_witness :
  exists df',
    encode_categorical houses_imputed = Returns df'
    /\ map name (columns df')
       = ["saleEstimate_currentPrice"; "postcode_E1"; "postcode_E2";
          "tenure_Freehold"; "tenure_Leasehold"]
    /\ index df' = index houses_imputed
    /\ Forall (fun c => is_object (data c) = false) (columns df')
    /\ (wf_frame houses_imputed = true -> wf_frame df' = true)
    /\ forall key s,
        getitem houses_imputed key = Returns s ->
        mem_string key (select_dtypes is_object houses_imputed) = false ->
        getitem df' key = Returns s.
Proof.
  eexists. split; [reflexivity|]. split; [vm_compute; reflexivity|].
  apply (encode_categorical_keeps_other_columns houses_imputed). reflexivity.
Defined.

End EncodeExtras.

(** ** One-hot columns *)

Module DummiesExtras.
Import Py Pandas Preprocessing Samples FrameExtras EncodeExtras.
Import Sorted.
Local Open Scope string_scope.
Local Open Scope list_scope.

Lemma compare_lt_trans (a b c : string) :
  String.compare a b = Lt -> String.compare b c = Lt -> String.compare a c = Lt.
Proof.
  intros H1 H2. apply OrderedTypeEx.String_as_OT.cmp_lt.
  apply OrderedTypeEx.String_as_OT.cmp_lt in H1, H2.
  exact (OrderedTypeEx.String_as_OT.lt_trans _ _ _ H1 H2).
Qed.

Lemma compare_lt_irrefl (a : string) : String.compare a a <> Lt.
Proof.
  assert (String.compare a a = Eq) as H
      by (now apply OrderedTypeEx.String_as_OT.cmp_eq).
  congruence.
Qed.

Lemma compare_gt_lt (a b : string) :
  String.compare a b = Gt -> String.compare b a = Lt.
Proof.
  intros H. rewrite String.compare_antisym, H. reflexivity.
Qed.

Lemma insert_category_In (s x : string) (l : list string) :
  In x (insert_category s l) <-> x = s \/ In x l.
Proof.
  induction l as [|t l IH]; cbn [insert_category].
  - cbn. intuition.
  - destruct (String.compare s t) eqn:E.
    + apply OrderedTypeEx.String_as_OT.cmp_eq in E. subst t. cbn. intuition.
    + cbn. intuition.
    + cbn [In]. rewrite IH. intuition.
Qed.

Lemma insert_category_sorted (s : string) (l : list string) :
  StronglySorted (fun a b => String.compare a b = Lt) l ->
  StronglySorted (fun a b => String.compare a b = Lt) (insert_category s l).
Proof.
  induction 1 as [|t l Hs IH Ht]; cbn [insert_category].
  - constructor; constructor.
  - destruct (String.compare s t) eqn:E.
    + now constructor.
    + constructor; [now constructor|]. constructor; [exact E|].
      rewrite Forall_forall in *. intros x Hx.
      exact (compare_lt_trans _ _ _ E (Ht x Hx)).
    + constructor; [exact IH|]. rewrite Forall_forall in *. intros x Hx.
      apply insert_category_In in Hx. destruct Hx as [->|Hx]; [|now apply Ht].
      now apply compare_gt_lt.
Qed.

Lemma categories_sorted (v : list (option string)) :
  StronglySorted (fun a b => String.compare a b = Lt) (categories v).
Proof.
  induction v as [|[s|] v IH]; cbn; [constructor| |exact IH].
  now apply insert_category_sorted.
Qed.

Lemma categories_In (v : list (option string)) (s : string) :
  In s (categories v) <-> In (Some s) v.
Proof.
  induction v as [|[t|] v IH]; cbn [categories fold_right In].
  - reflexivity.
  - fold (categories v). rewrite insert_category_In, IH. split.
    + intros [->|H]; auto.
    + intros [[= ->]|H]; auto.
  - fold (categories v). rewrite IH. split; [auto|].
    intros [H|H]; [discriminate|exact H].
Qed.

Lemma sorted_split (l1 l2 : list string) (s : string) :
  StronglySorted (fun a b => String.compare a b = Lt) (l1 ++ s :: l2) ->
  ~ In s l1 /\ ~ In s l2.
Proof.
  induction l1 as [|t l1 IH]; cbn [app]; intros H; inversion H as [|a l Hs Ha];
    subst.
  - split; [intros []|]. intros Hin. rewrite Forall_forall in Ha.
    exact (compare_lt_irrefl s (Ha s Hin)).
  - destruct (IH Hs) as [H1 H2]. split; [|exact H2].
    intros [->|Hin]; [|contradiction].
    rewrite Forall_forall in Ha.
    apply (compare_lt_irrefl s). apply Ha. apply in_or_app. right. now left.
Qed.

(** X15.  One-hot encoding puts, for each text column, one 0/1 column per
    distinct value of the column in the table, in sorted order, standing
    together and named [<column>_<value>]; the column of the value [l] has
    1 on the rows that hold [l] and 0 on the others, the rows where the
    value is missing among them.  So on a row holding the value [s] the
    column of [s] is 1 and every other one is 0. *)
Theorem dummies_one_hot (df df' : frame) (c : column) (v : list (option string)) :
  encode_categorical df = Returns df' ->
  In c (columns df) ->
  data c = Object v ->
  exists levels pre post,
    StronglySorted (fun a b => String.compare a b = Lt) levels
    /\ (forall s, In s levels <-> In (Some s) v)
    /\ columns df'
       = pre
         ++ map (fun l =>
                   {| name := String.append (name c) (String.append "_" l);
                      data := Integer
                                (map (fun x : option string =>
                                        match x with
                                        | Some s =>
                                            if String.eqb s l then 1%Z else 0%Z
                                        | None => 0%Z
                                        end) v) |})
                levels
         ++ post
    /\ forall i s,
        nth_error v i = Some (Some s) ->
        exists l1 l2,
          levels = l1 ++ s :: l2
          /\ map (fun l => if String.eqb s l then 1%Z else 0%Z) levels
             = map (fun _ => 0%Z) l1 ++ 1%Z :: map (fun _ => 0%Z) l2.
Proof.
  intros Henc Hc Hd. unfold encode_categorical in Henc. injection Henc as <-.
  pose proof (categories_sorted v) as Hs.
  destruct (get_dummies_block df (select_dtypes is_object df) c Hc
              (object_is_encoded df c v Hc Hd)) as [pre [post Hcols]].
  exists (categories v), pre, post.
  split; [exact Hs|]. split; [apply categories_In|]. split.
  - rewrite Hcols. unfold dummies. rewrite Hd. reflexivity.
  - intros i s Hx.
    assert (In s (categories v)) as Hin
        by (apply categories_In; eapply nth_error_In; eassumption).
    apply in_split in Hin. destruct Hin as [l1 [l2 E]].
    exists l1, l2. split; [exact E|]. rewrite E in *.
    destruct (sorted_split l1 l2 s Hs) as [H1 H2].
    rewrite map_app. cbn [map]. rewrite String.eqb_refl.
    f_equal; [|f_equal]; apply map_ext_in; intros l Hl;
      destruct (String.eqb s l) eqn:Es; try reflexivity;
      apply String.eqb_eq in Es; subst l; contradiction.
Qed.

Lemma dummies_one_hot_witness :
  let v := [Some "Leasehold"; Some "Freehold"; Some "Freehold"; None] in
  let df' := get_dummies houses_imputed
                         (select_dtypes is_object houses_imputed) in
  map name (columns df')
  = ["saleEstimate_currentPrice"; "postcode_E1"; "postcode_E2";
     "tenure_Freehold"; "tenure_Leasehold"]
  /\ getitem df' "tenure_Freehold" = Returns (Integer [0; 1; 1; 0]%Z)
  /\ getitem df' "tenure_Leasehold" = Returns (Integer [1; 0; 0; 0]%Z)
  /\ exists levels pre post,
      StronglySorted (fun a b => String.compare a b = Lt) levels
      /\ (forall s, In s levels <-> In (Some s) v)
      /\ columns df'
         = pre
           ++ map (fun l =>
                     {| name := String.append "tenure" (String.append "_" l);
                        data := Integer
                                  (map (fun x : option string =>
                                          match x with
                                          | Some s =>
                                              if String.eqb s l then 1%Z else 0%Z
                                          | None => 0%Z
                                          end) v) |})
                  levels
           ++ post
      /\ forall i s,
          nth_error v i = Some (Some s) ->
          exists l1 l2,
            levels = l1 ++ s :: l2
            /\ map (fun l => if String.eqb s l then 1%Z else 0%Z) levels
               = map (fun _ => 0%Z) l1 ++ 1%Z :: map (fun _ => 0%Z) l2.
Proof.
  cbv zeta. split; [vm_compute; reflexivity|].
  split; [vm_compute; reflexivity|]. split; [vm_compute; reflexivity|].
  apply (dummies_one_hot
           houses_imputed
           (get_dummies houses_imputed (select_dtypes is_object houses_imputed))
           (col "tenure" (Object [Some "Leasehold"; Some "Freehold";
                                  Some "Freehold"; None]))
           [Some "Leasehold"; Some "Freehold"; Some "Freehold"; None]).
  - reflexivity.
  - right. right. left. reflexivity.
  - reflexivity.
Defined.

End DummiesExtras.

(** ** The date columns *)

Module DateExtras.
Import Py Pandas Preprocessing Samples PandasFacts FrameExtras.
Import EncodingClaims ScriptFacts StepFacts.
Local Open Scope string_scope.
Local Open Scope list_scope.


Lemma Forall2_same_length {A B : Type} (R : A -> B -> Prop)
      (l : list A) (l' : list B) :
  Forall2 R l l' -> length l' = length l.
Proof. induction 1; cbn [length]; congruence. Qed.

Lemma dates_of_length (s : series) (ts : list (option Z)) :
  dates_of s ts -> length ts = series_length s.
Proof.
  unfold series_length.
  destruct s as [v|v|v|v|v]; cbn [dates_of cells_of]; rewrite ?length_map.
  - apply Forall2_same_length.
  - trivial.
  - apply Forall2_same_length.
  - now intros ->.
  - contradiction.
Qed.

Section Library.
Variable lib : library.








End Library.


End DateExtras.

(** ** The script as a whole *)

Module ScriptExtras.
Import Py Pandas Sklearn Preprocessing Samples PandasFacts FrameExtras.
Import CleaningClaims EncodingClaims ScriptFacts StepFacts EncodeExtras.
Local Open Scope string_scope.
Local Open Scope list_scope.

(** The frames between the statements of a run that completes. *)
Lemma script_stages (lib : library) (df0 df : frame) :
  run_steps (steps lib) df0 = Returns df ->
  exists d1 d2 d3 d5 d6 d7,
    remove_unnecessary df0 = Returns d1
    /\ correct_sale_date lib d1 = Returns d2
    /\ correct_history_date lib d2 = Returns d3
    /\ impute_numeric lib (dropna_rows d3) = Returns d5
    /\ target_encode lib d5 = Returns d6
    /\ drop_postcode d6 = Returns d7
    /\ encode_categorical d7 = Returns df.
Proof.
  unfold steps. cbn [run_steps run].
  destruct (remove_unnecessary df0) as [d1|] eqn:E1; [|discriminate].
  cbn [bind].
  destruct (correct_sale_date lib d1) as [d2|] eqn:E2; [|discriminate].
  cbn [bind].
  destruct (correct_history_date lib d2) as [d3|] eqn:E3; [|discriminate].
  cbn [bind]. unfold remove_sparse_rows at 1. cbn [bind].
  destruct (impute_numeric lib (dropna_rows d3)) as [d5|] eqn:E5; [|discriminate].
  cbn [bind].
  destruct (target_encode lib d5) as [d6|] eqn:E6; [|discriminate]. cbn [bind].
  destruct (drop_postcode d6) as [d7|] eqn:E7; [|discriminate]. cbn [bind].
  destruct (encode_categorical d7) as [d8|] eqn:E8; [|discriminate].
  cbn [bind]. intros [= <-]. now exists d1, d2, d3, d5, d6, d7.
Qed.

Lemma script_returns (lib : library)
      (read_csv : result frame) (to_csv : frame -> result unit) (df : frame) :
  preprocessing_script lib read_csv to_csv = Returns df ->
  exists df0, read_csv = Returns df0
              /\ run_steps (steps lib) df0 = Returns df.
Proof.
  unfold preprocessing_script. destruct read_csv as [df0|]; [|discriminate].
  cbn [bind]. destruct (run_steps (steps lib) df0) as [d|] eqn:E;
    [|discriminate].
  cbn [bind]. destruct (to_csv d); [|discriminate]. cbn [bind].
  intros [= <-]. exists df0. split; [reflexivity|exact E].
Qed.

(** X17.  The script can only complete on a table that has the eight columns it
    drops, the two date columns, the postcode and the current price. *)
Theorem script_requires_columns (lib : library)
        (read_csv : result frame) (to_csv : frame -> result unit) (df : frame) :
  preprocessing_script lib read_csv to_csv = Returns df ->
  exists df0,
    read_csv = Returns df0
    /\ Forall (fun k => has_column df0 k = true)
              ["fullAddress"; "rentEstimate_lowerPrice";
               "rentEstimate_currentPrice"; "rentEstimate_upperPrice";
               "saleEstimate_lowerPrice"; "saleEstimate_upperPrice";
               "outcode"; "saleEstimate_ingestedAt";
               "saleEstimate_valueChange.saleDate"; "history_date";
               "postcode"; "saleEstimate_currentPrice"].
Proof.
  intros H. apply script_returns in H. destruct H as [df0 [Hread Hrun]].
  exists df0. split; [exact Hread|].
  destruct (script_stages lib df0 df Hrun)
    as [d1 [d2 [d3 [d5 [d6 [d7 [E1 [E2 [E3 [E5 [E6 _]]]]]]]]]]].
  assert (Forall (fun k => has_column df0 k = true)
                 ["fullAddress"; "rentEstimate_lowerPrice";
                  "rentEstimate_currentPrice"; "rentEstimate_upperPrice";
                  "saleEstimate_lowerPrice"; "saleEstimate_upperPrice";
                  "outcode"; "saleEstimate_ingestedAt"]) as Hdropped.
  { apply Forall_forall. exact (drop_columns_all _ _ _ E1). }
  destruct (convert_date_column_keeps _ _ _ _ E2) as [Hsale [N2 _]].
  destruct (convert_date_column_keeps _ _ _ _ E3) as [Hhist [N3 _]].
  destruct (impute_numeric_keeps _ _ _ E5) as [_ [_ [N5 _]]].
  destruct (target_encode_keeps _ _ _ E6) as [Hpost [Hprice _]].
  unfold dropna_rows in N5. rewrite dropna_names in N5.
  assert (forall k, has_column d5 k = true -> has_column df0 k = true) as Hback.
  { intros k Hk. apply (drop_columns_has _ _ _ _ E1).
    rewrite <- (names_has d1 d2 k N2), <- (names_has d2 d3 k N3).
    now rewrite <- (names_has d3 d5 k N5). }
  apply Forall_app with (l1 := [_; _; _; _; _; _; _; _]).
  split; [exact Hdropped|].
  repeat constructor.
  - now apply (drop_columns_has _ _ _ _ E1).
  - apply (drop_columns_has _ _ _ _ E1). now rewrite <- (names_has d1 d2 _ N2).
  - now apply Hback.
  - now apply Hback.
Qed.

Lemma setitem_columns (df df' : frame) (key : string) (s : series) :
  setitem df key s = Returns df' ->
  Forall (fun c => (In c (columns df) /\ name c <> key)
                   \/ (name c = key /\ data c = s)) (columns df').
Proof.
  unfold setitem.
  destruct (negb (Nat.eqb (series_length s) (nrows df))); [discriminate|].
  destruct (has_column df key) eqn:Eh; intros [= <-]; cbn [columns];
    apply Forall_forall; intros c Hc.
  - apply in_map_iff in Hc. destruct Hc as [c0 [<- Hc0]].
    destruct (String.eqb (name c0) key) eqn:E; [right; now split|left].
    split; [exact Hc0|]. now apply String.eqb_neq.
  - apply in_app_or in Hc. destruct Hc as [Hc|[<-|[]]]; [left|right; now split].
    split; [exact Hc|]. intros <-.
    assert (has_column df (name c) = true) as Hh
        by (apply has_column_In; now apply in_map).
    congruence.
Qed.

Lemma drop_columns_subset (labels : list string) (df df' : frame) :
  drop_columns labels df = Returns df' ->
  forall c, In c (columns df') -> In c (columns df).
Proof.
  unfold drop_columns. destruct (filter _ labels); [|discriminate].
  intros [= <-] c Hc. cbn [columns] in Hc. now apply filter_In in Hc.
Qed.

Lemma drop_columns_getitem (labels : list string) (df df' : frame)
      (key : string) :
  drop_columns labels df = Returns df' ->
  mem_string key labels = false ->
  getitem df' key = getitem df key.
Proof.
  unfold drop_columns. destruct (filter _ labels); [|discriminate].
  intros [= <-] Hm. unfold getitem. cbn [columns].
  apply getitem_cols_filter. intros c <-. now rewrite Hm.
Qed.

(** The column written by the target encoding is still the one read from
    the output. *)
Lemma encoded_survives (lib : library) (d5 d6 d7 df : frame) :
  target_encode lib d5 = Returns d6 ->
  drop_postcode d6 = Returns d7 ->
  encode_categorical d7 = Returns df ->
  exists enc,
    getitem df "Postcode_Encoded" = Returns (Number enc)
    /\ length enc = nrows d5.
Proof.
  intros E6 E7 E8. unfold target_encode in E6.
  destruct (groupby_mean lib d5 "postcode" "saleEstimate_currentPrice") as [t|];
    [|discriminate]. cbn [bind] in E6.
  destruct (getitem d5 "postcode") as [k|]; [|discriminate]. cbn [bind] in E6.
  pose proof (setitem_columns _ _ _ _ E6) as Hcols.
  rewrite Forall_forall in Hcols.
  assert (Nat.eqb (series_length (series_map k t)) (nrows d5) = true) as Hlen.
  { unfold setitem in E6.
    destruct (Nat.eqb (series_length (series_map k t)) (nrows d5));
      [reflexivity|discriminate]. }
  apply getitem_setitem in E6. destruct E6 as [Hget _].
  rewrite <- (drop_columns_getitem _ _ _ "Postcode_Encoded" E7 eq_refl) in Hget.
  unfold series_map in *. eexists. split.
  - unfold encode_categorical in E8. injection E8 as <-.
    unfold getitem, get_dummies. cbn [columns].
    apply getitem_cols_app_found. rewrite getitem_cols_filter; [exact Hget|].
    intros c Hname.
    destruct (mem_string (name c) (select_dtypes is_object d7)) eqn:Hm;
      [|reflexivity].
    apply mem_string_In in Hm. unfold select_dtypes in Hm.
    apply in_map_iff in Hm. destruct Hm as [c' [Hn' Hc']].
    apply filter_In in Hc'. destruct Hc' as [Hc' Hobj].
    apply (drop_columns_subset _ _ _ E7) in Hc'.
    destruct (Hcols c' Hc') as [[_ Hne]|[_ Hd]]; [congruence|].
    rewrite Hd in Hobj. discriminate.
  - apply Nat.eqb_eq in Hlen. unfold series_length in Hlen.
    cbn [cells_of] in Hlen. now rewrite length_map in Hlen.
Qed.

(** X18.  What the script writes: a well-formed table with at least one row,
    whose rows are rows of the input in their order, without any text
    column, and with the encoded postcode as a numeric column. *)
Theorem script_output_shape (lib : library)
        (read_csv : result frame) (to_csv : frame -> result unit)
        (df0 df : frame) :
  read_csv = Returns df0 ->
  wf_frame df0 = true ->
  preprocessing_script lib read_csv to_csv = Returns df ->
  wf_frame df = true
  /\ nrows df <> 0
  /\ (exists mask, index df = select mask (index df0))
  /\ Forall (fun c => is_object (data c) = false) (columns df)
  /\ exists enc, getitem df "Postcode_Encoded" = Returns (Number enc)
                 /\ length enc = nrows df.
Proof.
  intros Hread Hwf H. apply script_returns in H.
  destruct H as [df0' [Hread' Hrun]].
  assert (df0' = df0) as -> by congruence.
  destruct (script_stages lib df0 df Hrun)
    as [d1 [d2 [d3 [d5 [d6 [d7 [E1 [E2 [E3 [E5 [E6 [E7 E8]]]]]]]]]]]].
  pose proof (drop_columns_wf _ _ _ Hwf E1) as W1.
  destruct (convert_date_column_keeps _ _ _ _ E2) as [_ [_ W2]].
  destruct (convert_date_column_keeps _ _ _ _ E3) as [_ [_ W3]].
  destruct (impute_numeric_keeps _ _ _ E5) as [I5 [R5 [_ W5]]].
  destruct (target_encode_keeps _ _ _ E6) as [_ [_ W6]].
  pose proof (W6 (W5 (dropna_wf _ _ (W3 (W2 W1))))) as Hwf6.
  pose proof (drop_columns_wf _ _ _ Hwf6 E7) as Hwf7.
  assert (index df = index d5) as Hi.
  { unfold encode_categorical in E8. injection E8 as <-. cbn [get_dummies index].
    rewrite (drop_columns_index _ _ _ E7). now apply (target_encode_index lib). }
  assert (nrows df = nrows d5) as Hn by (unfold nrows; now rewrite Hi).
  split; [|split; [|split; [|split]]].
  - unfold encode_categorical in E8. injection E8 as <-.
    now apply get_dummies_wf.
  - rewrite Hn. unfold nrows in *. now rewrite I5.
  - exists (keep_mask (row_threshold d3) d3). rewrite Hi, I5.
    unfold dropna_rows, dropna. cbn [index].
    rewrite (convert_date_column_index _ _ _ _ E3).
    rewrite (convert_date_column_index _ _ _ _ E2).
    now rewrite (drop_columns_index _ _ _ E1).
  - unfold encode_categorical in E8. injection E8 as <-.
    unfold get_dummies. cbn [columns]. apply Forall_app. split.
    + apply Forall_forall. intros c Hc. apply filter_In in Hc.
      destruct Hc as [Hc Hk]. destruct (is_object (data c)) eqn:E;
        [|reflexivity].
      assert (mem_string (name c) (select_dtypes is_object d7) = true) as Hm.
      { apply mem_string_In. unfold select_dtypes. apply in_map.
        apply filter_In. now split. }
      rewrite Hm in Hk. discriminate.
    + apply Forall_forall. intros d Hd. apply in_flat_map in Hd.
      destruct Hd as [c [_ Hd]].
      pose proof (dummies_not_object c) as Hno. rewrite Forall_forall in Hno.
      now apply Hno.
  - rewrite Hn. exact (encoded_survives lib d5 d6 d7 df E6 E7 E8).
Qed.

(** X19.  Every numeric column the script writes is free of missing values,
    except the encoded postcode (missing where the postcode is). *)
Theorem script_output_complete (lib : library)
        (read_csv : result frame) (to_csv : frame -> result unit) (df : frame) :
  preprocessing_script lib read_csv to_csv = Returns df ->
  Forall (fun c => name c = "Postcode_Encoded"
                   \/ forall v, data c = Number v ->
                                Forall (fun x => x <> None) v)
         (columns df).
Proof.
  intros H. apply script_returns in H. destruct H as [df0 [_ Hrun]].
  destruct (script_stages lib df0 df Hrun)
    as [d1 [d2 [d3 [d5 [d6 [d7 [_ [_ [_ [E5 [E6 [E7 E8]]]]]]]]]]]].
  pose proof (impute_numeric_leaves_no_gap _ _ _ E5) as H5.
  rewrite Forall_forall in H5.
  assert (forall c, In c (columns d7) ->
                    name c = "Postcode_Encoded"
                    \/ forall v, data c = Number v ->
                                 Forall (fun x => x <> None) v) as H7.
  { intros c Hc. apply (drop_columns_subset _ _ _ E7) in Hc.
    unfold target_encode in E6.
    destruct (groupby_mean lib d5 "postcode" "saleEstimate_currentPrice") as [t|];
      [|discriminate]. cbn [bind] in E6.
    destruct (getitem d5 "postcode") as [k|]; [|discriminate].
    cbn [bind] in E6. pose proof (setitem_columns _ _ _ _ E6) as Hcols.
    rewrite Forall_forall in Hcols.
    destruct (Hcols c Hc) as [[Hin _]|[Hn _]]; [right|now left].
    now apply H5. }
  unfold encode_categorical in E8. injection E8 as <-.
  unfold get_dummies. cbn [columns]. apply Forall_app. split.
  - apply Forall_forall. intros c Hc. apply filter_In in Hc. now apply H7.
  - apply Forall_forall. intros d Hd. apply in_flat_map in Hd.
    destruct Hd as [c [Hc Hd]]. apply filter_In in Hc. destruct Hc as [Hc _].
    unfold dummies in Hd. destruct (data c) as [v|v|v|v|v] eqn:E;
      try (destruct Hd as [<-|[]]; now apply H7).
    apply in_map_iff in Hd. destruct Hd as [level [<- _]]. right.
    cbn [data]. discriminate.
Qed.

Lemma script_requires_columns_witness :
  exists df df0,
    preprocessing_script sample_lib (Returns houses) (fun _ => Returns tt)
    = Returns df
    /\ Returns houses = Returns df0
    /\ Forall (fun k => has_column df0 k = true)
              ["fullAddress"; "rentEstimate_lowerPrice";
               "rentEstimate_currentPrice"; "rentEstimate_upperPrice";
               "saleEstimate_lowerPrice"; "saleEstimate_upperPrice";
               "outcode"; "saleEstimate_ingestedAt";
               "saleEstimate_valueChange.saleDate"; "history_date";
               "postcode"; "saleEstimate_currentPrice"].
Proof.
  eexists.
  assert (preprocessing_script sample_lib (Returns houses)
                               (fun _ => Returns tt) = Returns _) as H
      by (vm_compute; reflexivity).
  destruct (script_requires_columns sample_lib (Returns houses)
                                    (fun _ => Returns tt) _ H) as [df0 H0].
  exists df0. split; [exact H|exact H0].
Defined.

Lemma script_output_shape_witness :
  exists df,
    preprocessing_script sample_lib (Returns houses) (fun _ => Returns tt)
    = Returns df
    /\ index df = [0; 1; 3]
    /\ wf_frame df = true
    /\ nrows df <> 0
    /\ (exists mask, index df = select mask (index houses))
    /\ Forall (fun c => is_object (data c) = false) (columns df)
    /\ exists enc, getitem df "Postcode_Encoded" = Returns (Number enc)
                   /\ length enc = nrows df.
Proof.
  eexists. split; [vm_compute; reflexivity|]. split; [reflexivity|].
  apply (script_output_shape sample_lib (Returns houses)
                             (fun _ => Returns tt) houses);
    vm_compute; reflexivity.
Defined.

Lemma script_output_complete_witness :
  exists df,
    preprocessing_script sample_lib (Returns houses) (fun _ => Returns tt)
    = Returns df
    /\ Forall (fun c => name c = "Postcode_Encoded"
                        \/ forall v, data c = Number v ->
                                     Forall (fun x => x <> None) v)
              (columns df).
Proof.
  eexists. split; [vm_compute; reflexivity|].
  apply (script_output_complete sample_lib (Returns houses)
                                (fun _ => Returns tt)).
  vm_compute. reflexivity.
Defined.

End ScriptExtras.


(** ** The script, statement by statement *)

Module ScriptClaims.
Import Py Pandas Sklearn Preprocessing Samples PandasFacts.
Import CleaningClaims EncodingClaims ScriptFacts FrameExtras StepFacts.
Import EncodeExtras DummiesExtras DateExtras.
Local Open Scope string_scope.
Local Open Scope list_scope.





End ScriptClaims.
